(** * ASAUpdater: per-device upgrade sequence, session connector and
      worker pool.

    Shallow embedding of [ASAUpdater.upgrade_asa],
    [helpers.device_helper.DeviceHelper] and
    [helpers.threading_helper.ThreadingHelper].

    The netmiko session, the SCP file transfer, the file system, the
    clock and the ping subprocess are external: every call to them goes
    through one typed handler on an abstract world and is appended to a
    trace, so that "was never attempted" is a statement about the trace.
    Python exceptions are results ([Raise]); the [Device] object, which the
    source mutates in place, is a component of the threaded state. *)

From Stdlib Require Import String Ascii List ZArith Bool Lia Permutation.
From Stdlib Require Import DecimalString.
Import ListNotations.
Open Scope string_scope.

(** ** Python strings (ASCII text) *)

Module PyStr.

(** [str.lower] on ASCII letters. *)
Definition lower_ascii (c : ascii) : ascii :=
  let n := nat_of_ascii c in
  if andb (Nat.leb 65 n) (Nat.leb n 90) then ascii_of_nat (n + 32) else c.

Fixpoint lower (s : string) : string :=
  match s with
  | EmptyString => EmptyString
  | String c r => String (lower_ascii c) (lower r)
  end.

(** Whitespace as [str.split()] without arguments sees it. *)
Definition is_space (c : ascii) : bool :=
  let n := nat_of_ascii c in
  orb (andb (Nat.leb 9 n) (Nat.leb n 13))
      (orb (andb (Nat.leb 28 n) (Nat.leb n 31)) (Nat.eqb n 32)).

(** [s.split(sep)] for a one-character separator: empty fields are kept. *)
Fixpoint split_on (sep : ascii) (s : string) (cur : string) : list string :=
  match s with
  | EmptyString => [cur]
  | String c r =>
      if Ascii.eqb c sep then cur :: split_on sep r EmptyString
      else split_on sep r (cur ++ String c EmptyString)
  end.

(** [s.split()]: runs of whitespace separate, no empty fields. *)
Fixpoint split_ws (s : string) (cur : string) : list string :=
  match s with
  | EmptyString => if String.eqb cur EmptyString then [] else [cur]
  | String c r =>
      if is_space c
      then (if String.eqb cur EmptyString then split_ws r EmptyString
            else cur :: split_ws r EmptyString)
      else split_ws r (cur ++ String c EmptyString)
  end.

Definition split (s : string) : list string := split_ws s EmptyString.

(** [prompt[0:(len(prompt) - 1)]]: for the empty string the slice is
    [prompt[0:-1]], again empty. *)
Definition slice_0_to_len_minus_1 (s : string) : string :=
  substring 0 (String.length s - 1) s.

(** [s.startswith(p)] *)
Fixpoint startswith (p s : string) {struct p} : bool :=
  match p with
  | EmptyString => true
  | String a p' =>
      match s with
      | EmptyString => false
      | String b s' => andb (Ascii.eqb a b) (startswith p' s')
      end
  end.

(** [f"{n}"] for an int. *)
Definition of_int (z : Z) : string := NilZero.string_of_int (Z.to_int z).

End PyStr.

(** [pathlib.Path(p).name] on a POSIX host: the last component, where
    empty components and the dot component are dropped while parsing; the
    empty string when none is left. *)
Definition path_parts (p : string) : list string :=
  filter (fun c => negb (orb (String.eqb c EmptyString) (String.eqb c ".")))
         (PyStr.split_on "/"%char p EmptyString).

Definition Path_name (p : string) : string := last (path_parts p) EmptyString.

(** ** Exceptions and results *)

Inductive exn_class : Type :=
| ConnectionException
| ValueError
| TypeError
| AttributeError
| NetMikoAuthenticationException
| NetMikoTimeoutException
| OtherException.

Record exn : Type := Exn { exn_cls : exn_class; exn_msg : string }.

Definition exn_class_eqb (a b : exn_class) : bool :=
  match a, b with
  | ConnectionException, ConnectionException
  | ValueError, ValueError
  | TypeError, TypeError
  | AttributeError, AttributeError
  | NetMikoAuthenticationException, NetMikoAuthenticationException
  | NetMikoTimeoutException, NetMikoTimeoutException
  | OtherException, OtherException => true
  | _, _ => false
  end.

Inductive res (A : Type) : Type :=
| Ok (a : A)
| Raise (e : exn).
Arguments Ok {A} a.
Arguments Raise {A} e.

(** ** Data model *)

(** A credential set is a dict with string keys. *)
Definition cred : Type := list (string * string).

Fixpoint dict_get (k : string) (c : cred) : option string :=
  match c with
  | [] => None
  | (k', v) :: r => if String.eqb k k' then Some v else dict_get k r
  end.

(** What the caller may pass as [credentials]. *)
Inductive py_credentials : Type :=
| CredNone
| CredDict (c : cred)
| CredList (l : list cred).


(** What the caller may pass as [device_type]. *)
Inductive py_device_type : Type :=
| DTStr (s : string)
| DTList (l : list string).

(** class Device *)
Record Device : Type := mkDevice {
  ip_address : string;
  name : string;
  connected : bool;
  successfully_rebooted : bool;
  file_uploaded : bool;
  error : string;
  credentials : py_credentials;
  config_backed_up : bool
}.

(** [Device.__init__] *)
Definition Device_init (ip : string) : Device :=
  {| ip_address := ip; name := EmptyString; connected := false;
     successfully_rebooted := false; file_uploaded := false; error := EmptyString;
     credentials := CredNone; config_backed_up := false |}.

Definition set_name (v : string) (d : Device) : Device :=
  {| ip_address := ip_address d; name := v; connected := connected d;
     successfully_rebooted := successfully_rebooted d;
     file_uploaded := file_uploaded d; error := error d;
     credentials := credentials d; config_backed_up := config_backed_up d |}.

Definition set_connected (v : bool) (d : Device) : Device :=
  {| ip_address := ip_address d; name := name d; connected := v;
     successfully_rebooted := successfully_rebooted d;
     file_uploaded := file_uploaded d; error := error d;
     credentials := credentials d; config_backed_up := config_backed_up d |}.

Definition set_successfully_rebooted (v : bool) (d : Device) : Device :=
  {| ip_address := ip_address d; name := name d; connected := connected d;
     successfully_rebooted := v;
     file_uploaded := file_uploaded d; error := error d;
     credentials := credentials d; config_backed_up := config_backed_up d |}.

Definition set_file_uploaded (v : bool) (d : Device) : Device :=
  {| ip_address := ip_address d; name := name d; connected := connected d;
     successfully_rebooted := successfully_rebooted d;
     file_uploaded := v; error := error d;
     credentials := credentials d; config_backed_up := config_backed_up d |}.

Definition set_error (v : string) (d : Device) : Device :=
  {| ip_address := ip_address d; name := name d; connected := connected d;
     successfully_rebooted := successfully_rebooted d;
     file_uploaded := file_uploaded d; error := v;
     credentials := credentials d; config_backed_up := config_backed_up d |}.

Definition set_credentials (v : py_credentials) (d : Device) : Device :=
  {| ip_address := ip_address d; name := name d; connected := connected d;
     successfully_rebooted := successfully_rebooted d;
     file_uploaded := file_uploaded d; error := error d;
     credentials := v; config_backed_up := config_backed_up d |}.

(** The keyword dictionary handed to [ConnectHandler] as keyword arguments. *)
Record conn_dict : Type := mkConnDict {
  d_ip : string;
  d_timeout : option Z;
  d_username : option string;
  d_password : option string;
  d_secret : option string;
  d_device_type : option string
}.

(** ** External calls *)

Inductive call : Type -> Type :=
| ConnectHandler (device : conn_dict) : call unit
| Conn_enable : call unit
| Conn_find_prompt : call string
| Conn_send_command (cmd : string) : call string
| Conn_send_config_set (cmds : list string) : call string
| Conn_save_config : call string
| Conn_other (method : string) (args : list string) : call string
| Path_is_dir (p : string) : call bool
| Datetime_now : call string
| File_writelines (p : string) (content : string) : call unit
| FileTransfer_enter (source_file dest_file file_system : string) : call unit
| Scp_verify_space_available : call bool
| Scp_transfer_file : call unit
| Scp_verify_file : call bool
| FileTransfer_exit : call unit
| Time_sleep (secs : Z) : call unit
| Popen_wait_poll (command : list string) : call Z.

(** One trace entry: a call and what came back, or a call that was not made
    because the attribute lookup failed. *)
Inductive event : Type :=
| Ev {A : Type} (c : call A) (r : res A)
| EvNoAttr {A : Type} (attr : string) (c : call A).

(** The environment the code runs in.  [handle] answers the external calls
    and moves the world; [conn_hasattr] says which attributes the connection
    object has (a call through a missing one raises [AttributeError]);
    [str_is] is object identity of two strings (the [is] operator);
    [sys_platform] is [sys.platform]. *)
Record Env (W : Type) : Type := mkEnv {
  handle : forall A : Type, call A -> W -> res A * W;
  conn_hasattr : string -> bool;
  str_is : string -> string -> bool;
  sys_platform : string
}.
Arguments handle {W} _ {A} _ _.
Arguments conn_hasattr {W} _ _.
Arguments str_is {W} _ _ _.
Arguments sys_platform {W} _.

(** The session handle [connect_to_device] returns: it remembers the keyword
    dictionary it was opened with. *)
Record connection : Type := mkConnection { conn_args : conn_dict }.

(** What a call of [upgrade_asa] hands back: [None] (falling off the end) or
    the [device] object it was given. *)
Inductive retval : Type :=
| RetNone
| RetDevice.

(** ** State and exception monad *)

Record st (W : Type) : Type := mkSt {
  world : W;
  dev : Device;
  trace : list event
}.
Arguments mkSt {W} _ _ _.
Arguments world {W} _.
Arguments dev {W} _.
Arguments trace {W} _.

Definition M (W A : Type) : Type := st W -> res A * st W.

Definition ret {W A} (a : A) : M W A := fun s => (Ok a, s).

Definition bind {W A B} (m : M W A) (k : A -> M W B) : M W B :=
  fun s =>
    match m s with
    | (Ok a, s') => k a s'
    | (Raise e, s') => (Raise e, s')
    end.

Definition raise {W A} (cls : exn_class) (msg : string) : M W A :=
  fun s => (Raise (Exn cls msg), s).

(** [try: m except cls: h] *)
Definition try_except {W A} (m : M W A) (cls : exn_class) (h : exn -> M W A)
  : M W A :=
  fun s =>
    match m s with
    | (Ok a, s') => (Ok a, s')
    | (Raise e, s') =>
        if exn_class_eqb (exn_cls e) cls then h e s' else (Raise e, s')
    end.

Declare Scope py_scope.
Delimit Scope py_scope with py.
Notation "x <- m ;; k" := (bind m (fun x => k))
  (at level 61, m at next level, right associativity) : py_scope.
Notation "m ;;; k" := (bind m (fun _ => k))
  (at level 61, right associativity) : py_scope.
Open Scope py_scope.

Definition get_dev {W} : M W Device := fun s => (Ok (dev s), s).

Definition modify_dev {W} (f : Device -> Device) : M W unit :=
  fun s => (Ok tt, mkSt (world s) (f (dev s)) (trace s)).

Definition log {W} (e : event) : M W unit :=
  fun s => (Ok tt, mkSt (world s) (dev s) (trace s ++ [e])).

Section Program.

Context {W : Type} (env : Env W).

(** An external call: answered by the environment and recorded. *)
Definition extcall {A} (c : call A) : M W A :=
  fun s =>
    let (r, w') := handle env c (world s) in
    (r, mkSt w' (dev s) (trace s ++ [Ev c r])).

(** [connection.attr(...)]: the attribute is looked up first. *)
Definition conn_method {A} (attr : string) (c : call A) : M W A :=
  if conn_hasattr env attr then extcall c
  else log (EvNoAttr attr c) ;;; raise AttributeError attr.

(** *** helpers/device_helper.py *)

Definition truthy_credentials (c : py_credentials) : bool :=
  match c with
  | CredNone => false
  | CredDict [] => false
  | CredDict _ => true
  | CredList [] => false
  | CredList _ => true
  end.

Definition truthy_timeout (t : option Z) : bool :=
  match t with
  | None => false
  | Some z => negb (Z.eqb z 0)
  end.

(** [for c in credentials]: the body's updates of the [device] dict. *)
Definition set_credential (c : cred) (device : conn_dict) : conn_dict :=
  let username :=
    match dict_get "username" c with Some u => Some u | None => d_username device end in
  let password :=
    match dict_get "password" c with Some p => Some p | None => d_password device end in
  {| d_ip := d_ip device; d_timeout := d_timeout device;
     d_username := username; d_password := password;
     d_secret := dict_get "secret" c;
     d_device_type := d_device_type device |}.

Definition set_device_type (d : string) (device : conn_dict) : conn_dict :=
  {| d_ip := d_ip device; d_timeout := d_timeout device;
     d_username := d_username device; d_password := d_password device;
     d_secret := d_secret device; d_device_type := Some d |}.

(** [for d in device_type]: a [str] iterates over its characters. *)
Definition iter_device_type (dt : py_device_type) : list string :=
  match dt with
  | DTStr s => map (fun c => String c EmptyString) (list_ascii_of_string s)
  | DTList l => l
  end.

(** The body of the inner [try]. *)
Definition attempt (enable_mode : bool) (device : conn_dict) : M W connection :=
  extcall (ConnectHandler device) ;;;
  (if enable_mode then conn_method "enable" Conn_enable else ret tt) ;;;
  ret (mkConnection device).

(** The inner loop; [Some connection] is the [return connection], [None]
    is the loop running out. The dict is handed on as the loop leaves it. *)
Fixpoint for_device_type (enable_mode : bool) (device : conn_dict)
         (types : list string) : M W (option connection * conn_dict) :=
  match types with
  | [] => ret (None, device)
  | d :: rest =>
      let device := set_device_type d device in
      r <- try_except
             (try_except
                (c <- attempt enable_mode device ;; ret (Some c))
                NetMikoAuthenticationException (fun _ => ret None))
             NetMikoTimeoutException (fun e => fun s => (Raise e, s)) ;;
      match r with
      | Some c => ret (Some c, device)
      | None => for_device_type enable_mode device rest
      end
  end.

Fixpoint for_credentials (enable_mode : bool) (device : conn_dict)
         (types : list string) (creds : list cred) : M W (option connection) :=
  match creds with
  | [] => ret None
  | c :: rest =>
      let device := set_credential c device in
      r <- for_device_type enable_mode device types ;;
      match r with
      | (Some conn, _) => ret (Some conn)
      | (None, device) => for_credentials enable_mode device types rest
      end
  end.

(** [DeviceHelper.connect_to_device].  [credentials] is [None], a dict or
    a list, so after the dict has been wrapped [isinstance(credentials,
    list)] holds and [device_type] stays as it was passed. *)
Definition connect_to_device (ipaddr : string) (credentials : py_credentials)
           (enable_mode : bool) (device_type : py_device_type)
           (timeout : option Z) : M W connection :=
  if truthy_credentials credentials then
    let device :=
      {| d_ip := ipaddr;
         d_timeout := if truthy_timeout timeout then timeout else None;
         d_username := None; d_password := None; d_secret := None;
         d_device_type := None |} in
    let creds :=
      match credentials with
      | CredDict c => [c]
      | CredList l => l
      | CredNone => []
      end in
    try_except
      (r <- for_credentials enable_mode device (iter_device_type device_type) creds ;;
       match r with
       | Some conn => ret conn
       | None => raise ConnectionException "Unable to connect to device"
       end)
      NetMikoTimeoutException
      (fun _ => raise ConnectionException "Connection to device timed out")
  else
    raise ConnectionException "No Credentials provided".

(** [datetime.strptime] is a class method of two positional parameters
    [(date_string, format)]; called as [dt.strptime(format=...)] it raises
    [TypeError] before anything is parsed. *)
Definition strptime_format_only (format : string) : M W string :=
  raise TypeError "strptime() takes no keyword arguments".

(** [DeviceHelper.backup_config]; [Path(None)] raises [TypeError]. *)
Definition backup_config (config : string) (location : option string)
           (hostname : string) : M W unit :=
  match location with
  | None => raise TypeError "expected str, bytes or os.PathLike object, not NoneType"
  | Some path =>
      is_dir <- extcall (Path_is_dir path) ;;
      if is_dir then
        extcall Datetime_now ;;;
        dt <- strptime_format_only "%Y-%m-%d_%H-%m" ;;
        let filename := hostname ++ "_" ++ dt ++ ".txt" in
        extcall (File_writelines (path ++ "/" ++ filename) config)
      else
        raise ValueError ("Location is not a directory - " ++ path)
  end.

(** [DeviceHelper.ping] *)
Definition ping (host : string) (ping_count : Z) : M W bool :=
  let param :=
    if str_is env (sys_platform env) "windows"
    then "-n " ++ PyStr.of_int ping_count
    else "-c " ++ PyStr.of_int ping_count in
  let command := PyStr.split ("ping " ++ param ++ " " ++ host) in
  result <- extcall (Popen_wait_poll command) ;;
  if Z.eqb result 0 then ret true else ret false.

(** *** ASAUpdater.py *)

(** [with FileTransfer(...) as scp: body]: the handle is released on every
    way out of the body, and an exception of the body goes on. *)
Definition with_FileTransfer {A} (source_file dest_file file_system : string)
           (body : M W A) : M W A :=
  extcall (FileTransfer_enter source_file dest_file file_system) ;;;
  fun s =>
    match body s with
    | (Ok a, s') => (extcall FileTransfer_exit ;;; ret a) s'
    | (Raise e, s') => (extcall FileTransfer_exit ;;; (fun s => (Raise e, s))) s'
    end.

(** The [with] block of [upgrade_asa]. *)
Definition upload_block : M W unit :=
  space <- extcall Scp_verify_space_available ;;
  if space then
    extcall Scp_transfer_file ;;;
    verified <- extcall Scp_verify_file ;;
    if negb verified then
      modify_dev (set_error "File transfer verifier failed")
    else
      modify_dev (set_file_uploaded true)
  else
    modify_dev (set_error "Not enough space to upload file").

(** The [if reboot:] block. *)
Definition reboot_block : M W retval :=
  conn_method "send_confg_set" (Conn_other "send_confg_set" ["reboot"]) ;;;
  conn_method "send_confg_set" (Conn_other "send_confg_set" ["y"]) ;;;
  extcall (Time_sleep 300) ;;;
  device <- get_dev ;;
  r <- ping (ip_address device) 4 ;;
  modify_dev (set_successfully_rebooted r) ;;;
  ret RetDevice.

(** The [if device.file_uploaded:] block. *)
Definition boot_block (image_type dest_drive image_file_name : string)
           (reboot : bool) : M W retval :=
  let asa_file_path := dest_drive ++ "/" ++ image_file_name in
  (if String.eqb (PyStr.lower image_type) "asa" then
     conn_method "send_config_set"
       (Conn_send_config_set ["boot system " ++ asa_file_path]) ;;; ret tt
   else if String.eqb (PyStr.lower image_type) "asdm" then
     conn_method "send_config_set"
       (Conn_send_config_set ["asdm image " ++ asa_file_path]) ;;; ret tt
   else ret tt) ;;;
  conn_method "save_config" Conn_save_config ;;;
  if reboot then reboot_block else ret RetNone.

(** The body of the [try] of [upgrade_asa]. *)
Definition upgrade_asa_try (image_type image_location dest_drive : string)
           (reboot backup_cfg : bool) (backup_location : option string)
  : M W retval :=
  device <- get_dev ;;
  connect_to_device (ip_address device) (credentials device) true
                    (DTList ["cisco_asa"]) None ;;;
  modify_dev (set_connected true) ;;;
  prompt <- conn_method "find_prompt" Conn_find_prompt ;;
  modify_dev (set_name (PyStr.slice_0_to_len_minus_1 prompt)) ;;;
  (if backup_cfg then
     config <- conn_method "send_command" (Conn_send_command "sh run") ;;
     device <- get_dev ;;
     backup_config config backup_location (name device)
   else ret tt) ;;;
  let image_file_name := Path_name image_location in
  output <- conn_method "send_command"
              (Conn_send_command "sh run | i ssh scopy enable") ;;
  scp_enabled <-
    (if str_is env (PyStr.lower output) "ssh copy enable" then ret true
     else
       conn_method "send_config_set" (Conn_send_config_set ["ssh scopy enable"]) ;;;
       ret false) ;;
  with_FileTransfer image_location image_file_name dest_drive upload_block ;;;
  (if negb scp_enabled then
     conn_method "send_config_set"
       (Conn_send_config_set ["no ssh scopy enable"]) ;;; ret tt
   else ret tt) ;;;
  device <- get_dev ;;
  if file_uploaded device then
    boot_block image_type dest_drive image_file_name reboot
  else ret RetNone.

(** [upgrade_asa]: the [try] with its two handlers. *)
Definition upgrade_asa (image_type image_location dest_drive : string)
           (reboot backup_cfg : bool) (backup_location : option string)
  : M W retval :=
  let handler := fun _ : exn =>
    modify_dev (set_connected false) ;;; ret RetDevice in
  try_except
    (try_except
       (upgrade_asa_try image_type image_location dest_drive reboot
                        backup_cfg backup_location)
       ConnectionException handler)
    ValueError handler.

End Program.

(** ** Running the sequencer *)

Section Run.

Context {W : Type} (env : Env W).

(** One call of [upgrade_asa] on [device] in world [w], from an empty
    trace. *)
Definition run_upgrade_asa (device : Device)
           (image_type image_location dest_drive : string)
           (reboot backup_cfg : bool) (backup_location : option string)
           (w : W) : res retval * st W :=
  upgrade_asa env image_type image_location dest_drive reboot backup_cfg
              backup_location (mkSt w device []).

(** The same for the [try] body alone (no handler). *)
Definition run_upgrade_asa_try (device : Device)
           (image_type image_location dest_drive : string)
           (reboot backup_cfg : bool) (backup_location : option string)
           (w : W) : res retval * st W :=
  upgrade_asa_try env image_type image_location dest_drive reboot backup_cfg
                  backup_location (mkSt w device []).

(** The connector as [upgrade_asa] calls it. *)
Definition run_connect (device : Device) (w : W) : res connection * st W :=
  connect_to_device env (ip_address device) (credentials device) true
                    (DTList ["cisco_asa"]) None (mkSt w device []).

(** What the worker puts on the output queue: the value returned, with the
    returned reference read as the object's final state. *)
Definition returned_value (r : res retval * st W) : res (option Device) :=
  match r with
  | (Ok RetDevice, s) => Ok (Some (dev s))
  | (Ok RetNone, _) => Ok None
  | (Raise e, _) => Raise e
  end.

End Run.

(** ** A simulated appliance *)

Module Sim.

(** The part of the appliance the sequence changes: whether the running
    configuration has [ssh scopy enable], and the boot-pointer lines
    configured so far. *)
Record asa : Type := mkAsa {
  scopy : bool;
  config_lines : list string;
  saved : bool
}.

(** The fixed answers of one scenario. *)
Record scenario : Type := mkScenario {
  auth : conn_dict -> res unit;
  prompt : string;
  space_available : bool;
  transfer : res unit;
  verified : bool;
  is_dir : string -> bool;
  ping_status : Z
}.

Definition apply_config (cmd : string) (a : asa) : asa :=
  if String.eqb cmd "ssh scopy enable" then
    mkAsa true (config_lines a) (saved a)
  else if String.eqb cmd "no ssh scopy enable" then
    mkAsa false (config_lines a) (saved a)
  else mkAsa (scopy a) (config_lines a ++ [cmd]) (saved a).

Definition show (cmd : string) (a : asa) : string :=
  if String.eqb cmd "sh run | i ssh scopy enable" then
    (if scopy a then "ssh scopy enable" else EmptyString)
  else "hostname asa".

Definition handler (sc : scenario) (A : Type) (c : call A) (a : asa)
  : res A * asa :=
  match c in call T return res T * asa with
  | ConnectHandler device => (auth sc device, a)
  | Conn_enable => (Ok tt, a)
  | Conn_find_prompt => (Ok (prompt sc), a)
  | Conn_send_command cmd => (Ok (show cmd a), a)
  | Conn_send_config_set cmds =>
      (Ok EmptyString, fold_left (fun a c => apply_config c a) cmds a)
  | Conn_save_config => (Ok EmptyString, mkAsa (scopy a) (config_lines a) true)
  | Conn_other _ _ => (Ok EmptyString, a)
  | Path_is_dir p => (Ok (is_dir sc p), a)
  | Datetime_now => (Ok "2018-05-01 10:00:00", a)
  | File_writelines _ _ => (Ok tt, a)
  | FileTransfer_enter _ _ _ => (Ok tt, a)
  | Scp_verify_space_available => (Ok (space_available sc), a)
  | Scp_transfer_file => (transfer sc, a)
  | Scp_verify_file => (Ok (verified sc), a)
  | FileTransfer_exit => (Ok tt, a)
  | Time_sleep _ => (Ok tt, a)
  | Popen_wait_poll _ => (Ok (ping_status sc), a)
  end.

(** The methods of a netmiko connection that the repository calls, and
    their neighbours; [send_confg_set] is not one of them. *)
Definition netmiko_attrs : list string :=
  ["enable"; "exit_enable_mode"; "check_enable_mode"; "config_mode";
   "exit_config_mode"; "check_config_mode"; "find_prompt"; "send_command";
   "send_command_timing"; "send_command_expect"; "send_config_set";
   "send_config_from_file"; "save_config"; "disconnect"].

Definition netmiko_hasattr (attr : string) : bool :=
  existsb (String.eqb attr) netmiko_attrs.

(** A session on the simulated appliance, for a given reading of [is] and a
    given set of connection attributes, under Linux. *)
Definition session (is_same : string -> string -> bool)
           (hasattr : string -> bool) (sc : scenario) : Env asa :=
  {| handle := handler sc;
     conn_hasattr := hasattr;
     str_is := is_same;
     sys_platform := "linux" |}.

(** A netmiko session on CPython: a string freshly built by [lower()] is
    never the same object as a literal. *)
Definition netmiko (sc : scenario) : Env asa :=
  session (fun _ _ => false) netmiko_hasattr sc.

(** A test double that answers every attribute, and where [is] is at its
    most generous: equal contents count as the same object. *)
Definition permissive (sc : scenario) : Env asa :=
  session String.eqb (fun _ => true) sc.

Definition accept_all : conn_dict -> res unit := fun _ => Ok tt.

Definition reject_all : conn_dict -> res unit :=
  fun _ => Raise (Exn NetMikoAuthenticationException "Authentication failure").

Definition time_out : conn_dict -> res unit :=
  fun _ => Raise (Exn NetMikoTimeoutException "Connection to device timed-out").

(** Everything goes well: space, transfer, verification, ping. *)
Definition happy : scenario :=
  {| auth := accept_all; prompt := "fw01#"; space_available := true;
     transfer := Ok tt; verified := true; is_dir := fun _ => false;
     ping_status := 0 |}.

(** The copy does not verify. *)
Definition unverified : scenario :=
  {| auth := accept_all; prompt := "fw01#"; space_available := true;
     transfer := Ok tt; verified := false; is_dir := fun _ => false;
     ping_status := 0 |}.

(** The transfer itself raises. *)
Definition transfer_fails : scenario :=
  {| auth := accept_all; prompt := "fw01#"; space_available := true;
     transfer := Raise (Exn OtherException "SCP transfer failed");
     verified := true; is_dir := fun _ => false; ping_status := 0 |}.

(** The appliance does not answer the probe after the reboot. *)
Definition silent_after_reboot : scenario :=
  {| auth := accept_all; prompt := "fw01#"; space_available := true;
     transfer := Ok tt; verified := true; is_dir := fun _ => false;
     ping_status := 1 |}.

(** No credential set is accepted. *)
Definition rejecting : scenario :=
  {| auth := reject_all; prompt := "fw01#"; space_available := true;
     transfer := Ok tt; verified := true; is_dir := fun _ => false;
     ping_status := 0 |}.

(** The appliance as shipped, and one with [ssh scopy enable] configured. *)
Definition factory : asa := mkAsa false [] false.

Definition scopy_enabled : asa := mkAsa true [] false.

Definition admin : cred := [("username", "admin"); ("password", "pw")].

(** A device as [main] prepares it. *)
Definition device (ip : string) : Device :=
  set_credentials (CredList [admin]) (Device_init ip).

End Sim.

(** ** Reading traces *)

(** Events of the session connector. *)
Definition is_connect_call {A} (c : call A) : bool :=
  match c with
  | ConnectHandler _ | Conn_enable => true
  | _ => false
  end.

(** The boot-pointer lines: [boot system ...] and [asdm image ...]. *)
Definition boot_pointer_cmd (cmd : string) : bool :=
  orb (PyStr.startswith "boot system " cmd) (PyStr.startswith "asdm image " cmd).

(** Calls of the steps that follow the upload: boot pointer, save, reboot
    with its confirmation, the settle wait and the probe. *)
Definition is_later_call {A} (c : call A) : bool :=
  match c with
  | Conn_send_config_set cmds => existsb boot_pointer_cmd cmds
  | Conn_save_config => true
  | Conn_other _ _ => true
  | Time_sleep _ => true
  | Popen_wait_poll _ => true
  | _ => false
  end.

(** Calls of the upload step: the query and the toggling of the transfer
    feature, and the file transfer itself. *)
Definition is_upload_call {A} (c : call A) : bool :=
  match c with
  | Conn_send_command cmd => String.eqb cmd "sh run | i ssh scopy enable"
  | Conn_send_config_set cmds =>
      existsb (fun c => orb (String.eqb c "ssh scopy enable")
                            (String.eqb c "no ssh scopy enable")) cmds
  | FileTransfer_enter _ _ _ | Scp_verify_space_available
  | Scp_transfer_file | Scp_verify_file | FileTransfer_exit => true
  | _ => false
  end.

(** An event counts as an attempt of its call, made or not. *)
Definition attempts (P : forall A, call A -> bool) (e : event) : bool :=
  match e with
  | Ev c _ => P _ c
  | EvNoAttr _ c => P _ c
  end.

Definition never (P : forall A, call A -> bool) (t : list event) : bool :=
  forallb (fun e => negb (attempts P e)) t.

Definition ever (P : forall A, call A -> bool) (t : list event) : bool :=
  existsb (attempts P) t.

(** Calls of the backup writer. *)
Definition is_backup_call {A} (c : call A) : bool :=
  match c with
  | Path_is_dir _ | Datetime_now | File_writelines _ _ => true
  | _ => false
  end.

(** The reachability probe. *)
Definition is_probe_call {A} (c : call A) : bool :=
  match c with
  | Popen_wait_poll _ => true
  | _ => false
  end.

(** The boot-pointer command lines that were sent, in order. *)
Definition issued_boot_pointer (t : list event) : list (list string) :=
  flat_map
    (fun e =>
       match e with
       | Ev c _ =>
           match c with
           | Conn_send_config_set cmds =>
               if existsb boot_pointer_cmd cmds then [cmds] else []
           | _ => []
           end
       | EvNoAttr _ _ => []
       end) t.

(** The upload failed: no space, a transfer that raised, a verification
    that returned false, or one of the checks raising. *)
Definition is_upload_failure (e : event) : bool :=
  match e with
  | Ev c r =>
      match c in call T return res T -> bool with
      | Scp_verify_space_available =>
          fun r => match r with Ok true => false | _ => true end
      | Scp_transfer_file =>
          fun r => match r with Ok _ => false | Raise _ => true end
      | Scp_verify_file =>
          fun r => match r with Ok true => false | _ => true end
      | _ => fun _ => false
      end r
  | EvNoAttr _ _ => false
  end.

Definition upload_failed (t : list event) : bool := existsb is_upload_failure t.

Open Scope list_scope.

(** ** helpers/threading_helper.py: the worker pool

    Threads are interleaved at the granularity of the queue operations: a
    worker is at one of the statements of [__worker], and a schedule says
    which worker moves next. *)

Module ThreadingHelper.

Section Threads.

Context {Item Result : Type}.

(** Where a worker thread stands in [__worker]. *)
Inductive pc : Type :=
| AtWhile                 (* testing [not self.input_queue.empty()] *)
| AtGet                   (* at [item = self.input_queue.get()] *)
| AtCall (item : Item)    (* at [r = self.worker_func(item, ...)] *)
| AtPut (r : Result)      (* at [self.output_queue.put(r)] *)
| AtTaskDone              (* at [self.input_queue.task_done()] *)
| Finished                (* left the loop *)
| Died (e : exn).         (* an exception ended the thread *)

(** The two queues, the count [Queue.join] waits on, and the threads. *)
Record pool : Type := mkPool {
  input_queue : list Item;
  unfinished_tasks : nat;
  output_queue : list Result;
  workers : list pc
}.

Fixpoint set_nth {A} (i : nat) (x : A) (l : list A) : list A :=
  match l, i with
  | [], _ => []
  | _ :: r, 0 => x :: r
  | y :: r, S j => y :: set_nth j x r
  end.

Variable worker_func : Item -> res Result.

(** [run] up to [self.input_queue.join()]: every item is put, which counts
    it as unfinished, and [num_of_workers] threads are started. *)
Definition start (items : list Item) (num_of_workers : nat) : pool :=
  {| input_queue := items;
     unfinished_tasks := length items;
     output_queue := [];
     workers := repeat AtWhile num_of_workers |}.

(** One statement of worker [i]; [None] when it cannot move: it is blocked
    in [get()] on an empty queue, or its thread has ended. *)
Definition step (i : nat) (p : pool) : option pool :=
  match nth_error (workers p) i with
  | None => None
  | Some AtWhile =>
      let next := match input_queue p with [] => Finished | _ :: _ => AtGet end in
      Some (mkPool (input_queue p) (unfinished_tasks p) (output_queue p)
                   (set_nth i next (workers p)))
  | Some AtGet =>
      match input_queue p with
      | [] => None
      | item :: rest =>
          Some (mkPool rest (unfinished_tasks p) (output_queue p)
                       (set_nth i (AtCall item) (workers p)))
      end
  | Some (AtCall item) =>
      let next := match worker_func item with
                  | Ok r => AtPut r
                  | Raise e => Died e
                  end in
      Some (mkPool (input_queue p) (unfinished_tasks p) (output_queue p)
                   (set_nth i next (workers p)))
  | Some (AtPut r) =>
      Some (mkPool (input_queue p) (unfinished_tasks p) (output_queue p ++ [r])
                   (set_nth i AtTaskDone (workers p)))
  | Some AtTaskDone =>
      match unfinished_tasks p with
      | 0 =>
          Some (mkPool (input_queue p) 0 (output_queue p)
                       (set_nth i (Died (Exn ValueError
                                             "task_done() called too many times"))
                                (workers p)))
      | S n =>
          Some (mkPool (input_queue p) n (output_queue p)
                       (set_nth i AtWhile (workers p)))
      end
  | Some Finished => None
  | Some (Died _) => None
  end.

(** A schedule names the worker to move at each tick; a worker that cannot
    move lets the tick pass. *)
Fixpoint run_schedule (schedule : list nat) (p : pool) : pool :=
  match schedule with
  | [] => p
  | i :: rest =>
      run_schedule rest (match step i p with Some p' => p' | None => p end)
  end.

(** [run]: when [join()] lets the caller through, that is when nothing is
    unfinished, it returns [list(self.output_queue.queue)]; [None] while
    [join()] still blocks. *)
Definition run (items : list Item) (num_of_workers : nat) (schedule : list nat)
  : option (list Result) :=
  let p := run_schedule schedule (start items num_of_workers) in
  match unfinished_tasks p with
  | 0 => Some (output_queue p)
  | S _ => None
  end.

(** What a worker holds that is not yet on the output queue, and whether it
    holds a task that is not yet marked done. *)
Definition held (w : pc) : list (res Result) :=
  match w with
  | AtCall item => [worker_func item]
  | AtPut r => [Ok r]
  | Died e => [Raise e]
  | _ => []
  end.

Definition busy (w : pc) : list unit :=
  match w with
  | AtCall _ | AtPut _ | AtTaskDone | Died _ => [tt]
  | _ => []
  end.

(** Every item is in exactly one place, and [unfinished_tasks] counts the
    items not yet marked done. *)
Definition accounted (items : list Item) (p : pool) : Prop :=
  Permutation (map worker_func items)
              (map Ok (output_queue p) ++ map worker_func (input_queue p)
                   ++ flat_map held (workers p)) /\
  unfinished_tasks p
  = length (input_queue p) + length (flat_map busy (workers p)).

End Threads.

End ThreadingHelper.

(** ** Vocabulary of the statements *)

(** A computation that leaves the device record alone and whose events
    all attempt calls in [P]. *)
Definition emits {W A} (P : forall T, call T -> bool) (m : M W A) : Prop :=
  forall s, exists t,
    trace (snd (m s)) = trace s ++ t /\
    forallb (attempts P) t = true /\
    dev (snd (m s)) = dev s.

(** [wp m Q s]: running [m] from [s] ends in a result and a state that
    satisfy [Q]. *)
Definition wp {W A} (m : M W A) (Q : res A -> st W -> Prop) (s : st W) : Prop :=
  Q (fst (m s)) (snd (m s)).

(** The two [except] clauses of [upgrade_asa] catch these. *)
Definition handled (r : res retval) : bool :=
  match r with
  | Ok _ => false
  | Raise e =>
      orb (exn_class_eqb (exn_cls e) ConnectionException)
          (exn_class_eqb (exn_cls e) ValueError)
  end.

(** The line [upgrade_asa] builds for an image type. *)
Definition boot_pointer_for (image_type dest_drive image_location : string)
  : list (list string) :=
  if String.eqb (PyStr.lower image_type) "asa" then
    [[("boot system " ++ (dest_drive ++ "/" ++ Path_name image_location))%string]]
  else if String.eqb (PyStr.lower image_type) "asdm" then
    [[("asdm image " ++ (dest_drive ++ "/" ++ Path_name image_location))%string]]
  else [].

(** The worker function of [main]: [upgrade_asa] on one device, each device
    being its own appliance. *)
Definition upgrade_worker {W} (env : Env W) (world_of : Device -> W)
           (image_type image_location dest_drive : string)
           (reboot backup_cfg : bool) (backup_location : option string)
           (device : Device) : res (option Device) :=
  returned_value
    (run_upgrade_asa env device image_type image_location dest_drive reboot
                     backup_cfg backup_location (world_of device)).

(** ** The session connector as a search over candidates *)

(** The keyword dictionaries of the inner loop, in the order they are
    tried, and the dictionary the loop leaves behind. *)
Fixpoint candidates_for_types (device : conn_dict) (types : list string)
  : list conn_dict :=
  match types with
  | [] => []
  | d :: rest =>
      set_device_type d device
        :: candidates_for_types (set_device_type d device) rest
  end.

Fixpoint after_types (device : conn_dict) (types : list string) : conn_dict :=
  match types with
  | [] => device
  | d :: rest => after_types (set_device_type d device) rest
  end.

Fixpoint candidates_from (device : conn_dict) (types : list string)
         (creds : list cred) : list conn_dict :=
  match creds with
  | [] => []
  | c :: rest =>
      candidates_for_types (set_credential c device) types
        ++ candidates_from (after_types (set_credential c device) types) types rest
  end.

(** Every (credential set, device type) pair [connect_to_device] may try,
    credential sets outermost. *)
Definition candidates (ipaddr : string) (credentials : py_credentials)
           (device_type : py_device_type) (timeout : option Z) : list conn_dict :=
  candidates_from
    {| d_ip := ipaddr;
       d_timeout := if truthy_timeout timeout then timeout else None;
       d_username := None; d_password := None; d_secret := None;
       d_device_type := None |}
    (iter_device_type device_type)
    (match credentials with
     | CredDict c => [c]
     | CredList l => l
     | CredNone => []
     end).

(** A connector call that raised an exception of class [cls]. *)
Definition failed_with (cls : exn_class) (e : event) : bool :=
  match e with
  | Ev c r =>
      match r with
      | Raise x => andb (is_connect_call c) (exn_class_eqb (exn_cls x) cls)
      | Ok _ => false
      end
  | EvNoAttr _ _ => false
  end.

(** The number of [ConnectHandler] calls in a trace. *)
Definition is_ConnectHandler (e : event) : bool :=
  match e with
  | Ev c _ => match c with ConnectHandler _ => true | _ => false end
  | EvNoAttr _ _ => false
  end.

Definition count_attempts (t : list event) : nat :=
  length (filter is_ConnectHandler t).

(** How the search ended. *)
Inductive verdict : Type :=
| Found (c : connection)
| Exhausted
| Aborted (e : exn).

(** The events of one pass through the inner [try], with its result. *)
Inductive attempt_events (enable_mode : bool) (d : conn_dict)
  : list event -> res connection -> Prop :=
| ae_refused e :
    attempt_events enable_mode d [Ev (ConnectHandler d) (Raise e)] (Raise e)
| ae_plain :
    enable_mode = false ->
    attempt_events enable_mode d [Ev (ConnectHandler d) (Ok tt)]
                   (Ok (mkConnection d))
| ae_enabled :
    enable_mode = true ->
    attempt_events enable_mode d
                   [Ev (ConnectHandler d) (Ok tt); Ev Conn_enable (Ok tt)]
                   (Ok (mkConnection d))
| ae_enable_failed e :
    enable_mode = true ->
    attempt_events enable_mode d
                   [Ev (ConnectHandler d) (Ok tt); Ev Conn_enable (Raise e)]
                   (Raise e)
| ae_enable_missing :
    enable_mode = true ->
    attempt_events enable_mode d
                   [Ev (ConnectHandler d) (Ok tt); EvNoAttr "enable" Conn_enable]
                   (Raise (Exn AttributeError "enable")).

(** The events of a search through a list of candidates. *)
Inductive searched (enable_mode : bool)
  : list conn_dict -> list event -> verdict -> Prop :=
| se_exhausted : searched enable_mode [] [] Exhausted
| se_found d rest t c :
    attempt_events enable_mode d t (Ok c) ->
    searched enable_mode (d :: rest) t (Found c)
| se_rejected d rest t e t' v :
    attempt_events enable_mode d t (Raise e) ->
    exn_cls e = NetMikoAuthenticationException ->
    searched enable_mode rest t' v ->
    searched enable_mode (d :: rest) (t ++ t') v
| se_aborted d rest t e :
    attempt_events enable_mode d t (Raise e) ->
    exn_cls e <> NetMikoAuthenticationException ->
    searched enable_mode (d :: rest) t (Aborted e).

(** What [connect_to_device] makes of the search. *)
Definition verdict_result (v : verdict) : res connection :=
  match v with
  | Found c => Ok c
  | Exhausted => Raise (Exn ConnectionException "Unable to connect to device")
  | Aborted e =>
      if exn_class_eqb (exn_cls e) NetMikoTimeoutException
      then Raise (Exn ConnectionException "Connection to device timed out")
      else Raise e
  end.

(** What the inner loop hands back for a verdict. *)
Definition inner_result (v : verdict) (device : conn_dict) (types : list string)
           (r : res (option connection * conn_dict)) : Prop :=
  match v with
  | Found c => exists device', r = Ok (Some c, device')
  | Exhausted => r = Ok (None, after_types device types)
  | Aborted e => r = Raise e
  end.

(** What the outer loop hands back for a verdict. *)
Definition loop_result (v : verdict) : res (option connection) :=
  match v with
  | Found c => Ok (Some c)
  | Exhausted => Ok None
  | Aborted e => Raise e
  end.

(** ** helpers/device_helper.py: the functions outside the sequencer *)

(** [input()] and [getpass.getpass()] at the end of the typed lines. *)
Definition EOFError : exn := Exn OtherException "EOFError".

(** The [valid_input] dict of [get_credentials]. *)
Definition valid_input (answer : string) : option bool :=
  if String.eqb answer "yes" then Some true
  else if String.eqb answer "y" then Some true
  else if String.eqb answer "ye" then Some true
  else if String.eqb answer "no" then Some false
  else if String.eqb answer "n" then Some false
  else None.

(** [DeviceHelper.get_credentials] on the lines typed at the terminal, one
    per [input()] or [getpass()] call.  [ask_credential] is the body of the
    outer loop up to the first inner loop, [ask_secret] the first inner loop
    and [ask_more] the second. *)
Fixpoint ask_credential (lines : list string) (credential_set : list cred)
         {struct lines} : res (list cred) :=
  match lines with
  | username :: password :: rest =>
      ask_secret rest [("username", username); ("password", password)]
                 credential_set
  | _ => Raise EOFError
  end
with ask_secret (lines : list string) (credential : cred)
                (credential_set : list cred) {struct lines} : res (list cred) :=
  match lines with
  | [] => Raise EOFError
  | answer :: rest =>
      match valid_input (PyStr.lower answer) with
      | Some true =>
          match rest with
          | [] => Raise EOFError
          | secret :: rest' =>
              ask_more rest'
                       (credential_set ++ [credential ++ [("secret", secret)]])
          end
      | Some false => ask_more rest (credential_set ++ [credential])
      | None => ask_secret rest credential credential_set
      end
  end
with ask_more (lines : list string) (credential_set : list cred)
              {struct lines} : res (list cred) :=
  match lines with
  | [] => Raise EOFError
  | answer :: rest =>
      match valid_input (PyStr.lower answer) with
      | Some false => Ok credential_set
      | Some true => ask_credential rest credential_set
      | None => ask_more rest credential_set
      end
  end.

Definition get_credentials (lines : list string) : res (list cred) :=
  ask_credential lines [].

(** The pieces of the pattern of [get_cisco_ios_version]: a literal, the
    greedy dot-star, an optional character, and the dot-star in group 1. *)
Inductive re_atom : Type :=
| ReLit (s : string)
| ReDotStar
| ReOptChr (c : ascii)
| ReGroupDotStar.

(** [.] matches every character but the newline. *)
Definition is_newline (c : ascii) : bool := Ascii.eqb c "010"%char.

(** A literal at the front of [s]: what is left after it. *)
Fixpoint match_lit (lit s : string) {struct lit} : option string :=
  match lit with
  | EmptyString => Some s
  | String a lit' =>
      match s with
      | EmptyString => None
      | String b s' => if Ascii.eqb a b then match_lit lit' s' else None
      end
  end.

(** Greedy dot-star followed by [k]: the longest stretch first, then shorter
    ones. *)
Fixpoint dot_star {A} (k : string -> option A) (s : string) : option A :=
  match s with
  | EmptyString => k s
  | String c s' =>
      if is_newline c then k s
      else match dot_star k s' with
           | Some r => Some r
           | None => k s
           end
  end.

(** The same with the matched stretch kept for the group. *)
Fixpoint group_dot_star {A} (k : string -> string -> option A)
         (s matched : string) : option A :=
  match s with
  | EmptyString => k matched s
  | String c s' =>
      if is_newline c then k matched s
      else match group_dot_star k s' (matched ++ String c EmptyString) with
           | Some r => Some r
           | None => k matched s
           end
  end.

(** Backtracking match of the atoms at the front of [s]; the result is
    group 1. *)
Fixpoint re_match (atoms : list re_atom) (s : string) (group : option string)
         {struct atoms} : option (option string) :=
  match atoms with
  | [] => Some group
  | ReLit lit :: rest =>
      match match_lit lit s with
      | Some s' => re_match rest s' group
      | None => None
      end
  | ReDotStar :: rest => dot_star (fun s' => re_match rest s' group) s
  | ReOptChr c :: rest =>
      match s with
      | String c' s' =>
          if Ascii.eqb c c'
          then match re_match rest s' group with
               | Some r => Some r
               | None => re_match rest s group
               end
          else re_match rest s group
      | EmptyString => re_match rest s group
      end
  | ReGroupDotStar :: rest =>
      group_dot_star (fun matched s' => re_match rest s' (Some matched))
                     s EmptyString
  end.

(** [re.search]: the first position at which the pattern matches. *)
Fixpoint re_search (atoms : list re_atom) (s : string) : option (option string) :=
  match re_match atoms s None with
  | Some g => Some g
  | None =>
      match s with
      | EmptyString => None
      | String _ s' => re_search atoms s'
      end
  end.

(** [rexp] of [get_cisco_ios_version], as [re] reads it. *)
Definition rexp : list re_atom :=
  [ReLit "Cisco IOS Software, "; ReDotStar; ReLit " Version"; ReOptChr " ";
   ReGroupDotStar].

(** [DeviceHelper.get_cisco_ios_version] *)
Definition get_cisco_ios_version (sh_ver : string) : string :=
  match re_search rexp sh_ver with
  | Some (Some version) => version
  | Some None => EmptyString
  | None => "Unable to determine IOS version"
  end.

(** ** ASAUpdater.py: reading the device list, writing the report, [main] *)

(** [row["IP Address"]] on a row without that column. *)
Definition KeyError_IP_Address : exn := Exn OtherException "KeyError: 'IP Address'".

(** The loop of [read_csv] over row dicts with text in every cell, each a
    dict from column title to text; [devices] is the list built so far.
    [read_reader] below is the loop over the rows as [csv.DictReader] builds
    them. *)
Fixpoint read_rows (rows : list cred) (devices : list Device)
  : res (list Device) :=
  match rows with
  | [] => Ok devices
  | row :: rest =>
      match dict_get "IP Address" row with
      | Some ip => read_rows rest (devices ++ [Device_init ip])
      | None => Raise KeyError_IP_Address
      end
  end.

Definition read_csv (rows : list cred) : res (list Device) := read_rows rows [].

(** ** The rows [csv.DictReader] yields *)

(** A value of a row dict: the text of a cell, the [None] that fills the
    columns a short record lacks, or the list of surplus cells of a long
    record. *)
Inductive csv_value : Type :=
| CsvStr (s : string)
| CsvNone
| CsvRest (cells : list string).

(** A row dict as the assignments that build it, in order: a later
    assignment to a key replaces an earlier one.  The key [None] is the
    [restkey] of the surplus cells. *)
Definition csv_row : Type := list (option string * csv_value).

(** [dict(zip(fieldnames, row))], then [d[None] = row[lf:]] for a long
    record or [d[key] = None] for each column a short record lacks. *)
Fixpoint zip_fields (fieldnames : list string) (row : list string) : csv_row :=
  match fieldnames, row with
  | [], [] => []
  | [], _ :: _ => [(None, CsvRest row)]
  | key :: keys, [] => (Some key, CsvNone) :: zip_fields keys []
  | key :: keys, v :: vs => (Some key, CsvStr v) :: zip_fields keys vs
  end.

(** [row[key]] for a string key: the last assignment counts, [None] stands
    for [KeyError]. *)
Fixpoint csv_get (key : string) (row : csv_row) : option csv_value :=
  match row with
  | [] => None
  | (k, v) :: rest =>
      match csv_get key rest with
      | Some v' => Some v'
      | None =>
          match k with
          | Some k' => if String.eqb key k' then Some v else None
          | None => None
          end
      end
  end.

Definition nonblank (row : list string) : bool :=
  match row with
  | [] => false
  | _ :: _ => true
  end.

(** [csv.DictReader(csv_file)] on the records [csv.reader] yields, one list
    of cells per line and the empty list for a blank line: the first record
    gives the field names, blank records after it are skipped. *)
Definition DictReader (records : list (list string)) : list csv_row :=
  match records with
  | [] => []
  | fieldnames :: rest => map (zip_fields fieldnames) (filter nonblank rest)
  end.

(** The loop of [read_csv] over the reader; [devices] holds the
    [ip_address] each [Device] was made with so far, the other fields being
    those of [Device.__init__]. *)
Fixpoint read_reader (rows : list csv_row) (devices : list csv_value)
  : res (list csv_value) :=
  match rows with
  | [] => Ok devices
  | row :: rest =>
      match csv_get "IP Address" row with
      | Some ip => read_reader rest (devices ++ [ip])
      | None => Raise KeyError_IP_Address
      end
  end.

Definition read_csv_records (records : list (list string))
  : res (list csv_value) :=
  read_reader (DictReader records) [].

(** The position of the last column with a given title. *)
Fixpoint last_index (key : string) (fieldnames : list string) : option nat :=
  match fieldnames with
  | [] => None
  | k :: rest =>
      match last_index key rest with
      | Some i => Some (S i)
      | None => if String.eqb key k then Some 0 else None
      end
  end.

(** The cell of a record at a position, [None] when the record is too
    short. *)
Definition cell_at (i : nat) (row : list string) : csv_value :=
  match nth_error row i with
  | Some s => CsvStr s
  | None => CsvNone
  end.

(** A row dict with text in every cell read as the dict of [read_rows]. *)
Definition text_row (row : csv_row) : cred :=
  flat_map (fun kv => match kv with
                      | (Some k, CsvStr s) => [(k, s)]
                      | _ => []
                      end) (rev row).

(** A value handed to [csv.writer.writerow]. *)
Inductive cell : Type :=
| CellStr (s : string)
| CellBool (b : bool).

Definition report_header : list cell :=
  [CellStr "Name"; CellStr "IP Address"; CellStr "Connected";
   CellStr "SuccessfullyRebooted"; CellStr "Error"].

Definition report_row (device : Device) : list cell :=
  [CellStr (name device); CellStr (ip_address device);
   CellBool (connected device); CellBool (successfully_rebooted device);
   CellStr (error device)].

(** The loop of [write_csv] over what the pool returned, [None] or a
    device; [written] are the rows handed to the writer so far.  Reading an
    attribute of [None] raises [AttributeError]. *)
Fixpoint write_rows (devices : list (option Device)) (written : list (list cell))
  : list (list cell) * res unit :=
  match devices with
  | [] => (written, Ok tt)
  | Some device :: rest => write_rows rest (written ++ [report_row device])
  | None :: _ =>
      (written,
       Raise (Exn AttributeError "'NoneType' object has no attribute 'name'"))
  end.

(** [write_csv]: the rows written, and how the call ended. *)
Definition write_csv (devices : list (option Device))
  : list (list cell) * res unit :=
  write_rows devices [report_header].

(** How a call of [main] ends: [read_csv] raised, [join()] never lets
    [run] through, or the report was written up to an outcome. *)
Inductive main_outcome : Type :=
| NoDeviceList (e : exn)
| WaitsForEver
| Report (rows : list (list cell)) (r : res unit).

(** [main], for the rows of the input file and a schedule of the worker
    threads. *)
Definition main {W} (env : Env W) (world_of : Device -> W)
           (input_rows : list cred)
           (image_type image_location dest_drive : string)
           (credentials : py_credentials) (reboot backup_cfg : bool)
           (backup_location : option string) (worker_threads : nat)
           (schedule : list nat) : main_outcome :=
  match read_csv input_rows with
  | Raise e => NoDeviceList e
  | Ok device_list =>
      let device_list := map (set_credentials credentials) device_list in
      match ThreadingHelper.run
              (upgrade_worker env world_of image_type image_location dest_drive
                              reboot backup_cfg backup_location)
              device_list worker_threads schedule with
      | None => WaitsForEver
      | Some result =>
          let (rows, r) := write_csv result in Report rows r
      end
  end.

(** ** More vocabulary of the statements *)

(** The keyword dictionaries [ConnectHandler] was called with, in order. *)
Definition attempted (t : list event) : list conn_dict :=
  flat_map
    (fun e =>
       match e with
       | Ev c _ => match c with ConnectHandler d => [d] | _ => [] end
       | EvNoAttr _ _ => []
       end) t.

(** An event that is a call which returned, or a connector call rejected
    for its credentials. *)
Definition ok_or_rejected (e : event) : bool :=
  match e with
  | Ev c r =>
      match r with
      | Ok _ => true
      | Raise x => exn_class_eqb (exn_cls x) NetMikoAuthenticationException
      end
  | EvNoAttr _ _ => false
  end.

(** The last value given for [key] in a list of credential sets, [default]
    when none gives one. *)
Definition last_given (key : string) (creds : list cred) (default : option string)
  : option string :=
  fold_left (fun acc c => match dict_get key c with
                          | Some v => Some v
                          | None => acc
                          end) creds default.

(** An event in which a call answered with a given boolean. *)
Definition space_refused (e : event) : bool :=
  match e with
  | Ev c r =>
      match c in call T return res T -> bool with
      | Scp_verify_space_available =>
          fun r => match r with Ok false => true | _ => false end
      | _ => fun _ => false
      end r
  | EvNoAttr _ _ => false
  end.

Definition verify_refused (e : event) : bool :=
  match e with
  | Ev c r =>
      match c in call T return res T -> bool with
      | Scp_verify_file =>
          fun r => match r with Ok false => true | _ => false end
      | _ => fun _ => false
      end r
  | EvNoAttr _ _ => false
  end.

(** The probe came back with exit status 0. *)
Definition probe_succeeded (e : event) : bool :=
  match e with
  | Ev c r =>
      match c in call T return res T -> bool with
      | Popen_wait_poll _ =>
          fun r => match r with Ok z => Z.eqb z 0 | Raise _ => false end
      | _ => fun _ => false
      end r
  | EvNoAttr _ _ => false
  end.

(** What [find_prompt] answered, if it was called and returned. *)
Definition prompt_answer (e : event) : option string :=
  match e with
  | Ev c r =>
      match c in call T return res T -> option string with
      | Conn_find_prompt =>
          fun r => match r with Ok p => Some p | Raise _ => None end
      | _ => fun _ => None
      end r
  | EvNoAttr _ _ => None
  end.

Fixpoint first_answer (f : event -> option string) (t : list event)
  : option string :=
  match t with
  | [] => None
  | e :: rest => match f e with Some p => Some p | None => first_answer f rest end
  end.

(** The copy and its verification. *)
Definition is_transfer_call {A} (c : call A) : bool :=
  match c with
  | Scp_transfer_file | Scp_verify_file => true
  | _ => false
  end.

Definition is_enable_call {A} (c : call A) : bool :=
  match c with
  | Conn_enable => true
  | _ => false
  end.

Definition is_write_call {A} (c : call A) : bool :=
  match c with
  | File_writelines _ _ => true
  | _ => false
  end.

(** The trace ends with the settle wait of 300 seconds, which returned,
    directly followed by the probe. *)
Definition ends_with_wait_then_probe (t : list event) : bool :=
  match rev t with
  | probe :: wait :: _ =>
      andb (attempts (@is_probe_call) probe)
           (match wait with
            | Ev c r =>
                match c in call T return res T -> bool with
                | Time_sleep secs =>
                    fun r => match r with
                             | Ok _ => Z.eqb secs 300
                             | Raise _ => false
                             end
                | _ => fun _ => false
                end r
            | EvNoAttr _ _ => false
            end)
  | _ => false
  end.

(** Text of ASCII characters only; [PyStr.is_space] and [PyStr.lower] are
    [str.split] and [str.lower] on such text. *)
Definition ascii_only (s : string) : bool :=
  forallb (fun c => Nat.ltb (nat_of_ascii c) 128) (list_ascii_of_string s).

(** A word as [str.split()] leaves it: not empty, no blank in it. *)
Fixpoint no_space (s : string) : bool :=
  match s with
  | EmptyString => true
  | String c r => andb (negb (PyStr.is_space c)) (no_space r)
  end.

(** No newline in a string; a character that a string lacks; a literal that
    occurs somewhere in a string; a string that is at the end of a line. *)
Fixpoint no_newline (s : string) : bool :=
  match s with
  | EmptyString => true
  | String c r => andb (negb (is_newline c)) (no_newline r)
  end.

Fixpoint lacks (x : ascii) (s : string) : bool :=
  match s with
  | EmptyString => true
  | String c r => andb (negb (Ascii.eqb c x)) (lacks x r)
  end.

Fixpoint occurs (lit s : string) {struct s} : bool :=
  match match_lit lit s with
  | Some _ => true
  | None =>
      match s with
      | EmptyString => false
      | String _ s' => occurs lit s'
      end
  end.

Definition at_line_end (s : string) : bool :=
  match s with
  | EmptyString => true
  | String c _ => is_newline c
  end.

(** A credential set as the user means it, and one way of entering it:
    the lines typed before each of the two yes/no questions is answered,
    and the two answers themselves, whatever their spelling. *)
Record wanted : Type := mkWanted {
  w_username : string;
  w_password : string;
  w_secret : option string
}.

Definition wanted_dict (c : wanted) : cred :=
  [("username", w_username c); ("password", w_password c)]
    ++ match w_secret c with
       | Some s => [("secret", s)]
       | None => []
       end.

Record entry : Type := mkEntry {
  e_wanted : wanted;
  e_before_secret : list string;
  e_secret_answer : string;
  e_before_more : list string;
  e_more_answer : string
}.

(** The lines of one entry in the order the questions are asked, and of a
    list of entries. *)
Definition entry_lines (e : entry) : list string :=
  [w_username (e_wanted e); w_password (e_wanted e)]
    ++ e_before_secret e
    ++ [e_secret_answer e]
    ++ match w_secret (e_wanted e) with
       | Some s => [s]
       | None => []
       end
    ++ e_before_more e
    ++ [e_more_answer e].

Definition typed (l : list entry) : list string := flat_map entry_lines l.

(** A typed line that answers no yes/no question, one that the code takes
    as the answer [b], one that answers no, and a credential set with the
    two keys the questions always fill. *)
Definition not_an_answer (line : string) : bool :=
  match valid_input (PyStr.lower line) with
  | None => true
  | Some _ => false
  end.

Definition answers (b : bool) (line : string) : bool :=
  match valid_input (PyStr.lower line) with
  | Some b' => Bool.eqb b b'
  | None => false
  end.

(** The answers fit what is wanted: yes to the secret question exactly for
    a set with a secret, yes to the question for more exactly when another
    entry follows, and before each answer only lines that are none. *)
Fixpoint well_answered (l : list entry) : bool :=
  match l with
  | [] => true
  | e :: rest =>
      forallb not_an_answer (e_before_secret e)
      && answers (match w_secret (e_wanted e) with
                  | Some _ => true
                  | None => false
                  end) (e_secret_answer e)
      && forallb not_an_answer (e_before_more e)
      && answers (match rest with [] => false | _ :: _ => true end)
                 (e_more_answer e)
      && well_answered rest
  end.

Definition answers_no (line : string) : bool :=
  match valid_input (PyStr.lower line) with
  | Some false => true
  | _ => false
  end.

Definition has_username_and_password (c : cred) : bool :=
  match dict_get "username" c, dict_get "password" c with
  | Some _, Some _ => true
  | _, _ => false
  end.

(** ** More vocabulary of the pool *)

Section PoolStates.

Context {Item Result : Type} (worker_func : Item -> res Result).

(** Nothing to do: every thread can only leave its loop. *)
Definition idle (p : @ThreadingHelper.pool Item Result) : Prop :=
  ThreadingHelper.input_queue p = [] /\
  ThreadingHelper.unfinished_tasks p = 0 /\
  ThreadingHelper.output_queue p = [] /\
  Forall (fun w => w = ThreadingHelper.AtWhile \/ w = ThreadingHelper.Finished)
         (ThreadingHelper.workers p).

(** With a single worker, every item is in one place in this order:
    written out, held by the worker, or still queued. *)
Definition in_order (items : list Item) (p : @ThreadingHelper.pool Item Result) : Prop :=
  exists w,
    ThreadingHelper.workers p = [w] /\
    map worker_func items
    = map Ok (ThreadingHelper.output_queue p)
          ++ ThreadingHelper.held worker_func w
          ++ map worker_func (ThreadingHelper.input_queue p) /\
    ThreadingHelper.unfinished_tasks p
    = length (ThreadingHelper.input_queue p) + length (ThreadingHelper.busy w).

(** A thread that has passed the test of the loop and then finds the
    queue empty stays in [get()]. *)
Definition stuck (p : @ThreadingHelper.pool Item Result) : Prop :=
  ThreadingHelper.input_queue p = [] /\
  exists w,
    ThreadingHelper.workers p = [w; ThreadingHelper.AtGet] /\
    (w = ThreadingHelper.AtWhile \/ w = ThreadingHelper.Finished).

End PoolStates.

(** * Properties *)

Section Frames.

Context {W : Type} (env : Env W).

Lemma emits_ret {A} P (a : A) : emits (W:=W) P (ret a).
Proof. intros s; exists []; cbn; rewrite app_nil_r; auto. Qed.

Lemma emits_raise {A} P cls msg : emits P (@raise W A cls msg).
Proof. intros s; exists []; cbn; rewrite app_nil_r; auto. Qed.

Lemma emits_bind {A B} P (m : M W A) (k : A -> M W B) :
  emits P m -> (forall a, emits P (k a)) -> emits P (bind m k).
Proof.
  intros Hm Hk s. unfold bind.
  destruct (Hm s) as (t1 & E1 & F1 & D1).
  destruct (m s) as [[a|e] s1]; cbn in *.
  - destruct (Hk a s1) as (t2 & E2 & F2 & D2).
    exists (t1 ++ t2). rewrite E2, E1, app_assoc, forallb_app, F1, F2, D2, D1; auto.
  - exists t1; auto.
Qed.

Lemma emits_try_except {A} P (m : M W A) cls h :
  emits P m -> (forall e, emits P (h e)) -> emits P (try_except m cls h).
Proof.
  intros Hm Hh s. unfold try_except.
  destruct (Hm s) as (t1 & E1 & F1 & D1).
  destruct (m s) as [[a|e] s1]; cbn in *.
  - exists t1; auto.
  - destruct (exn_class_eqb (exn_cls e) cls).
    + destruct (Hh e s1) as (t2 & E2 & F2 & D2).
      exists (t1 ++ t2). rewrite E2, E1, app_assoc, forallb_app, F1, F2, D2, D1; auto.
    + exists t1; auto.
Qed.

Lemma emits_extcall {A} (P : forall T, call T -> bool) (c : call A) :
  P _ c = true -> emits P (extcall env c).
Proof.
  intros Hc s. unfold extcall.
  destruct (handle env c (world s)) as [r w']; cbn.
  exists [Ev c r]; cbn. rewrite Hc; auto.
Qed.

Lemma emits_conn_method {A} (P : forall T, call T -> bool) attr (c : call A) :
  P _ c = true -> emits P (conn_method env attr c).
Proof.
  intros Hc. unfold conn_method.
  destruct (conn_hasattr env attr).
  - now apply emits_extcall.
  - intros s. exists [EvNoAttr attr c]; cbn. rewrite Hc; auto.
Qed.

Ltac emits_steps :=
  repeat first
    [ apply emits_ret
    | apply emits_raise
    | apply emits_extcall; reflexivity
    | apply emits_conn_method; reflexivity
    | apply emits_bind; [|intros ?]
    | match goal with
      | |- emits _ (if ?b then _ else _) => destruct b
      | |- emits _ (match ?x with Some _ => _ | None => _ end) => destruct x
      end ].

Lemma emits_for_device_type enable_mode types :
  forall device, emits (@is_connect_call) (for_device_type env enable_mode device types).
Proof.
  induction types as [|d rest IH]; intros device; cbn [for_device_type].
  - apply emits_ret.
  - apply emits_bind.
    + apply emits_try_except.
      * apply emits_try_except; [unfold attempt; emits_steps | intros; apply emits_ret].
      * intros e s; exists []; cbn; rewrite app_nil_r; auto.
    + intros [c|]; [apply emits_ret | apply IH].
Qed.

Lemma emits_for_credentials enable_mode types creds :
  forall device,
    emits (@is_connect_call) (for_credentials env enable_mode device types creds).
Proof.
  induction creds as [|c rest IH]; intros device; cbn [for_credentials].
  - apply emits_ret.
  - apply emits_bind; [apply emits_for_device_type|].
    intros [[conn|] device']; [apply emits_ret | apply IH].
Qed.

Lemma emits_connect_to_device ipaddr credentials enable_mode device_type timeout :
  emits (@is_connect_call)
        (connect_to_device env ipaddr credentials enable_mode device_type timeout).
Proof.
  unfold connect_to_device.
  destruct (truthy_credentials credentials); [|apply emits_raise].
  apply emits_try_except; [|intros; apply emits_raise].
  apply emits_bind; [apply emits_for_credentials|].
  intros [conn|]; [apply emits_ret | apply emits_raise].
Qed.

(** The connector written out on a state: one result, a next world, the
    same device record and a stretch of connector events. *)
Lemma connect_to_device_frame ipaddr credentials enable_mode device_type timeout s :
  exists r w' t,
    connect_to_device env ipaddr credentials enable_mode device_type timeout s
    = (r, mkSt w' (dev s) (trace s ++ t)) /\
    forallb (attempts (@is_connect_call)) t = true.
Proof.
  destruct (emits_connect_to_device ipaddr credentials enable_mode device_type
                                    timeout s) as (t & E & F & D).
  destruct (connect_to_device env ipaddr credentials enable_mode device_type timeout s)
    as [r [w' d' tr']]; cbn in *. subst.
  now exists r, w', t.
Qed.

End Frames.

(** ** Facts about traces *)

Lemma never_app P (a b : list event) :
  never P (a ++ b) = andb (never P a) (never P b).
Proof. apply forallb_app. Qed.

Lemma upload_failed_app (a b : list event) :
  upload_failed (a ++ b) = orb (upload_failed a) (upload_failed b).
Proof. apply existsb_app. Qed.

Lemma connect_never (P : forall T, call T -> bool) (t : list event) :
  (forall T (c : call T), is_connect_call c = true -> P T c = false) ->
  forallb (attempts (@is_connect_call)) t = true ->
  never P t = true.
Proof.
  intros HP. unfold never. induction t as [|e t IH]; cbn; [reflexivity|].
  intros H. apply andb_prop in H as [He Ht]. rewrite (IH Ht), andb_true_r.
  destruct e as [T c r | T attr c]; cbn in *; now rewrite (HP _ _ He).
Qed.

Lemma connect_not_upload_failed (t : list event) :
  forallb (attempts (@is_connect_call)) t = true ->
  upload_failed t = false.
Proof.
  unfold upload_failed. induction t as [|e t IH]; cbn; [reflexivity|].
  intros H. apply andb_prop in H as [He Ht]. rewrite (IH Ht), orb_false_r.
  destruct e as [T c r | T attr c]; [|reflexivity].
  destruct c; cbn in *; congruence.
Qed.

Lemma ever_app P (a b : list event) :
  ever P (a ++ b) = orb (ever P a) (ever P b).
Proof. apply existsb_app. Qed.

Lemma connect_not_ever (P : forall T, call T -> bool) (t : list event) :
  (forall T (c : call T), is_connect_call c = true -> P T c = false) ->
  forallb (attempts (@is_connect_call)) t = true ->
  ever P t = false.
Proof.
  intros HP. unfold ever. induction t as [|e t IH]; cbn; [reflexivity|].
  intros H. apply andb_prop in H as [He Ht]. rewrite (IH Ht), orb_false_r.
  destruct e as [T c r | T attr c]; cbn in *; now rewrite (HP _ _ He).
Qed.

Lemma issued_boot_pointer_app (a b : list event) :
  issued_boot_pointer (a ++ b) = issued_boot_pointer a ++ issued_boot_pointer b.
Proof. apply flat_map_app. Qed.

Lemma connect_issued_boot_pointer (t : list event) :
  forallb (attempts (@is_connect_call)) t = true ->
  issued_boot_pointer t = [].
Proof.
  unfold issued_boot_pointer.
  induction t as [|e t IH]; cbn; [reflexivity|].
  intros H. apply andb_prop in H as [He Ht]. rewrite (IH Ht), app_nil_r.
  destruct e as [T c r | T attr c]; [|reflexivity].
  destruct c; cbn in *; congruence.
Qed.

(** After the connector's events, only the literal rest matters. *)
Lemma never_after_connect (P : forall T, call T -> bool) (t l : list event) :
  (forall T (c : call T), is_connect_call c = true -> P T c = false) ->
  forallb (attempts (@is_connect_call)) t = true ->
  never P l = true ->
  never P (t ++ l) = true.
Proof.
  intros HP Ht Hl. now rewrite never_app, (connect_never P t HP Ht), Hl.
Qed.

Lemma ever_after_connect (P : forall T, call T -> bool) (t l : list event) :
  (forall T (c : call T), is_connect_call c = true -> P T c = false) ->
  forallb (attempts (@is_connect_call)) t = true ->
  ever P (t ++ l) = ever P l.
Proof.
  intros HP Ht. now rewrite ever_app, (connect_not_ever P t HP Ht).
Qed.

Lemma upload_failed_after_connect (t l : list event) :
  forallb (attempts (@is_connect_call)) t = true ->
  upload_failed (t ++ l) = upload_failed l.
Proof.
  intros Ht. now rewrite upload_failed_app, connect_not_upload_failed.
Qed.

Lemma issued_boot_pointer_after_connect (t l : list event) :
  forallb (attempts (@is_connect_call)) t = true ->
  issued_boot_pointer (t ++ l) = issued_boot_pointer l.
Proof.
  intros Ht. now rewrite issued_boot_pointer_app, connect_issued_boot_pointer.
Qed.

(** ** A weakest-precondition reading of the monad

    [wp m Q s] says that running [m] from [s] ends in a result and a state
    that satisfy [Q].  The rules below follow the program text, so a proof
    walks the source statement by statement. *)

Section WP.

Context {W : Type} (env : Env W).

Lemma wp_ret {A} (a : A) Q (s : st W) : Q (Ok a) s -> wp (ret a) Q s.
Proof. exact (fun H => H). Qed.

Lemma wp_raise {A} cls msg (Q : res A -> st W -> Prop) s :
  Q (Raise (Exn cls msg)) s -> wp (raise cls msg) Q s.
Proof. exact (fun H => H). Qed.

Lemma wp_bind {A B} (m : M W A) (k : A -> M W B) Q s :
  wp m (fun r s' => match r with
                    | Ok a => wp (k a) Q s'
                    | Raise e => Q (Raise e) s'
                    end) s ->
  wp (bind m k) Q s.
Proof.
  unfold wp, bind. destruct (m s) as [[a|e] s']; cbn; auto.
Qed.

Lemma wp_try_except {A} (m : M W A) cls h Q s :
  wp m (fun r s' => match r with
                    | Ok a => Q (Ok a) s'
                    | Raise e =>
                        if exn_class_eqb (exn_cls e) cls then wp (h e) Q s'
                        else Q (Raise e) s'
                    end) s ->
  wp (try_except m cls h) Q s.
Proof.
  unfold wp, try_except. destruct (m s) as [[a|e] s']; cbn; auto.
  destruct (exn_class_eqb (exn_cls e) cls); auto.
Qed.

Lemma wp_get_dev (Q : res Device -> st W -> Prop) s :
  Q (Ok (dev s)) s -> wp get_dev Q s.
Proof. exact (fun H => H). Qed.

Lemma wp_modify_dev f (Q : res unit -> st W -> Prop) s :
  Q (Ok tt) (mkSt (world s) (f (dev s)) (trace s)) -> wp (modify_dev f) Q s.
Proof. exact (fun H => H). Qed.

Lemma wp_extcall {A} (c : call A) Q s :
  (forall r w',
      handle env c (world s) = (r, w') ->
      Q r (mkSt w' (dev s) (trace s ++ [Ev c r]))) ->
  wp (extcall env c) Q s.
Proof.
  intros H. unfold wp, extcall.
  destruct (handle env c (world s)) as [r w'] eqn:E; cbn. now apply H.
Qed.

Lemma wp_conn_method {A} attr (c : call A) Q s :
  (conn_hasattr env attr = true ->
   forall r w',
     handle env c (world s) = (r, w') ->
     Q r (mkSt w' (dev s) (trace s ++ [Ev c r]))) ->
  (conn_hasattr env attr = false ->
   Q (Raise (Exn AttributeError attr))
     (mkSt (world s) (dev s) (trace s ++ [EvNoAttr attr c]))) ->
  wp (conn_method env attr c) Q s.
Proof.
  intros H1 H2. unfold conn_method.
  destruct (conn_hasattr env attr); [apply wp_extcall | apply H2]; auto.
Qed.

(** The same two rules on a trace kept as a prefix and a literal suffix. *)
Lemma wp_extcall_app {A} (c : call A) Q w d pre l :
  (forall r w',
      handle env c w = (r, w') ->
      Q r (mkSt w' d (pre ++ (l ++ [Ev c r])))) ->
  wp (extcall env c) Q (mkSt w d (pre ++ l)).
Proof.
  intros H. apply wp_extcall. cbn [world dev trace].
  intros r w' E. rewrite <- app_assoc. now apply H.
Qed.

Lemma wp_conn_method_app {A} attr (c : call A) Q w d pre l :
  (conn_hasattr env attr = true ->
   forall r w',
     handle env c w = (r, w') ->
     Q r (mkSt w' d (pre ++ (l ++ [Ev c r])))) ->
  (conn_hasattr env attr = false ->
   Q (Raise (Exn AttributeError attr))
     (mkSt w d (pre ++ (l ++ [EvNoAttr attr c])))) ->
  wp (conn_method env attr c) Q (mkSt w d (pre ++ l)).
Proof.
  intros H1 H2. apply wp_conn_method; cbn [world dev trace].
  - intros Ha r w' E. rewrite <- app_assoc. now apply H1.
  - intros Ha. rewrite <- app_assoc. now apply H2.
Qed.

Lemma wp_connect_to_device ipaddr credentials enable_mode device_type timeout Q s :
  (forall r w' t,
      connect_to_device env ipaddr credentials enable_mode device_type timeout s
      = (r, mkSt w' (dev s) (trace s ++ t)) ->
      forallb (attempts (@is_connect_call)) t = true ->
      Q r (mkSt w' (dev s) (trace s ++ t))) ->
  wp (connect_to_device env ipaddr credentials enable_mode device_type timeout) Q s.
Proof.
  intros H. unfold wp.
  destruct (connect_to_device_frame env ipaddr credentials enable_mode
                                    device_type timeout s)
    as (r & w' & t & E & F).
  rewrite E; cbn. now apply H.
Qed.

(** The connector as the first statement: its events are the prefix. *)
Lemma wp_connect_to_device_first ipaddr credentials enable_mode device_type
      timeout Q w d :
  (forall r w' t,
      connect_to_device env ipaddr credentials enable_mode device_type timeout
                        (mkSt w d [])
      = (r, mkSt w' d t) ->
      forallb (attempts (@is_connect_call)) t = true ->
      Q r (mkSt w' d (t ++ []))) ->
  wp (connect_to_device env ipaddr credentials enable_mode device_type timeout) Q
     (mkSt w d []).
Proof.
  intros H. apply wp_connect_to_device. cbn [world dev trace app].
  intros r w' t E F. specialize (H r w' t E F). now rewrite app_nil_r in H.
Qed.

(** [with FileTransfer(...) as scp: body]: enter, run the body, release. *)
Lemma wp_with_FileTransfer {A} src dst fs (body : M W A) Q s :
  wp (extcall env (FileTransfer_enter src dst fs))
     (fun r s1 =>
        match r with
        | Ok _ =>
            wp body
               (fun r s2 =>
                  match r with
                  | Ok a => wp (extcall env FileTransfer_exit ;;; ret a) Q s2
                  | Raise e =>
                      wp (extcall env FileTransfer_exit ;;;
                          (fun s => (Raise e, s))) Q s2
                  end) s1
        | Raise e => Q (Raise e) s1
        end) s ->
  wp (with_FileTransfer env src dst fs body) Q s.
Proof.
  intros H. unfold with_FileTransfer. apply wp_bind.
  unfold wp in *.
  destruct (extcall env (FileTransfer_enter src dst fs) s) as [[u|e] s1]; cbn in *; auto.
  destruct (body s1) as [[a|e] s2]; cbn in *; auto.
Qed.

Lemma wp_reraise {A} e (Q : res A -> st W -> Prop) s :
  Q (Raise e) s -> wp (fun s => (Raise e, s)) Q s.
Proof. exact (fun H => H). Qed.

End WP.

Ltac wp_simpl :=
  cbn [app world dev trace fst snd exn_cls exn_msg exn_class_eqb negb
       set_name set_connected set_successfully_rebooted set_file_uploaded
       set_error set_credentials
       ip_address name connected successfully_rebooted file_uploaded error
       credentials config_backed_up].

(** One statement of the program. *)
Ltac wp_step :=
  lazymatch goal with
  | |- wp (bind _ _) _ _ => apply wp_bind
  | |- wp (ret _) _ _ => apply wp_ret
  | |- wp (raise _ _) _ _ => apply wp_raise
  | |- wp (try_except _ _ _) _ _ => apply wp_try_except
  | |- wp get_dev _ _ => apply wp_get_dev
  | |- wp (modify_dev _) _ _ => apply wp_modify_dev
  | |- wp (extcall _ _) _ _ =>
      let r := fresh "r" in
      let w := fresh "w" in
      let E := fresh "Eh" in
      first [apply wp_extcall_app | apply wp_extcall]; intros [r | r] w E
  | |- wp (conn_method _ _ _) _ _ =>
      let r := fresh "r" in
      let w := fresh "w" in
      let E := fresh "Eh" in
      let A := fresh "Ha" in
      first [apply wp_conn_method_app | apply wp_conn_method];
      [intros A [r | r] w E | intros A]
  | |- wp (connect_to_device _ _ _ _ _ _) _ _ =>
      let r := fresh "conn" in
      let w := fresh "w" in
      let t := fresh "tc" in
      let E := fresh "Ec" in
      let F := fresh "Fc" in
      first [apply wp_connect_to_device_first | apply wp_connect_to_device];
      intros [r | r] w t E F
  | |- wp (with_FileTransfer _ _ _ _ _) _ _ => apply wp_with_FileTransfer
  | |- wp (fun s => (Raise _, s)) _ _ => apply wp_reraise
  | |- wp (if negb ?b then _ else _) _ _ => destruct b eqn:?
  | |- wp (if ?b then _ else _) _ _ => destruct b eqn:?
  | |- wp (match ?x with Some _ => _ | None => _ end) _ _ => destruct x eqn:?
  | |- wp (upgrade_asa _ _ _ _ _ _ _) _ _ => unfold upgrade_asa
  | |- wp (upgrade_asa_try _ _ _ _ _ _ _) _ _ => unfold upgrade_asa_try
  | |- wp (backup_config _ _ _ _) _ _ => unfold backup_config
  | |- wp (strptime_format_only _) _ _ => unfold strptime_format_only
  | |- wp (ping _ _ _) _ _ => unfold ping
  | |- wp (upload_block _) _ _ => unfold upload_block
  | |- wp (boot_block _ _ _ _ _) _ _ => unfold boot_block
  | |- wp (reboot_block _) _ _ => unfold reboot_block
  | |- wp (let x := _ in _) _ _ => cbv zeta
  | |- if exn_class_eqb (exn_cls ?e) ?c then _ else _ =>
      destruct (exn_class_eqb (exn_cls e) c) eqn:?
  end; wp_simpl.

Ltac wp_run := wp_simpl; repeat wp_step.

Section Sequencer.

Context {W : Type} (env : Env W).

(** [upgrade_asa] in terms of its [try] body: a handled exception becomes
    [return device] with [connected] cleared; nothing else changes. *)
Lemma upgrade_asa_handlers image_type image_location dest_drive reboot
      backup_cfg backup_location s :
  upgrade_asa env image_type image_location dest_drive reboot backup_cfg
              backup_location s
  = let out := upgrade_asa_try env image_type image_location dest_drive reboot
                               backup_cfg backup_location s in
    if handled (fst out)
    then (Ok RetDevice,
          mkSt (world (snd out)) (set_connected false (dev (snd out)))
               (trace (snd out)))
    else out.
Proof.
  unfold upgrade_asa, try_except.
  destruct (upgrade_asa_try env image_type image_location dest_drive reboot
                            backup_cfg backup_location s) as [[v|[cls msg]] s'];
    cbn; [reflexivity|].
  destruct cls, s'; reflexivity.
Qed.

(** Membership in the literal part of a trace. *)
Ltac solve_in :=
  solve [apply in_or_app; right; cbn [In];
         repeat first [left; reflexivity | right]].

(** What the environment answered is not needed to close a path. *)
Ltac forget_answers :=
  repeat match goal with
         | H : handle _ _ _ = _ |- _ => clear H
         | H : conn_hasattr _ _ = _ |- _ => clear H
         | H : connect_to_device _ _ _ _ _ _ _ = _ |- _ => clear H
         | u : unit |- _ => destruct u
         end.

Ltac not_connect_call :=
  let T := fresh in let c := fresh in
  intros T c; destruct c; cbn; congruence.

(** A path that cannot be taken. *)
Ltac absurd_path :=
  match goal with
  | H : true = false |- _ => discriminate H
  | H : false = true |- _ => discriminate H
  | H : Raise _ = Ok _ |- _ => discriminate H
  | H : Ok _ = Raise _ |- _ => discriminate H
  | H1 : ?x = true, H2 : ?x = false |- _ => rewrite H1 in H2; discriminate H2
  | H : upload_failed (_ ++ _) = true |- _ =>
      rewrite upload_failed_after_connect in H by assumption; discriminate H
  | H : ever _ (_ ++ _) = true |- _ =>
      rewrite ever_after_connect in H by (assumption || not_connect_call);
      discriminate H
  end.

(** Closing a path of the program: the device fields are read off, the
    connector's stretch of the trace is set aside, the rest computes. *)
Ltac close_goal :=
  first
    [ absurd_path
    | lazymatch goal with
      | |- In _ _ => solve_in
      | |- never _ _ = true =>
          apply never_after_connect; [not_connect_call | assumption | reflexivity]
      | |- issued_boot_pointer (_ ++ _) = _ =>
          rewrite issued_boot_pointer_after_connect by assumption; reflexivity
      | |- _ => first [reflexivity | assumption | congruence]
      end ].

Ltac close_path :=
  wp_simpl; intros;
  repeat match goal with
         | |- _ /\ _ => split
         | |- _ -> _ => intro
         end;
  try close_goal.

(** ** C1: the upload gates everything after it *)

Lemma upload_gates_later_steps_try (device : Device) image_type image_location
      dest_drive reboot backup_cfg backup_location w :
  file_uploaded device = false ->
  wp (upgrade_asa_try env image_type image_location dest_drive reboot
                      backup_cfg backup_location)
     (fun _ s' =>
        (file_uploaded (dev s') = true ->
         In (Ev Scp_verify_space_available (Ok true)) (trace s') /\
         In (Ev Scp_transfer_file (Ok tt)) (trace s') /\
         In (Ev Scp_verify_file (Ok true)) (trace s')) /\
        (upload_failed (trace s') = true -> file_uploaded (dev s') = false) /\
        (file_uploaded (dev s') = false ->
         never (@is_later_call) (trace s') = true))
     (mkSt w device []).
Proof.
  intros H. wp_run.
  all: forget_answers; close_path.
Qed.


(** The handlers change neither the trace nor any field but [connected]. *)
Lemma upgrade_asa_trace image_type image_location dest_drive reboot
      backup_cfg backup_location s :
  trace (snd (upgrade_asa env image_type image_location dest_drive reboot
                          backup_cfg backup_location s))
  = trace (snd (upgrade_asa_try env image_type image_location dest_drive reboot
                                backup_cfg backup_location s)).
Proof.
  rewrite upgrade_asa_handlers. cbv zeta.
  destruct (handled _); reflexivity.
Qed.

Lemma upgrade_asa_file_uploaded image_type image_location dest_drive reboot
      backup_cfg backup_location s :
  file_uploaded (dev (snd (upgrade_asa env image_type image_location dest_drive
                                       reboot backup_cfg backup_location s)))
  = file_uploaded (dev (snd (upgrade_asa_try env image_type image_location
                                             dest_drive reboot backup_cfg
                                             backup_location s))).
Proof.
  rewrite upgrade_asa_handlers. cbv zeta.
  destruct (handled _); reflexivity.
Qed.

Lemma upgrade_asa_error image_type image_location dest_drive reboot
      backup_cfg backup_location s :
  error (dev (snd (upgrade_asa env image_type image_location dest_drive
                               reboot backup_cfg backup_location s)))
  = error (dev (snd (upgrade_asa_try env image_type image_location
                                     dest_drive reboot backup_cfg
                                     backup_location s))).
Proof.
  rewrite upgrade_asa_handlers. cbv zeta.
  destruct (handled _); reflexivity.
Qed.

(** C1. For every device that starts with [file_uploaded] false, as
    [Device.__init__] leaves it: the flag ends true only if the space check
    passed, [transfer_file] returned and [verify_file] returned true; and
    when the upload failed (no space, a transfer that raised, a failed or
    raising verification) the flag ends false and no call of a later step
    (boot-pointer line, save, reboot, settle wait, probe) is ever attempted,
    made or not. *)
Theorem C1_upload_gates_later_steps (device : Device)
        (image_type image_location dest_drive : string)
        (reboot backup_cfg : bool) (backup_location : option string) (w : W) :
  file_uploaded device = false ->
  let out := run_upgrade_asa env device image_type image_location dest_drive
                             reboot backup_cfg backup_location w in
  (file_uploaded (dev (snd out)) = true ->
   In (Ev Scp_verify_space_available (Ok true)) (trace (snd out)) /\
   In (Ev Scp_transfer_file (Ok tt)) (trace (snd out)) /\
   In (Ev Scp_verify_file (Ok true)) (trace (snd out))) /\
  (upload_failed (trace (snd out)) = true ->
   file_uploaded (dev (snd out)) = false /\
   never (@is_later_call) (trace (snd out)) = true).
Proof.
  intros H out. subst out. unfold run_upgrade_asa.
  rewrite upgrade_asa_trace, upgrade_asa_file_uploaded.
  pose proof (upload_gates_later_steps_try device image_type image_location
                dest_drive reboot backup_cfg backup_location w H) as (A & B & C).
  split; [exact A|]. intros F. split; auto.
Qed.

(** ** C3: the connected flag *)

Lemma connected_after_try (device : Device) image_type image_location
      dest_drive reboot backup_cfg backup_location w :
  connected device = false ->
  wp (upgrade_asa_try env image_type image_location dest_drive reboot
                      backup_cfg backup_location)
     (fun _ s' =>
        connected (dev s') = true <->
        exists c, fst (run_connect env device w) = Ok c)
     (mkSt w device []).
Proof.
  intros H. unfold run_connect. wp_run.
  all: rewrite Ec; cbn [fst]; forget_answers; wp_simpl.
  all: split; intros; first [absurd_path | reflexivity | eauto | idtac].
  all: match goal with H : exists _, _ |- _ => destruct H; discriminate end.
Qed.

(** C3 (amended). For every device that starts with [connected] false:
    the flag ends true if and only if the connector returned a handle and
    the [try] body did not end in an exception that [upgrade_asa] handles
    (a [ConnectionException] or a [ValueError]); a handled exception after
    the connection, such as the backup writer's [ValueError], sets the flag
    back to false. *)
Theorem C3_connected_iff_handle_and_no_handled_failure (device : Device)
        (image_type image_location dest_drive : string)
        (reboot backup_cfg : bool) (backup_location : option string) (w : W) :
  connected device = false ->
  let out := run_upgrade_asa env device image_type image_location dest_drive
                             reboot backup_cfg backup_location w in
  let body := run_upgrade_asa_try env device image_type image_location
                                  dest_drive reboot backup_cfg backup_location w in
  connected (dev (snd out)) = true <->
  (exists c, fst (run_connect env device w) = Ok c) /\ handled (fst body) = false.
Proof.
  intros H out body. subst out body.
  unfold run_upgrade_asa, run_upgrade_asa_try.
  rewrite upgrade_asa_handlers. cbv zeta.
  pose proof (connected_after_try device image_type image_location dest_drive
                reboot backup_cfg backup_location w H) as K.
  unfold wp in K.
  destruct (handled _) eqn:Hh; cbn [snd dev connected set_connected].
  - split; [discriminate | intros [_ F]; discriminate].
  - rewrite K. tauto.
Qed.

(** ** C6: the boot-pointer line *)

Lemma boot_pointer_after_try (device : Device) image_type image_location
      dest_drive reboot backup_cfg backup_location w :
  file_uploaded device = false ->
  conn_hasattr env "send_config_set" = true ->
  wp (upgrade_asa_try env image_type image_location dest_drive reboot
                      backup_cfg backup_location)
     (fun r s' =>
        (issued_boot_pointer (trace s') = [] \/
         issued_boot_pointer (trace s')
         = boot_pointer_for image_type dest_drive image_location) /\
        (forall v, r = Ok v ->
                   issued_boot_pointer (trace s')
                   = if file_uploaded (dev s')
                     then boot_pointer_for image_type dest_drive image_location
                     else []))
     (mkSt w device []).
Proof.
  intros H Hattr. unfold boot_pointer_for. wp_run.
  all: try congruence.
  all: forget_answers; wp_simpl; rewrite ?H.
  all: repeat match goal with
              | E : String.eqb _ _ = _ |- _ => rewrite E; clear E
              end.
  all: rewrite issued_boot_pointer_after_connect by assumption.
  all: split; [first [left; reflexivity | right; reflexivity]
              | intros; wp_simpl;
                repeat match goal with
                       | E : file_uploaded _ = _ |- _ => rewrite E; clear E
                       end;
                first [discriminate | reflexivity]].
Qed.

(** C6 (amended). For every device that starts with [file_uploaded] false,
    on a connection that has [send_config_set]: every boot-pointer line sent
    is the one built for the image type, [boot system] for [asa] and
    [asdm image] for [asdm] (compared in lower case), followed by
    [dest_drive], a slash and the base name of the local image path; and
    when the run ends without an exception and the upload succeeded, exactly
    that one line was sent (none for any other image type). *)
Theorem C6_boot_pointer_targets_drive_slash_basename (device : Device)
        (image_type image_location dest_drive : string)
        (reboot backup_cfg : bool) (backup_location : option string) (w : W) :
  file_uploaded device = false ->
  conn_hasattr env "send_config_set" = true ->
  let out := run_upgrade_asa env device image_type image_location dest_drive
                             reboot backup_cfg backup_location w in
  let body := run_upgrade_asa_try env device image_type image_location
                                  dest_drive reboot backup_cfg backup_location w in
  (issued_boot_pointer (trace (snd out)) = [] \/
   issued_boot_pointer (trace (snd out))
   = boot_pointer_for image_type dest_drive image_location) /\
  (forall v, fst body = Ok v ->
             file_uploaded (dev (snd out)) = true ->
             issued_boot_pointer (trace (snd out))
             = boot_pointer_for image_type dest_drive image_location).
Proof.
  intros H Hattr out body. subst out body. unfold run_upgrade_asa.
  rewrite upgrade_asa_trace, upgrade_asa_file_uploaded.
  pose proof (boot_pointer_after_try device image_type image_location
                dest_drive reboot backup_cfg backup_location w H Hattr) as (A & B).
  split; [exact A|]. intros v Hv Hf.
  unfold run_upgrade_asa_try in Hv. rewrite (B v Hv), Hf. reflexivity.
Qed.

(** ** C7: a backup destination that is not a directory *)

Lemma backup_failure_try (device : Device) image_type image_location
      dest_drive reboot loc w :
  (forall w', fst (handle env (Path_is_dir loc) w') = Ok false) ->
  wp (upgrade_asa_try env image_type image_location dest_drive reboot
                      true (Some loc))
     (fun r s' =>
        never (@is_upload_call) (trace s') = true /\
        never (@is_later_call) (trace s') = true /\
        error (dev s') = error device /\
        file_uploaded (dev s') = file_uploaded device /\
        (ever (@is_backup_call) (trace s') = true ->
         r = Raise (Exn ValueError ("Location is not a directory - " ++ loc))))
     (mkSt w device []).
Proof.
  intros Hdir. wp_run.
  all: try match goal with
           | E : handle env (Path_is_dir _) ?w0 = _ |- _ =>
               let X := fresh in
               pose proof (Hdir w0) as X; rewrite E in X; cbn in X;
               try discriminate X; clear X
           end.
  all: forget_answers; close_path.
Qed.

(** C7 (amended). When a backup is requested and the destination is not an
    existing directory, no call of the upload step and no call of a later
    step is ever attempted, and the device record keeps the [error] text and
    the [file_uploaded] flag it had; if the run got as far as the backup
    writer, [upgrade_asa] returns the device with [connected] set to false.
    The [ValueError] message is not stored in the record. *)
Theorem C7_backup_failure_halts_before_upload (device : Device)
        (image_type image_location dest_drive : string)
        (reboot : bool) (loc : string) (w : W) :
  (forall w', fst (handle env (Path_is_dir loc) w') = Ok false) ->
  let out := run_upgrade_asa env device image_type image_location dest_drive
                             reboot true (Some loc) w in
  never (@is_upload_call) (trace (snd out)) = true /\
  never (@is_later_call) (trace (snd out)) = true /\
  error (dev (snd out)) = error device /\
  file_uploaded (dev (snd out)) = file_uploaded device /\
  (ever (@is_backup_call) (trace (snd out)) = true ->
   fst out = Ok RetDevice /\ connected (dev (snd out)) = false).
Proof.
  intros Hdir out. subst out. unfold run_upgrade_asa.
  rewrite upgrade_asa_trace, upgrade_asa_file_uploaded, upgrade_asa_error.
  pose proof (backup_failure_try device image_type image_location dest_drive
                reboot loc w Hdir) as (A & B & C & D & E).
  repeat split; auto.
  - apply E in H. rewrite upgrade_asa_handlers. cbv zeta. now rewrite H.
  - apply E in H. rewrite upgrade_asa_handlers. cbv zeta. now rewrite H.
Qed.

(** ** C8: the reboot block on a connection without [send_confg_set] *)

Lemma reboot_without_method_try (device : Device) image_type image_location
      dest_drive reboot backup_cfg backup_location w :
  conn_hasattr env "send_confg_set" = false ->
  file_uploaded device = false ->
  wp (upgrade_asa_try env image_type image_location dest_drive reboot
                      backup_cfg backup_location)
     (fun r s' =>
        never (@is_probe_call) (trace s') = true /\
        successfully_rebooted (dev s') = successfully_rebooted device /\
        (reboot = true -> file_uploaded (dev s') = true ->
         exists e, r = Raise e))
     (mkSt w device []).
Proof.
  intros Hattr H. wp_run.
  all: try congruence.
  all: forget_answers; close_path.
  all: eauto.
Qed.

(** ** C10: what [upgrade_asa] returns *)

Lemma returned_by_try (device : Device) image_type image_location
      dest_drive reboot backup_cfg backup_location w :
  wp (upgrade_asa_try env image_type image_location dest_drive reboot
                      backup_cfg backup_location)
     (fun r s' =>
        r = Ok RetDevice ->
        reboot = true /\ file_uploaded (dev s') = true /\
        ever (@is_probe_call) (trace s') = true)
     (mkSt w device []).
Proof.
  wp_run.
  all: forget_answers; wp_simpl; intros; try discriminate.
  all: repeat split; try assumption.
  all: rewrite ever_after_connect by (assumption || not_connect_call); reflexivity.
Qed.

(** On a connection object without an attribute [send_confg_set] (a
    netmiko connection has [send_config_set]), for a device that starts
    with [file_uploaded] false: the reachability probe is never run and
    [successfully_rebooted] is never written; and when a reboot is requested
    and the upload succeeded, the call does not come back with [connected]
    still true: either an exception leaves [upgrade_asa], or a handled one
    has cleared [connected]. *)
Lemma reboot_block_never_reaches_probe (device : Device)
        (image_type image_location dest_drive : string)
        (reboot backup_cfg : bool) (backup_location : option string) (w : W) :
  conn_hasattr env "send_confg_set" = false ->
  file_uploaded device = false ->
  let out := run_upgrade_asa env device image_type image_location dest_drive
                             reboot backup_cfg backup_location w in
  never (@is_probe_call) (trace (snd out)) = true /\
  successfully_rebooted (dev (snd out)) = successfully_rebooted device /\
  (reboot = true -> file_uploaded (dev (snd out)) = true ->
   (exists e, fst out = Raise e) \/ connected (dev (snd out)) = false).
Proof.
  intros Hattr H out. subst out. unfold run_upgrade_asa.
  pose proof (reboot_without_method_try device image_type image_location
                dest_drive reboot backup_cfg backup_location w Hattr H)
    as (A & B & C).
  rewrite upgrade_asa_handlers. cbv zeta.
  destruct (handled _) eqn:Hh; cbn [fst snd dev trace world connected
                                    successfully_rebooted file_uploaded
                                    set_connected].
  - repeat split; auto.
  - repeat split; auto.
Qed.

(** C10. [upgrade_asa] returns the device only when its [try] body ended in
    a handled exception, or when a reboot was requested, the upload had
    succeeded and the reboot block ran through to the probe; and whenever
    the [try] body ends without raising and either the upload did not
    succeed or no reboot was requested, it returns [None]. *)
Theorem C10_returns_device_only_on_handler_or_reboot (device : Device)
        (image_type image_location dest_drive : string)
        (reboot backup_cfg : bool) (backup_location : option string) (w : W) :
  let out := run_upgrade_asa env device image_type image_location dest_drive
                             reboot backup_cfg backup_location w in
  let body := run_upgrade_asa_try env device image_type image_location
                                  dest_drive reboot backup_cfg backup_location w in
  (returned_value out = Ok (Some (dev (snd out))) ->
   handled (fst body) = true \/
   (reboot = true /\ file_uploaded (dev (snd out)) = true /\
    ever (@is_probe_call) (trace (snd out)) = true)) /\
  ((exists v, fst body = Ok v) ->
   file_uploaded (dev (snd out)) = false \/ reboot = false ->
   returned_value out = Ok None).
Proof.
  intros out body. subst out body.
  unfold run_upgrade_asa, run_upgrade_asa_try.
  pose proof (returned_by_try device image_type image_location dest_drive
                reboot backup_cfg backup_location w) as K.
  unfold wp in K.
  rewrite upgrade_asa_handlers. cbv zeta.
  destruct (upgrade_asa_try env image_type image_location dest_drive reboot
                            backup_cfg backup_location (mkSt w device []))
    as [r s'] eqn:E.
  cbn [fst snd] in *.
  destruct (handled r) eqn:Hh.
  - split; [auto|]. intros [v ->]. discriminate.
  - split.
    + intros R. right. apply K.
      unfold returned_value in R.
      destruct r as [[|]|e]; [discriminate R | reflexivity | discriminate R].
    + intros [v ->] D. destruct v; [reflexivity|].
      destruct (K eq_refl) as (Hr & Hf & _).
      cbn [snd] in D. destruct D; congruence.
Qed.

End Sequencer.

(** ** The session connector *)

Lemma searched_app_stop enable_mode l t v rest :
  searched enable_mode l t v ->
  v <> Exhausted ->
  searched enable_mode (l ++ rest) t v.
Proof.
  induction 1; intros Hv; cbn [app].
  - congruence.
  - now apply se_found.
  - eapply se_rejected; eauto.
  - eapply se_aborted; eauto.
Qed.

Lemma searched_app_exhausted enable_mode l t rest t' v :
  searched enable_mode l t Exhausted ->
  searched enable_mode rest t' v ->
  searched enable_mode (l ++ rest) (t ++ t') v.
Proof.
  intros H. remember Exhausted as x eqn:Hx. revert Hx.
  induction H; intros Hx Hr; try discriminate; cbn [app].
  - assumption.
  - rewrite <- app_assoc. eapply se_rejected; eauto.
Qed.

Lemma attempt_events_head enable_mode d t r :
  attempt_events enable_mode d t r ->
  exists r0 tl, t = Ev (ConnectHandler d) r0 :: tl.
Proof. destruct 1; eauto. Qed.

Lemma attempt_events_count enable_mode d t r :
  attempt_events enable_mode d t r -> count_attempts t = 1.
Proof. destruct 1; reflexivity. Qed.

Lemma searched_head enable_mode d rest t v :
  searched enable_mode (d :: rest) t v ->
  exists r0 tl, t = Ev (ConnectHandler d) r0 :: tl.
Proof.
  inversion 1; subst;
    match goal with
    | A : attempt_events _ _ _ _ |- _ =>
        destruct (attempt_events_head _ _ _ _ A) as (r0 & tl & ->)
    end; cbn [app]; eauto.
Qed.

Lemma count_attempts_app a b :
  count_attempts (a ++ b) = count_attempts a + count_attempts b.
Proof. unfold count_attempts. now rewrite filter_app, length_app. Qed.

(** Where a failed connector call sits in a trace that begins with the
    events [t] of one attempt: it is the last event of [t], and the attempt
    raised that exception, or it comes after [t]. *)
Lemma attempt_events_split enable_mode d t r t' pre e post cls :
  attempt_events enable_mode d t r ->
  t ++ t' = pre ++ e :: post ->
  failed_with cls e = true ->
  (pre ++ [e] = t /\ post = t' /\
   exists x, r = Raise x /\ exn_class_eqb (exn_cls x) cls = true) \/
  (exists pre', pre = t ++ pre' /\ t' = pre' ++ e :: post).
Proof.
  intros A Heq Hf.
  destruct A; cbn [app] in Heq;
    repeat (destruct pre as [|? pre]; cbn [app] in Heq;
            [injection Heq as <- <-; cbn in Hf;
             first [discriminate Hf
                   | left; repeat split; eexists; split; [reflexivity|exact Hf]]
            | injection Heq as <- Heq]);
    right; exists pre; now split.
Qed.

(** A timeout ends the search on the spot. *)
Lemma searched_timeout_is_last enable_mode l t v :
  searched enable_mode l t v ->
  forall pre e post,
    t = pre ++ e :: post ->
    failed_with NetMikoTimeoutException e = true ->
    post = [] /\
    exists x, v = Aborted x /\
              exn_class_eqb (exn_cls x) NetMikoTimeoutException = true.
Proof.
  induction 1 as [|d rest t c A|d rest t x t' v A Hx S IH|d rest t x A Hx];
    intros pre e post Heq Hf.
  - destruct pre; discriminate.
  - rewrite <- (app_nil_r t) in Heq.
    destruct (attempt_events_split _ _ _ _ _ _ _ _ _ A Heq Hf)
      as [(_ & _ & y & Hy & _) | (pre' & _ & Hn)];
      [discriminate | destruct pre'; discriminate].
  - destruct (attempt_events_split _ _ _ _ _ _ _ _ _ A Heq Hf)
      as [(_ & _ & y & Hy & Hc) | (pre' & _ & Hn)].
    + injection Hy as <-. rewrite Hx in Hc. discriminate.
    + eapply IH; eauto.
  - rewrite <- (app_nil_r t) in Heq.
    destruct (attempt_events_split _ _ _ _ _ _ _ _ _ A Heq Hf)
      as [(_ & Hp & y & Hy & Hc) | (pre' & _ & Hn)];
      [|destruct pre'; discriminate].
    injection Hy as <-. split; [now subst | eauto].
Qed.

(** After a rejected authentication the next candidate is tried. *)
Lemma searched_rejection_continues enable_mode l t v :
  searched enable_mode l t v ->
  forall pre e post,
    t = pre ++ e :: post ->
    failed_with NetMikoAuthenticationException e = true ->
    forall d',
      nth_error l (count_attempts (pre ++ [e])) = Some d' ->
      exists r post', post = Ev (ConnectHandler d') r :: post'.
Proof.
  induction 1 as [|d rest t c A|d rest t x t' v A Hx S IH|d rest t x A Hx];
    intros pre e post Heq Hf d' Hn.
  - destruct pre; discriminate.
  - rewrite <- (app_nil_r t) in Heq.
    destruct (attempt_events_split _ _ _ _ _ _ _ _ _ A Heq Hf)
      as [(_ & _ & y & Hy & _) | (pre' & _ & Hp)];
      [discriminate | destruct pre'; discriminate].
  - destruct (attempt_events_split _ _ _ _ _ _ _ _ _ A Heq Hf)
      as [(Hp & -> & _) | (pre' & -> & ->)].
    + rewrite Hp, (attempt_events_count _ _ _ _ A) in Hn. cbn in Hn.
      destruct rest as [|d0 rest]; [discriminate|].
      injection Hn as ->.
      destruct (searched_head _ _ _ _ _ S) as (r0 & tl & ->). eauto.
    + rewrite <- app_assoc, count_attempts_app,
        (attempt_events_count _ _ _ _ A) in Hn. cbn in Hn.
      eapply IH; eauto.
  - rewrite <- (app_nil_r t) in Heq.
    destruct (attempt_events_split _ _ _ _ _ _ _ _ _ A Heq Hf)
      as [(_ & _ & y & Hy & Hc) | (pre' & _ & Hp)];
      [|destruct pre'; discriminate].
    injection Hy as <-. destruct x as [[] msg]; cbn in *; congruence.
Qed.

Section Connector.

Context {W : Type} (env : Env W).

Lemma attempt_spec enable_mode d s :
  exists r t w',
    attempt env enable_mode d s = (r, mkSt w' (dev s) (trace s ++ t)) /\
    attempt_events enable_mode d t r.
Proof.
  unfold attempt, conn_method, bind, extcall, ret, raise, log.
  destruct s as [w dv tr]; cbn [world dev trace].
  destruct (handle env (ConnectHandler d) w) as [[[]|e] w1]; cbn.
  - destruct enable_mode; cbn.
    + destruct (conn_hasattr env "enable"); cbn.
      * destruct (handle env Conn_enable w1) as [[[]|e] w2]; cbn;
          rewrite <- app_assoc; do 3 eexists; (split; [reflexivity|]);
          now constructor.
      * rewrite <- app_assoc; do 3 eexists; (split; [reflexivity|]).
        now constructor.
    + do 3 eexists; (split; [reflexivity|]). now constructor.
  - do 3 eexists; (split; [reflexivity|]). constructor.
Qed.

Lemma for_device_type_spec enable_mode types :
  forall device s,
  exists v r t w',
    for_device_type env enable_mode device types s
    = (r, mkSt w' (dev s) (trace s ++ t)) /\
    inner_result v device types r /\
    searched enable_mode (candidates_for_types device types) t v.
Proof.
  induction types as [|d rest IH]; intros device s; cbn [for_device_type].
  - exists Exhausted, (Ok (None, device)), [], (world s).
    destruct s; cbn. rewrite app_nil_r. repeat split. constructor.
  - cbn [candidates_for_types after_types].
    unfold bind at 1, try_except, bind at 1, ret.
    destruct (attempt_spec enable_mode (set_device_type d device) s)
      as (r & t & w' & E & A).
    rewrite E. destruct r as [c|e]; cbn.
    + exists (Found c). do 3 eexists. split; [reflexivity|].
      split; [eexists; reflexivity | now apply se_found].
    + destruct e as [cls msg]. cbn [exn_cls].
      destruct (exn_class_eqb cls NetMikoAuthenticationException) eqn:Hc.
      * cbn.
        destruct (IH (set_device_type d device)
                     (mkSt w' (dev s) (trace s ++ t)))
          as (v & r2 & t2 & w2 & E2 & R2 & S2).
        cbn [dev trace] in E2. rewrite E2.
        exists v, r2, (t ++ t2), w2. rewrite app_assoc.
        split; [reflexivity|]. split.
        -- destruct v; exact R2.
        -- assert (Hcls : cls = NetMikoAuthenticationException)
             by (destruct cls; cbn in Hc; congruence).
           eapply se_rejected; eauto.
      * assert (Hcls : cls <> NetMikoAuthenticationException)
          by (destruct cls; cbn in Hc; congruence).
        cbn.
        exists (Aborted (Exn cls msg)).
        destruct (exn_class_eqb cls NetMikoTimeoutException); cbn;
          do 3 eexists; (split; [reflexivity|]);
          (split; [reflexivity | eapply se_aborted; eauto]).
Qed.

Lemma for_credentials_spec enable_mode types creds :
  forall device s,
  exists v t w',
    for_credentials env enable_mode device types creds s
    = (loop_result v, mkSt w' (dev s) (trace s ++ t)) /\
    searched enable_mode (candidates_from device types creds) t v.
Proof.
  induction creds as [|c rest IH]; intros device s;
    cbn [for_credentials candidates_from].
  - exists Exhausted, [], (world s). destruct s; cbn.
    rewrite app_nil_r. split; [reflexivity | constructor].
  - unfold bind at 1.
    destruct (for_device_type_spec enable_mode types (set_credential c device) s)
      as (v & r & t & w' & E & R & S).
    rewrite E. destruct v as [conn| |e]; cbn in R.
    + destruct R as [device' ->].
      exists (Found conn), t, w'. split; [reflexivity|].
      apply searched_app_stop; [assumption | discriminate].
    + subst r.
      destruct (IH (after_types (set_credential c device) types)
                   (mkSt w' (dev s) (trace s ++ t)))
        as (v & t2 & w2 & E2 & S2).
      cbn [dev trace] in E2. rewrite E2.
      exists v, (t ++ t2), w2. rewrite app_assoc. split; [reflexivity|].
      now apply searched_app_exhausted.
    + subst r. exists (Aborted e), t, w'. split; [reflexivity|].
      apply searched_app_stop; [assumption | discriminate].
Qed.

(** The connector on a non-empty credential list is the search over
    [candidates]. *)
Lemma connect_to_device_searched ipaddr credentials enable_mode device_type
      timeout s :
  truthy_credentials credentials = true ->
  exists v t w',
    connect_to_device env ipaddr credentials enable_mode device_type timeout s
    = (verdict_result v, mkSt w' (dev s) (trace s ++ t)) /\
    searched enable_mode (candidates ipaddr credentials device_type timeout) t v.
Proof.
  intros Ht. unfold connect_to_device, candidates. rewrite Ht.
  unfold try_except, bind at 1.
  match goal with
  | |- context [for_credentials env ?em ?dv ?ty ?cr s] =>
      destruct (for_credentials_spec em ty cr dv s) as (v & t & w' & E & S)
  end.
  rewrite E. exists v, t, w'. split; [|exact S].
  destruct v as [c| |[cls msg]]; cbn; try reflexivity.
  destruct cls; reflexivity.
Qed.

(** With no credentials nothing is tried at all. *)
Lemma connect_to_device_no_credentials ipaddr credentials enable_mode
      device_type timeout s :
  truthy_credentials credentials = false ->
  connect_to_device env ipaddr credentials enable_mode device_type timeout s
  = (Raise (Exn ConnectionException "No Credentials provided"), s).
Proof.
  intros Ht. unfold connect_to_device. now rewrite Ht.
Qed.

End Connector.

(** ** The worker pool *)

Section PoolFacts.

Context {Item Result : Type} (worker_func : Item -> res Result).

Lemma set_nth_flat_map {A B} (f : A -> list B) i old new (l : list A) :
  nth_error l i = Some old ->
  Permutation (f old ++ flat_map f (ThreadingHelper.set_nth i new l))
              (f new ++ flat_map f l).
Proof.
  revert i. induction l as [|y l IH]; intros [|i] H; cbn in *; try discriminate.
  - injection H as ->. apply Permutation_app_swap_app.
  - rewrite Permutation_app_swap_app, (IH _ H). apply Permutation_app_swap_app.
Qed.

Lemma flat_map_repeat_nil {A B} (f : A -> list B) (x : A) n :
  f x = [] -> flat_map f (repeat x n) = [].
Proof.
  intros Hf. induction n as [|k IH]; cbn; [reflexivity|]. now rewrite Hf, IH.
Qed.

Lemma start_accounted items n :
  ThreadingHelper.accounted worker_func items (ThreadingHelper.start items n).
Proof.
  unfold ThreadingHelper.accounted, ThreadingHelper.start; cbn.
  rewrite !flat_map_repeat_nil by reflexivity.
  cbn. rewrite app_nil_r. split; [reflexivity | lia].
Qed.

Ltac pool_fields :=
  unfold ThreadingHelper.accounted;
  cbn [ThreadingHelper.input_queue ThreadingHelper.unfinished_tasks
       ThreadingHelper.output_queue ThreadingHelper.workers].

Lemma step_accounted items i p p' :
  ThreadingHelper.accounted worker_func items p ->
  ThreadingHelper.step worker_func i p = Some p' ->
  ThreadingHelper.accounted worker_func items p'.
Proof.
  intros [HP HU]. unfold ThreadingHelper.step.
  destruct (nth_error (ThreadingHelper.workers p) i) as [w|] eqn:Hw; [|discriminate].
  destruct w as [| |item|r| | |e].
  - (* the loop test *)
    intros [= <-]. pool_fields.
    set (next := match ThreadingHelper.input_queue p with
                 | [] => ThreadingHelper.Finished
                 | _ :: _ => ThreadingHelper.AtGet
                 end).
    pose proof (set_nth_flat_map (ThreadingHelper.held worker_func) i _ next _ Hw) as Hh.
    pose proof (set_nth_flat_map ThreadingHelper.busy i _ next _ Hw) as Hb.
    assert (ThreadingHelper.held worker_func next = [] /\ ThreadingHelper.busy next = []) as [E1 E2]
        by (subst next; destruct (ThreadingHelper.input_queue p); split; reflexivity).
    rewrite E1 in Hh. rewrite E2 in Hb. cbn in Hh, Hb.
    split; [now rewrite Hh | now rewrite (Permutation_length Hb)].
  - (* get *)
    destruct (ThreadingHelper.input_queue p) as [|item rest] eqn:Hq; [discriminate|].
    intros [= <-]. pool_fields.
    pose proof (set_nth_flat_map (ThreadingHelper.held worker_func) i _
                                 (ThreadingHelper.AtCall item) _ Hw) as Hh.
    pose proof (set_nth_flat_map ThreadingHelper.busy i _ (ThreadingHelper.AtCall item) _ Hw) as Hb.
    cbn in Hh, Hb. split.
    + rewrite HP, Hh. apply Permutation_app_head. cbn.
      apply Permutation_middle.
    + rewrite HU, (Permutation_length Hb). cbn. lia.
  - (* the call *)
    intros [= <-]. pool_fields.
    set (next := match worker_func item with
                 | Ok r => ThreadingHelper.AtPut r
                 | Raise e => ThreadingHelper.Died e
                 end).
    pose proof (set_nth_flat_map (ThreadingHelper.held worker_func) i _ next _ Hw) as Hh.
    pose proof (set_nth_flat_map ThreadingHelper.busy i _ next _ Hw) as Hb.
    assert (ThreadingHelper.held worker_func next = [worker_func item] /\
            ThreadingHelper.busy next = [tt]) as [E1 E2]
        by (subst next; cbn; destruct (worker_func item); split; reflexivity).
    rewrite E1 in Hh. rewrite E2 in Hb. cbn in Hh, Hb.
    apply Permutation_cons_inv in Hh. apply Permutation_cons_inv in Hb.
    split; [now rewrite Hh | now rewrite (Permutation_length Hb)].
  - (* put *)
    intros [= <-]. pool_fields.
    pose proof (set_nth_flat_map (ThreadingHelper.held worker_func) i _
                                 ThreadingHelper.AtTaskDone _ Hw) as Hh.
    pose proof (set_nth_flat_map ThreadingHelper.busy i _
                                 ThreadingHelper.AtTaskDone _ Hw) as Hb.
    cbn in Hh, Hb. apply Permutation_cons_inv in Hb. split.
    + rewrite HP, <- Hh, map_app, <- app_assoc. apply Permutation_app_head.
      cbn. symmetry. apply Permutation_middle.
    + now rewrite (Permutation_length Hb).
  - (* task_done *)
    pose proof (set_nth_flat_map (ThreadingHelper.held worker_func) i _
                                 ThreadingHelper.AtWhile _ Hw) as Hh.
    pose proof (set_nth_flat_map ThreadingHelper.busy i _ ThreadingHelper.AtWhile _ Hw) as Hb.
    cbn in Hh, Hb. apply Permutation_length in Hb. cbn in Hb.
    destruct (ThreadingHelper.unfinished_tasks p) as [|n] eqn:Hn.
    + lia.
    + intros [= <-]. pool_fields. split; [now rewrite Hh | lia].
  - discriminate.
  - discriminate.
Qed.

Lemma run_schedule_accounted items schedule :
  forall p,
    ThreadingHelper.accounted worker_func items p ->
    ThreadingHelper.accounted worker_func items
      (ThreadingHelper.run_schedule worker_func schedule p).
Proof.
  induction schedule as [|i rest IH]; intros p H; cbn; [exact H|].
  apply IH. destruct (ThreadingHelper.step worker_func i p) as [p'|] eqn:E; [|exact H].
  eapply step_accounted; eauto.
Qed.

(** When [join()] lets [run] through, the output queue holds exactly the
    results of [worker_func] on the items, each once, in some order. *)
Lemma run_returns_all_results items num_of_workers schedule out :
  ThreadingHelper.run worker_func items num_of_workers schedule = Some out ->
  Permutation (map Ok out) (map worker_func items).
Proof.
  unfold ThreadingHelper.run.
  pose proof (run_schedule_accounted items schedule _
                (start_accounted items num_of_workers)) as [HP HU].
  set (p := ThreadingHelper.run_schedule worker_func schedule
                              (ThreadingHelper.start items num_of_workers)) in *.
  destruct (ThreadingHelper.unfinished_tasks p) eqn:Hn; [|discriminate].
  intros [= <-].
  assert (Hq : ThreadingHelper.input_queue p = []) by (apply length_zero_iff_nil; lia).
  assert (Hb : flat_map ThreadingHelper.busy (ThreadingHelper.workers p) = [])
    by (apply length_zero_iff_nil; lia).
  assert (Hh : flat_map (ThreadingHelper.held worker_func) (ThreadingHelper.workers p) = []).
  { revert Hb. generalize (ThreadingHelper.workers p).
    induction l as [|w l IH]; cbn; [reflexivity|].
    destruct w; cbn; try discriminate; exact IH. }
  rewrite HP, Hq, Hh. cbn. now rewrite app_nil_r.
Qed.

(** An item on which [worker_func] raises is never marked done: [join()]
    blocks for ever. *)
Lemma run_blocks_when_worker_raises items num_of_workers schedule item e :
  In item items ->
  worker_func item = Raise e ->
  ThreadingHelper.run worker_func items num_of_workers schedule = None.
Proof.
  intros Hin He.
  destruct (ThreadingHelper.run worker_func items num_of_workers schedule) as [out|] eqn:E;
    [|reflexivity].
  apply run_returns_all_results in E.
  assert (H : In (Raise e) (map worker_func items))
    by (rewrite <- He; now apply in_map).
  apply (Permutation_in _ (Permutation_sym E)) in H.
  apply in_map_iff in H as (r & Hr & _). discriminate.
Qed.

End PoolFacts.

(** ** C4 and C9: what the connector does with failures *)

Section ConnectorFailures.

Context {W : Type} (env : Env W).

Lemma attempt_first enable_mode d (s : st W) :
  exists r t w',
    attempt env enable_mode d s
    = (r, mkSt w' (dev s)
               (trace s ++ Ev (ConnectHandler d)
                              (fst (handle env (ConnectHandler d) (world s)))
                        :: t)).
Proof.
  unfold attempt, conn_method, bind, extcall, ret, raise, log.
  destruct s as [w dv tr]; cbn [world dev trace].
  destruct (handle env (ConnectHandler d) w) as [[[]|e] w1]; cbn.
  - destruct enable_mode; cbn.
    + destruct (conn_hasattr env "enable"); cbn.
      * destruct (handle env Conn_enable w1) as [[[]|e] w2]; cbn;
          rewrite <- app_assoc; do 3 eexists; reflexivity.
      * rewrite <- app_assoc; do 3 eexists; reflexivity.
    + do 3 eexists; reflexivity.
  - do 3 eexists; reflexivity.
Qed.

Lemma for_device_type_first enable_mode ty types device (s : st W) :
  exists t,
    trace (snd (for_device_type env enable_mode device (ty :: types) s))
    = trace s
        ++ Ev (ConnectHandler (set_device_type ty device))
              (fst (handle env (ConnectHandler (set_device_type ty device))
                           (world s)))
        :: t.
Proof.
  cbn [for_device_type]. unfold bind at 1, try_except, bind at 1, ret.
  destruct (attempt_first enable_mode (set_device_type ty device) s)
    as (r & t & w' & E).
  rewrite E. destruct r as [c|e]; cbn.
  - now exists t.
  - destruct (exn_class_eqb (exn_cls e) NetMikoAuthenticationException); cbn.
    + destruct (for_device_type_spec env enable_mode types
                  (set_device_type ty device)
                  (mkSt w' (dev s)
                        (trace s ++ Ev (ConnectHandler (set_device_type ty device))
                                       (fst (handle env
                                               (ConnectHandler (set_device_type ty device))
                                               (world s))) :: t)))
        as (v & r2 & t2 & w2 & E2 & _).
      rewrite E2. cbn [snd trace]. exists (t ++ t2).
      now rewrite <- app_assoc.
    + destruct (exn_class_eqb (exn_cls e) NetMikoTimeoutException); cbn;
        now exists t.
Qed.

Lemma for_credentials_first enable_mode ty types c creds device (s : st W) :
  exists t,
    trace (snd (for_credentials env enable_mode device (ty :: types)
                                (c :: creds) s))
    = trace s
        ++ Ev (ConnectHandler (set_device_type ty (set_credential c device)))
              (fst (handle env
                      (ConnectHandler (set_device_type ty (set_credential c device)))
                      (world s)))
        :: t.
Proof.
  cbn [for_credentials]. unfold bind at 1.
  destruct (for_device_type_first enable_mode ty types (set_credential c device) s)
    as (t & E).
  destruct (for_device_type env enable_mode (set_credential c device)
                            (ty :: types) s) as [r s1] eqn:F.
  cbn [snd] in E.
  destruct r as [[[conn|] device']|e]; cbn.
  - now exists t.
  - destruct (for_credentials_spec env enable_mode (ty :: types) creds device' s1)
      as (v & t2 & w2 & E2 & _).
    rewrite E2. cbn [snd trace]. rewrite E. exists (t ++ t2).
    now rewrite <- app_assoc.
  - now exists t.
Qed.

Lemma connect_to_device_first ipaddr credentials enable_mode device_type
      timeout first rest (s : st W) :
  truthy_credentials credentials = true ->
  candidates ipaddr credentials device_type timeout = first :: rest ->
  exists t,
    trace (snd (connect_to_device env ipaddr credentials enable_mode
                                  device_type timeout s))
    = trace s
        ++ Ev (ConnectHandler first)
              (fst (handle env (ConnectHandler first) (world s)))
        :: t.
Proof.
  intros Ht Hc. unfold connect_to_device. rewrite Ht.
  unfold candidates in Hc.
  set (device := {| d_ip := ipaddr;
                    d_timeout := if truthy_timeout timeout then timeout else None;
                    d_username := None; d_password := None; d_secret := None;
                    d_device_type := None |}) in *.
  set (creds := match credentials with
                | CredDict c => [c]
                | CredList l => l
                | CredNone => []
                end) in *.
  destruct creds as [|c creds]; [discriminate Hc|].
  destruct (iter_device_type device_type) as [|ty types].
  - exfalso. clear - Hc. cbn [candidates_from candidates_for_types app] in Hc.
    revert Hc. generalize (after_types (set_credential c device) []).
    induction creds as [|c' creds IH]; intros d Hc; [discriminate Hc|].
    cbn [candidates_from candidates_for_types app] in Hc. now apply IH in Hc.
  - cbn [candidates_from candidates_for_types app] in Hc.
    injection Hc as <- _.
    destruct (for_credentials_first enable_mode ty types c creds device s)
      as (t & E).
    unfold try_except, bind at 1.
    destruct (for_credentials env enable_mode device (ty :: types) (c :: creds) s)
      as [r s1] eqn:F.
    cbn [snd] in E. exists t.
    destruct r as [[conn|]|e]; cbn; try exact E.
    destruct (exn_class_eqb (exn_cls e) NetMikoTimeoutException); exact E.
Qed.

(** C4. In every run of the connector: with credentials given, the first
    candidate is tried, the run starts with [ConnectHandler] on it, answered
    by the session; a connector call ([ConnectHandler] or [enable]) that
    raises [NetMikoTimeoutException] is the last event of the run, which
    ends in [ConnectionException] with the time-out message, so no later
    credential set or device type is tried; and after a call that raises
    [NetMikoAuthenticationException], if the candidates are not used up, the
    very next event is [ConnectHandler] on the next candidate in order. *)
Theorem C4_timeout_aborts_and_rejection_continues
        (ipaddr : string) (credentials : py_credentials) (enable_mode : bool)
        (device_type : py_device_type) (timeout : option Z)
        (w : W) (device : Device) :
  let out := connect_to_device env ipaddr credentials enable_mode device_type
                               timeout (mkSt w device []) in
  (truthy_credentials credentials = true ->
   forall first rest,
     candidates ipaddr credentials device_type timeout = first :: rest ->
     exists later,
       trace (snd out)
       = Ev (ConnectHandler first) (fst (handle env (ConnectHandler first) w))
            :: later) /\
  (forall pre e post,
      trace (snd out) = pre ++ e :: post ->
      failed_with NetMikoTimeoutException e = true ->
      post = [] /\
      fst out = Raise (Exn ConnectionException "Connection to device timed out")) /\
  (forall pre e post,
      trace (snd out) = pre ++ e :: post ->
      failed_with NetMikoAuthenticationException e = true ->
      forall next,
        nth_error (candidates ipaddr credentials device_type timeout)
                  (count_attempts (pre ++ [e])) = Some next ->
        exists r post', post = Ev (ConnectHandler next) r :: post').
Proof.
  intros out. subst out. split.
  { intros Ht first rest Hc.
    destruct (connect_to_device_first ipaddr credentials enable_mode device_type
                timeout first rest (mkSt w device []) Ht Hc) as (t & E).
    exists t. exact E. }
  destruct (truthy_credentials credentials) eqn:Ht.
  - destruct (connect_to_device_searched env ipaddr credentials enable_mode
                device_type timeout (mkSt w device []) Ht)
      as (v & t & w' & E & S).
    rewrite E. cbn [fst snd trace app]. split.
    + intros pre e post Heq Hf.
      destruct (searched_timeout_is_last _ _ _ _ S pre e post Heq Hf)
        as (Hp & x & -> & Hx).
      split; [exact Hp|]. cbn. now rewrite Hx.
    + intros pre e post Heq Hf next Hn.
      exact (searched_rejection_continues _ _ _ _ S pre e post Heq Hf next Hn).
  - rewrite (connect_to_device_no_credentials env _ _ _ _ _ _ Ht).
    cbn [fst snd trace].
    split; intros pre e post Heq; destruct pre; discriminate.
Qed.

(** C9 (amended). With no credentials ([None], an empty list or an empty
    dict) the connector raises [ConnectionException] with the message
    [No Credentials provided] and leaves the state as it found it: nothing
    is added to the trace, so no call was made.  The exception has the class
    the connector also raises when every candidate was rejected and when a
    call timed out; only the message tells them apart. *)
Theorem C9_no_credentials_raises_ConnectionException
        (ipaddr : string) (credentials : py_credentials) (enable_mode : bool)
        (device_type : py_device_type) (timeout : option Z) (s : st W) :
  truthy_credentials credentials = false ->
  let out := connect_to_device env ipaddr credentials enable_mode device_type
                               timeout s in
  fst out = Raise (Exn ConnectionException "No Credentials provided") /\
  snd out = s /\
  exn_cls (Exn ConnectionException "No Credentials provided")
  = exn_cls (Exn ConnectionException "Unable to connect to device") /\
  exn_cls (Exn ConnectionException "No Credentials provided")
  = exn_cls (Exn ConnectionException "Connection to device timed out") /\
  "No Credentials provided" <> "Unable to connect to device" /\
  "No Credentials provided" <> "Connection to device timed out".
Proof.
  intros Ht out. subst out.
  rewrite (connect_to_device_no_credentials env _ _ _ _ _ _ Ht).
  repeat split; discriminate.
Qed.

End ConnectorFailures.

(** C4 at work: three credential sets; the first is rejected, the second
    times out, the third is never tried. *)
Lemma C4_witness :
  let scenario :=
    Sim.mkScenario
      (fun d => if String.eqb (match d_username d with
                               | Some u => u
                               | None => EmptyString
                               end) "admin"
                then Sim.reject_all d else Sim.time_out d)
      "fw01#" true (Ok tt) true (fun _ => false) 0%Z in
  let creds := [Sim.admin; [("username", "ops"); ("password", "pw2")];
                [("username", "root"); ("password", "pw3")]] in
  let out := connect_to_device (Sim.netmiko scenario) "10.0.0.1"
               (CredList creds) true (DTList ["cisco_asa"]) None
               (mkSt Sim.factory (Device_init "10.0.0.1") []) in
  length (candidates "10.0.0.1" (CredList creds) (DTList ["cisco_asa"]) None) = 3 /\
  map (failed_with NetMikoAuthenticationException) (trace (snd out))
  = [true; false] /\
  map (failed_with NetMikoTimeoutException) (trace (snd out)) = [false; true] /\
  attempted (trace (snd out))
  = firstn 2 (candidates "10.0.0.1" (CredList creds) (DTList ["cisco_asa"]) None) /\
  fst out = Raise (Exn ConnectionException "Connection to device timed out").
Proof.
  cbv zeta.
  split; [vm_compute; reflexivity|].
  split; [vm_compute; reflexivity|].
  split; [vm_compute; reflexivity|].
  split; [vm_compute; reflexivity|].
  match goal with
  | |- fst (connect_to_device ?env ?ip ?cr ?em ?dt ?to (mkSt ?w ?d [])) = _ =>
      destruct (C4_timeout_aborts_and_rejection_continues
                  env ip cr em dt to w d) as (_ & T & _);
        cbv zeta in T;
        match type of T with
        | forall pre e post, trace (snd ?o) = _ -> _ =>
            let t := eval vm_compute in (trace (snd o)) in
            match t with
            | [?e1; ?e2] =>
                exact (proj2 (T [e1] e2 [] ltac:(vm_compute; reflexivity)
                                ltac:(vm_compute; reflexivity)))
            end
        end
  end.
Defined.

(** * Concrete runs on the simulated appliance *)

(** C1 at work: the copy does not verify, and nothing after the upload is
    attempted. *)
Lemma C1_witness :
  file_uploaded (Sim.device "10.0.0.1") = false /\
  let out := run_upgrade_asa (Sim.netmiko Sim.unverified) (Sim.device "10.0.0.1")
                             "asa" "/tmp/asa9-8.bin" "disk0:" true false None
                             Sim.factory in
  upload_failed (trace (snd out)) = true /\
  file_uploaded (dev (snd out)) = false /\
  never (@is_later_call) (trace (snd out)) = true.
Proof.
  split; [reflexivity|].
  pose proof (C1_upload_gates_later_steps
                (Sim.netmiko Sim.unverified) (Sim.device "10.0.0.1")
                "asa" "/tmp/asa9-8.bin" "disk0:" true false None Sim.factory
                eq_refl) as [_ H].
  cbv zeta in *. split; [vm_compute; reflexivity | apply H; vm_compute; reflexivity].
Defined.

(** C3 refuted as stated: the connector returned a handle, the backup
    destination is not a directory, and [connected] ends false. *)
Lemma C3_counterexample_backup_failure_clears_connected :
  let device := Sim.device "10.0.0.1" in
  let out := run_upgrade_asa (Sim.netmiko Sim.happy) device
                             "asdm" "/tmp/asdm-741.bin" "disk0:" false true
                             (Some "/nowhere") Sim.factory in
  (exists c, fst (run_connect (Sim.netmiko Sim.happy) device Sim.factory) = Ok c) /\
  connected (dev (snd out)) = false.
Proof.
  cbv zeta. split; [eexists|]; vm_compute; reflexivity.
Qed.

Lemma C3_witness :
  connected (Sim.device "10.0.0.1") = false /\
  let device := Sim.device "10.0.0.1" in
  let out := run_upgrade_asa (Sim.netmiko Sim.happy) device
                             "asdm" "/tmp/asdm-741.bin" "disk0:" false true
                             (Some "/nowhere") Sim.factory in
  let body := run_upgrade_asa_try (Sim.netmiko Sim.happy) device
                                  "asdm" "/tmp/asdm-741.bin" "disk0:" false true
                                  (Some "/nowhere") Sim.factory in
  (connected (dev (snd out)) = true <->
   (exists c, fst (run_connect (Sim.netmiko Sim.happy) device Sim.factory) = Ok c) /\
   handled (fst body) = false).
Proof.
  split; [reflexivity|].
  exact (C3_connected_iff_handle_and_no_handled_failure
           (Sim.netmiko Sim.happy) (Sim.device "10.0.0.1")
           "asdm" "/tmp/asdm-741.bin" "disk0:" false true (Some "/nowhere")
           Sim.factory eq_refl).
Defined.

(** C6 refuted as stated: the line that is sent has a slash between the
    drive and the file name; the plain concatenation is not what is sent. *)
Lemma C6_counterexample_slash_between_drive_and_name :
  let out := run_upgrade_asa (Sim.netmiko Sim.happy) (Sim.device "10.0.0.1")
                             "asdm" "/tmp/asdm-741.bin" "disk0:" false false None
                             Sim.factory in
  file_uploaded (dev (snd out)) = true /\
  issued_boot_pointer (trace (snd out)) = [["asdm image disk0:/asdm-741.bin"]] /\
  issued_boot_pointer (trace (snd out))
  <> [[("asdm image " ++ ("disk0:" ++ Path_name "/tmp/asdm-741.bin"))%string]].
Proof.
  cbv zeta. split; [|split]; vm_compute; [reflexivity | reflexivity | discriminate].
Qed.

Lemma C6_witness :
  file_uploaded (Sim.device "10.0.0.1") = false /\
  conn_hasattr (Sim.netmiko Sim.happy) "send_config_set" = true /\
  let out := run_upgrade_asa (Sim.netmiko Sim.happy) (Sim.device "10.0.0.1")
                             "ASA" "images/asa9-8.bin" "disk0:" false false None
                             Sim.factory in
  issued_boot_pointer (trace (snd out)) = [["boot system disk0:/asa9-8.bin"]].
Proof.
  split; [reflexivity|]. split; [reflexivity|].
  pose proof (C6_boot_pointer_targets_drive_slash_basename
                (Sim.netmiko Sim.happy) (Sim.device "10.0.0.1")
                "ASA" "images/asa9-8.bin" "disk0:" false false None Sim.factory
                eq_refl eq_refl) as [_ H].
  cbv zeta in *. rewrite (H RetNone); vm_compute; reflexivity.
Defined.

(** C7 refuted as stated: the backup writer raised its [ValueError], the
    device came back, and its [error] field is still empty. *)
Lemma C7_counterexample_error_message_not_recorded :
  let device := Sim.device "10.0.0.1" in
  let out := run_upgrade_asa (Sim.netmiko Sim.happy) device
                             "asdm" "/tmp/asdm-741.bin" "disk0:" false true
                             (Some "/nowhere") Sim.factory in
  let body := run_upgrade_asa_try (Sim.netmiko Sim.happy) device
                                  "asdm" "/tmp/asdm-741.bin" "disk0:" false true
                                  (Some "/nowhere") Sim.factory in
  fst body = Raise (Exn ValueError "Location is not a directory - /nowhere") /\
  fst out = Ok RetDevice /\
  error (dev (snd out)) = EmptyString.
Proof.
  cbv zeta. split; [|split]; vm_compute; reflexivity.
Qed.

Lemma C7_witness :
  (forall w', fst (handle (Sim.netmiko Sim.happy) (Path_is_dir "/nowhere") w')
              = Ok false) /\
  let out := run_upgrade_asa (Sim.netmiko Sim.happy) (Sim.device "10.0.0.1")
                             "asdm" "/tmp/asdm-741.bin" "disk0:" false true
                             (Some "/nowhere") Sim.factory in
  never (@is_upload_call) (trace (snd out)) = true /\
  fst out = Ok RetDevice /\
  connected (dev (snd out)) = false.
Proof.
  split; [intros; reflexivity|].
  pose proof (C7_backup_failure_halts_before_upload
                (Sim.netmiko Sim.happy) (Sim.device "10.0.0.1")
                "asdm" "/tmp/asdm-741.bin" "disk0:" false "/nowhere" Sim.factory
                (fun _ => eq_refl)) as (A & _ & _ & _ & B).
  cbv zeta in *. split; [exact A|]. apply B. vm_compute; reflexivity.
Defined.

(** C9 refuted as stated: the error for an empty credential list and the
    error for a list on which every candidate is rejected have one and the
    same class. *)
Lemma C9_counterexample_same_exception_class :
  exists e_empty e_failed,
    fst (connect_to_device (Sim.netmiko Sim.rejecting) "10.0.0.1" (CredList [])
                           true (DTList ["cisco_asa"]) None
                           (mkSt Sim.factory (Device_init "10.0.0.1") []))
    = Raise e_empty /\
    fst (connect_to_device (Sim.netmiko Sim.rejecting) "10.0.0.1"
                           (CredList [Sim.admin])
                           true (DTList ["cisco_asa"]) None
                           (mkSt Sim.factory (Device_init "10.0.0.1") []))
    = Raise e_failed /\
    exn_cls e_empty = exn_cls e_failed.
Proof.
  do 2 eexists. split; [|split]; vm_compute; reflexivity.
Qed.

Lemma C9_witness :
  truthy_credentials (CredList []) = false /\
  let s := mkSt Sim.factory (Device_init "10.0.0.1") [] in
  let out := connect_to_device (Sim.netmiko Sim.happy) "10.0.0.1" (CredList [])
                               true (DTList ["cisco_asa"]) None s in
  fst out = Raise (Exn ConnectionException "No Credentials provided") /\
  trace (snd out) = [].
Proof.
  split; [reflexivity|].
  pose proof (C9_no_credentials_raises_ConnectionException
                (Sim.netmiko Sim.happy) "10.0.0.1" (CredList []) true
                (DTList ["cisco_asa"]) None
                (mkSt Sim.factory (Device_init "10.0.0.1") []) eq_refl)
    as (A & B & _).
  cbv zeta in *. split; [exact A | now rewrite B].
Defined.

(** C5. The transfer feature is enabled on the appliance before the upload;
    the upload succeeds and nothing raises; afterwards the feature is
    disabled: [upgrade_asa] took the appliance's answer [ssh scopy enable]
    for "not enabled" and sent [no ssh scopy enable] at the end. *)
Theorem C5_enabled_transfer_feature_ends_disabled :
  let out := run_upgrade_asa (Sim.netmiko Sim.happy) (Sim.device "10.0.0.1")
                             "asdm" "/tmp/asdm-741.bin" "disk0:" false false None
                             Sim.scopy_enabled in
  Sim.scopy Sim.scopy_enabled = true /\
  fst out = Ok RetNone /\
  file_uploaded (dev (snd out)) = true /\
  In (Ev (Conn_send_command "sh run | i ssh scopy enable") (Ok "ssh scopy enable"))
     (trace (snd out)) /\
  In (Ev (Conn_send_config_set ["no ssh scopy enable"]) (Ok EmptyString))
     (trace (snd out)) /\
  Sim.scopy (world (snd out)) = false.
Proof.
  cbv zeta. vm_compute. repeat split; auto 20.
Qed.

(** The same under any reading of [is] that only ever identifies equal
    strings: the literal compared with is [ssh copy enable], which the
    appliance never prints. *)
Lemma enabled_transfer_feature_is_never_detected
      (is_same : string -> string -> bool) :
  (forall a b, is_same a b = true -> a = b) ->
  let out := run_upgrade_asa (Sim.session is_same Sim.netmiko_hasattr Sim.happy)
                             (Sim.device "10.0.0.1")
                             "asdm" "/tmp/asdm-741.bin" "disk0:" false false None
                             Sim.scopy_enabled in
  Sim.scopy (world (snd out)) = false.
Proof.
  intros Hs.
  assert (E : is_same "ssh scopy enable" "ssh copy enable" = false).
  { destruct (is_same "ssh scopy enable" "ssh copy enable") eqn:E;
      [apply Hs in E; discriminate | reflexivity]. }
  cbv. rewrite E. reflexivity.
Qed.

(** The other way round: the feature is disabled before the upload, the
    transfer raises, and the feature is left enabled. *)
Lemma transfer_exception_leaves_feature_enabled :
  let out := run_upgrade_asa (Sim.netmiko Sim.transfer_fails)
                             (Sim.device "10.0.0.1")
                             "asdm" "/tmp/asdm-741.bin" "disk0:" false false None
                             Sim.factory in
  Sim.scopy Sim.factory = false /\
  fst out = Raise (Exn OtherException "SCP transfer failed") /\
  Sim.scopy (world (snd out)) = true.
Proof.
  cbv zeta. vm_compute. repeat split.
Qed.

(** C8. A reboot is requested on a netmiko session, the upload succeeds and
    the appliance would not answer the probe: [upgrade_asa] raises
    [AttributeError] at [connection.send_confg_set], the exception leaves
    the function, and the probe is never run. *)
Theorem C8_reboot_raises_AttributeError_before_probe :
  let out := run_upgrade_asa (Sim.netmiko Sim.silent_after_reboot)
                             (Sim.device "10.0.0.1")
                             "asa" "/tmp/asa9-8.bin" "disk0:" true false None
                             Sim.factory in
  conn_hasattr (Sim.netmiko Sim.silent_after_reboot) "send_config_set" = true /\
  conn_hasattr (Sim.netmiko Sim.silent_after_reboot) "send_confg_set" = false /\
  file_uploaded (dev (snd out)) = true /\
  fst out = Raise (Exn AttributeError "send_confg_set") /\
  never (@is_probe_call) (trace (snd out)) = true.
Proof.
  cbv zeta. vm_compute. repeat split.
Qed.

(** On a test double that answers [send_confg_set] the same run does what
    the reboot block was written for. *)
Lemma reboot_on_a_permissive_double :
  let out := run_upgrade_asa (Sim.permissive Sim.silent_after_reboot)
                             (Sim.device "10.0.0.1")
                             "asa" "/tmp/asa9-8.bin" "disk0:" true false None
                             Sim.factory in
  fst out = Ok RetDevice /\
  successfully_rebooted (dev (snd out)) = false /\
  connected (dev (snd out)) = true /\
  In (Ev (Popen_wait_poll ["ping"; "-c"; "4"; "10.0.0.1"]) (Ok 1%Z))
     (trace (snd out)).
Proof.
  cbv zeta. vm_compute. repeat split; auto 20.
Qed.

(** C2. Two devices, two workers, no reboot requested, every step succeeds:
    under the schedule that alternates the two workers [run] returns, and
    whenever [run] returns, under any schedule, its list is two [None]s and
    holds no device record. *)
Theorem C2_output_queue_holds_None :
  let worker := upgrade_worker (Sim.netmiko Sim.happy) (fun _ => Sim.factory)
                               "asdm" "/tmp/asdm-741.bin" "disk0:" false false
                               None in
  let items := [Sim.device "10.0.0.1"; Sim.device "10.0.0.2"] in
  ThreadingHelper.run worker items 2 [0; 1; 0; 1; 0; 1; 0; 1; 0; 1] = Some [None; None] /\
  (forall schedule out,
      ThreadingHelper.run worker items 2 schedule = Some out -> out = [None; None]).
Proof.
  cbv zeta. split; [vm_compute; reflexivity|].
  intros schedule out H. apply run_returns_all_results in H.
  assert (L : length out = 2)
    by (apply Permutation_length in H; rewrite length_map in H; exact H).
  assert (F : Forall (fun r => r = Ok (@None Device)) (map Ok out)).
  { eapply Permutation_Forall; [symmetry; exact H|].
    repeat constructor. }
  destruct out as [|a [|b [|c out]]]; try discriminate L.
  inversion F as [|x l Ha F']; subst. inversion F' as [|y l' Hb _]; subst.
  congruence.
Qed.

(** With a reboot requested on a netmiko session the worker function raises,
    the item is never marked done, and [run] never returns. *)
Lemma pool_blocks_when_reboot_requested schedule :
  ThreadingHelper.run (upgrade_worker (Sim.netmiko Sim.happy) (fun _ => Sim.factory)
                           "asa" "/tmp/asa9-8.bin" "disk0:" true false None)
           [Sim.device "10.0.0.1"; Sim.device "10.0.0.2"] 2 schedule
  = None.
Proof.
  eapply run_blocks_when_worker_raises with (item := Sim.device "10.0.0.1");
    [now left | vm_compute; reflexivity].
Qed.

(** ** Small checks of the helpers *)

Example Path_name_takes_the_last_component :
  Path_name "/tmp/images/asdm-741.bin" = "asdm-741.bin" /\
  Path_name "images/" = "images" /\
  Path_name "a/." = "a" /\
  Path_name "/" = EmptyString.
Proof. repeat split. Qed.

Example ping_command_is_split_on_blanks :
  PyStr.split "ping -c 4 10.0.0.1" = ["ping"; "-c"; "4"; "10.0.0.1"].
Proof. reflexivity. Qed.

Example prompt_loses_its_last_character :
  PyStr.slice_0_to_len_minus_1 "fw01#" = "fw01" /\
  PyStr.slice_0_to_len_minus_1 EmptyString = EmptyString.
Proof. split; reflexivity. Qed.

(** Two credential sets, the first attempt times out: one call, no more. *)
Example timeout_on_first_credential :
  let scenario :=
    Sim.mkScenario Sim.time_out "fw01#" true (Ok tt) true (fun _ => false) 0%Z in
  let out := connect_to_device (Sim.netmiko scenario) "10.0.0.1"
               (CredList [Sim.admin; [("username", "ops"); ("password", "pw2")]])
               true (DTList ["cisco_asa"]) None
               (mkSt Sim.factory (Device_init "10.0.0.1") []) in
  fst out = Raise (Exn ConnectionException "Connection to device timed out") /\
  count_attempts (trace (snd out)) = 1.
Proof. split; vm_compute; reflexivity. Qed.

(** Two credential sets, the first is rejected and the second accepted. *)
Example second_credential_is_used :
  let scenario :=
    Sim.mkScenario
      (fun d => if String.eqb (match d_username d with Some u => u | None => EmptyString end) "ops"
                then Ok tt else Sim.reject_all d)
      "fw01#" true (Ok tt) true (fun _ => false) 0%Z in
  let out := connect_to_device (Sim.netmiko scenario) "10.0.0.1"
               (CredList [Sim.admin; [("username", "ops"); ("password", "pw2")]])
               true (DTList ["cisco_asa"]) None
               (mkSt Sim.factory (Device_init "10.0.0.1") []) in
  (exists c, fst out = Ok c /\ d_username (conn_args c) = Some "ops") /\
  count_attempts (trace (snd out)) = 2.
Proof. split; [eexists; split|]; vm_compute; reflexivity. Qed.

(** * More about the session connector *)

Lemma attempted_app (a b : list event) :
  attempted (a ++ b) = attempted a ++ attempted b.
Proof. apply flat_map_app. Qed.

Lemma attempt_events_attempted enable_mode d t r :
  attempt_events enable_mode d t r -> attempted t = [d].
Proof. destruct 1; reflexivity. Qed.

Lemma searched_attempted_prefix enable_mode l t v :
  searched enable_mode l t v -> exists rest, l = attempted t ++ rest.
Proof.
  induction 1 as [|d rest t c A|d rest t x t' v A Hx S IH|d rest t x A Hx].
  - now exists [].
  - exists rest. now rewrite (attempt_events_attempted _ _ _ _ A).
  - destruct IH as (rest' & ->). exists rest'.
    now rewrite attempted_app, (attempt_events_attempted _ _ _ _ A).
  - exists rest. now rewrite (attempt_events_attempted _ _ _ _ A).
Qed.

Lemma attempt_events_ok enable_mode d t c :
  attempt_events enable_mode d t (Ok c) ->
  c = mkConnection d /\ forallb ok_or_rejected t = true /\
  filter (failed_with NetMikoAuthenticationException) t = [].
Proof.
  intros A. inversion A; subst; repeat split.
Qed.

Lemma attempt_events_rejected enable_mode d t x :
  attempt_events enable_mode d t (Raise x) ->
  exn_cls x = NetMikoAuthenticationException ->
  forallb ok_or_rejected t = true /\
  length (filter (failed_with NetMikoAuthenticationException) t) = 1.
Proof.
  intros A Hx. inversion A; subst; cbn; rewrite ?Hx; cbn; try (split; reflexivity).
  discriminate Hx.
Qed.

Lemma attempt_events_aborted enable_mode d t x :
  attempt_events enable_mode d t (Raise x) ->
  exn_cls x <> NetMikoAuthenticationException ->
  forallb ok_or_rejected t = false.
Proof.
  intros A Hx.
  assert (E : exn_class_eqb (exn_cls x) NetMikoAuthenticationException = false)
    by (destruct x as [[] m]; cbn in *; congruence).
  inversion A; subst; cbn; rewrite ?E; reflexivity.
Qed.

Lemma searched_found enable_mode l t c :
  searched enable_mode l t (Found c) ->
  exists earlier,
    attempted t = earlier ++ [conn_args c] /\
    length (filter (failed_with NetMikoAuthenticationException) t)
    = length earlier /\
    forallb ok_or_rejected t = true.
Proof.
  intros S. remember (Found c) as v eqn:Hv. revert Hv.
  induction S as [|d rest t c' A|d rest t x t' v A Hx S IH|d rest t x A Hx];
    intros Hv; try discriminate.
  - injection Hv as ->.
    destruct (attempt_events_ok _ _ _ _ A) as (-> & Hok & Hf).
    exists []. rewrite (attempt_events_attempted _ _ _ _ A), Hf. auto.
  - destruct (IH Hv) as (earlier & Ha & Hl & Hok).
    destruct (attempt_events_rejected _ _ _ _ A Hx) as (Hok1 & Hl1).
    exists (d :: earlier).
    rewrite attempted_app, (attempt_events_attempted _ _ _ _ A), Ha.
    rewrite filter_app, length_app, Hl1, Hl, forallb_app, Hok1, Hok.
    auto.
Qed.

Lemma searched_all_rejected enable_mode l t v :
  searched enable_mode l t v ->
  forallb ok_or_rejected t = true ->
  match v with
  | Found _ => True
  | Exhausted =>
      attempted t = l /\
      length (filter (failed_with NetMikoAuthenticationException) t) = length l
  | Aborted _ => False
  end.
Proof.
  induction 1 as [|d rest t c A|d rest t x t' v A Hx S IH|d rest t x A Hx];
    intros Hok.
  - split; reflexivity.
  - exact I.
  - rewrite forallb_app in Hok. apply andb_prop in Hok as [H1 H2].
    specialize (IH H2). destruct v; auto.
    destruct IH as [Ha Hl].
    destruct (attempt_events_rejected _ _ _ _ A Hx) as (_ & Hl1).
    rewrite attempted_app, (attempt_events_attempted _ _ _ _ A), Ha.
    rewrite filter_app, length_app, Hl1, Hl. split; reflexivity.
  - rewrite (attempt_events_aborted _ _ _ _ A Hx) in Hok. discriminate.
Qed.

Lemma searched_never_enable l t v :
  searched false l t v -> never (@is_enable_call) t = true.
Proof.
  induction 1 as [|d rest t c A|d rest t x t' v A Hx S IH|d rest t x A Hx].
  - reflexivity.
  - inversion A; subst; first [reflexivity | discriminate].
  - rewrite never_app, IH, andb_true_r.
    inversion A; subst; first [reflexivity | discriminate].
  - inversion A; subst; first [reflexivity | discriminate].
Qed.

Lemma set_device_type_twice a b d :
  set_device_type a (set_device_type b d) = set_device_type a d.
Proof. reflexivity. Qed.

Lemma candidates_for_types_map d types :
  candidates_for_types d types = map (fun ty => set_device_type ty d) types.
Proof.
  revert d. induction types as [|ty rest IH]; intros d; cbn; [reflexivity|].
  rewrite IH. f_equal.
Qed.

Lemma after_types_fields d types :
  d_ip (after_types d types) = d_ip d /\
  d_timeout (after_types d types) = d_timeout d /\
  d_username (after_types d types) = d_username d /\
  d_password (after_types d types) = d_password d.
Proof.
  revert d. induction types as [|ty rest IH]; intros d; cbn; [auto|].
  destruct (IH (set_device_type ty d)) as (A & B & C & D). cbn in *. auto.
Qed.

(** The closed form of one candidate. *)
Lemma candidates_from_nth types creds :
  forall d0 k j c ty,
    nth_error creds k = Some c ->
    nth_error types j = Some ty ->
    nth_error (candidates_from d0 types creds) (k * length types + j)
    = Some {| d_ip := d_ip d0;
              d_timeout := d_timeout d0;
              d_username := last_given "username" (firstn (S k) creds) (d_username d0);
              d_password := last_given "password" (firstn (S k) creds) (d_password d0);
              d_secret := dict_get "secret" c;
              d_device_type := Some ty |}.
Proof.
  induction creds as [|c0 rest IH]; intros d0 k j c ty Hk Hj.
  - destruct k; discriminate.
  - cbn [candidates_from]. rewrite candidates_for_types_map.
    destruct k as [|k].
    + injection Hk as ->. cbn [Nat.mul Nat.add].
      rewrite nth_error_app1
        by (rewrite length_map; apply nth_error_Some; congruence).
      rewrite nth_error_map, Hj. cbn.
      unfold last_given. cbn. reflexivity.
    + cbn in Hk.
      replace (S k * length types + j)
        with (length (map (fun ty0 => set_device_type ty0 (set_credential c0 d0)) types)
              + (k * length types + j))
        by (rewrite length_map; lia).
      rewrite nth_error_app2 by lia.
      replace (length (map (fun ty0 => set_device_type ty0 (set_credential c0 d0)) types)
               + (k * length types + j)
               - length (map (fun ty0 => set_device_type ty0 (set_credential c0 d0)) types))
        with (k * length types + j) by lia.
      rewrite (IH _ k j c ty Hk Hj).
      destruct (after_types_fields (set_credential c0 d0) types) as (A & B & C & D).
      rewrite A, B, C, D. cbn. unfold last_given. cbn. reflexivity.
Qed.

Section ConnectorMore.

Context {W : Type} (env : Env W).

(** X1. The connector only ever calls [ConnectHandler] on the candidates, in
    their order and each at most once: the dictionaries it was called with
    are an initial stretch of [candidates]. *)
Theorem connector_tries_candidates_in_order
        (ipaddr : string) (credentials : py_credentials) (enable_mode : bool)
        (device_type : py_device_type) (timeout : option Z)
        (w : W) (device : Device) :
  let out := connect_to_device env ipaddr credentials enable_mode device_type
                               timeout (mkSt w device []) in
  exists untried,
    candidates ipaddr credentials device_type timeout
    = attempted (trace (snd out)) ++ untried.
Proof.
  intros out. subst out.
  destruct (truthy_credentials credentials) eqn:Ht.
  - destruct (connect_to_device_searched env ipaddr credentials enable_mode
                device_type timeout (mkSt w device []) Ht)
      as (v & t & w' & E & S).
    rewrite E. cbn [snd trace app].
    exact (searched_attempted_prefix _ _ _ _ S).
  - rewrite (connect_to_device_no_credentials env _ _ _ _ _ _ Ht).
    cbn. eauto.
Qed.

(** X2. When the connector returns a handle, the handle is for the last
    dictionary [ConnectHandler] was called with, every call before it was
    rejected for its credentials (one rejection per earlier candidate), and
    no call failed in any other way. *)
Theorem connector_returns_first_accepted_candidate
        (ipaddr : string) (credentials : py_credentials) (enable_mode : bool)
        (device_type : py_device_type) (timeout : option Z)
        (w : W) (device : Device) (c : connection) :
  fst (connect_to_device env ipaddr credentials enable_mode device_type
                         timeout (mkSt w device [])) = Ok c ->
  let out := connect_to_device env ipaddr credentials enable_mode device_type
                               timeout (mkSt w device []) in
  exists earlier,
    attempted (trace (snd out)) = earlier ++ [conn_args c] /\
    length (filter (failed_with NetMikoAuthenticationException) (trace (snd out)))
    = length earlier /\
    forallb ok_or_rejected (trace (snd out)) = true.
Proof.
  intros Hc out. subst out.
  destruct (truthy_credentials credentials) eqn:Ht.
  - destruct (connect_to_device_searched env ipaddr credentials enable_mode
                device_type timeout (mkSt w device []) Ht)
      as (v & t & w' & E & S).
    rewrite E in *. cbn [fst snd trace app] in *.
    destruct v as [c'| |[cls msg]]; cbn in Hc.
    + injection Hc as ->. exact (searched_found _ _ _ _ S).
    + discriminate.
    + destruct (exn_class_eqb _ _); discriminate.
  - rewrite (connect_to_device_no_credentials env _ _ _ _ _ _ Ht) in Hc.
    discriminate.
Qed.

(** X3. When credentials were given, the connector raises, and no call failed
    otherwise than by a rejected authentication, then every candidate was
    tried exactly once, in order, each was rejected, and the exception is
    [ConnectionException] with [Unable to connect to device]. *)
Theorem connector_gives_up_only_after_every_candidate
        (ipaddr : string) (credentials : py_credentials) (enable_mode : bool)
        (device_type : py_device_type) (timeout : option Z)
        (w : W) (device : Device) (e : exn) :
  truthy_credentials credentials = true ->
  fst (connect_to_device env ipaddr credentials enable_mode device_type
                         timeout (mkSt w device [])) = Raise e ->
  forallb ok_or_rejected
          (trace (snd (connect_to_device env ipaddr credentials enable_mode
                                         device_type timeout (mkSt w device []))))
  = true ->
  let out := connect_to_device env ipaddr credentials enable_mode device_type
                               timeout (mkSt w device []) in
  e = Exn ConnectionException "Unable to connect to device" /\
  attempted (trace (snd out))
  = candidates ipaddr credentials device_type timeout /\
  length (filter (failed_with NetMikoAuthenticationException) (trace (snd out)))
  = length (candidates ipaddr credentials device_type timeout).
Proof.
  intros Ht He Hok out. subst out.
  destruct (connect_to_device_searched env ipaddr credentials enable_mode
              device_type timeout (mkSt w device []) Ht)
    as (v & t & w' & E & S).
  rewrite E in *. cbn [fst snd trace app] in *.
  pose proof (searched_all_rejected _ _ _ _ S Hok) as K.
  destruct v as [c'| |x]; cbn in He.
  - discriminate.
  - destruct K as [Ka Kl]. injection He as <-. auto.
  - contradiction.
Qed.

(** X4. Without [enable_mode] the connector never calls [enable]. *)
Theorem connector_without_enable_mode_never_enables
        (ipaddr : string) (credentials : py_credentials)
        (device_type : py_device_type) (timeout : option Z)
        (w : W) (device : Device) :
  let out := connect_to_device env ipaddr credentials false device_type
                               timeout (mkSt w device []) in
  never (@is_enable_call) (trace (snd out)) = true.
Proof.
  intros out. subst out.
  destruct (truthy_credentials credentials) eqn:Ht.
  - destruct (connect_to_device_searched env ipaddr credentials false
                device_type timeout (mkSt w device []) Ht)
      as (v & t & w' & E & S).
    rewrite E. cbn [snd trace app].
    exact (searched_never_enable _ _ _ S).
  - now rewrite (connect_to_device_no_credentials env _ _ _ _ _ _ Ht).
Qed.

(** X5. A [device_type] passed as a [str] is never wrapped into a list: with
    credentials given, the first call of [ConnectHandler] has the first
    character of the string as its device type. *)
Theorem str_device_type_is_tried_character_by_character
        (ipaddr : string) (c : cred) (cs : list cred) (enable_mode : bool)
        (ch : ascii) (rest : string) (timeout : option Z)
        (w : W) (device : Device) :
  let out := connect_to_device env ipaddr (CredList (c :: cs)) enable_mode
                               (DTStr (String ch rest)) timeout
                               (mkSt w device []) in
  exists d r later,
    trace (snd out) = Ev (ConnectHandler d) r :: later /\
    d_device_type d = Some (String ch EmptyString).
Proof.
  intros out. subst out.
  destruct (connect_to_device_searched env ipaddr (CredList (c :: cs)) enable_mode
              (DTStr (String ch rest)) timeout (mkSt w device []) eq_refl)
    as (v & t & w' & E & S).
  rewrite E. cbn [snd trace app].
  unfold candidates in S. cbn [iter_device_type list_ascii_of_string map
                               candidates_from candidates_for_types app] in S.
  destruct (searched_head _ _ _ _ _ S) as (r & later & ->).
  do 3 eexists. split; reflexivity.
Qed.

End ConnectorMore.

(** X6. What the [k]-th credential set and the [j]-th device type are tried
    with: the address and timeout of the call, the device type, the secret
    of that very set (none if it has none), and for user name and password
    the last ones given by that set or an earlier one. *)
Theorem candidate_inherits_username_and_password_but_not_secret
        (ipaddr : string) (creds : list cred) (types : list string)
        (timeout : option Z) (k j : nat) (c : cred) (ty : string) :
  nth_error creds k = Some c ->
  nth_error types j = Some ty ->
  nth_error (candidates ipaddr (CredList creds) (DTList types) timeout)
            (k * length types + j)
  = Some {| d_ip := ipaddr;
            d_timeout := if truthy_timeout timeout then timeout else None;
            d_username := last_given "username" (firstn (S k) creds) None;
            d_password := last_given "password" (firstn (S k) creds) None;
            d_secret := dict_get "secret" c;
            d_device_type := Some ty |}.
Proof.
  intros Hk Hj. unfold candidates. cbn [iter_device_type].
  now rewrite (candidates_from_nth types creds _ k j c ty Hk Hj).
Qed.

(** ** Concrete runs of the connector *)

Lemma connector_returns_first_accepted_candidate_witness :
  let scenario :=
    Sim.mkScenario
      (fun d => if String.eqb (match d_username d with
                               | Some u => u
                               | None => EmptyString
                               end) "ops"
                then Ok tt else Sim.reject_all d)
      "fw01#" true (Ok tt) true (fun _ => false) 0%Z in
  let ops := [("username", "ops"); ("password", "pw2")] in
  let out := connect_to_device (Sim.netmiko scenario) "10.0.0.1"
               (CredList [Sim.admin; ops]) true (DTList ["cisco_asa"]) None
               (mkSt Sim.factory (Device_init "10.0.0.1") []) in
  exists c earlier,
    fst out = Ok c /\
    d_username (conn_args c) = Some "ops" /\
    attempted (trace (snd out)) = earlier ++ [conn_args c] /\
    length earlier = 1.
Proof.
  cbv zeta.
  match goal with
  | |- exists c earlier, fst ?o = _ /\ _ =>
      destruct (fst o) as [c|e] eqn:E; [|vm_compute in E; discriminate E]
  end.
  match type of E with
  | fst (connect_to_device ?env ?ip ?cr ?em ?dt ?to (mkSt ?w ?d [])) = _ =>
      destruct (connector_returns_first_accepted_candidate
                  env ip cr em dt to w d c E) as (earlier & Ha & Hl & _)
  end.
  exists c, earlier. split; [reflexivity|].
  split; [vm_compute in E; injection E as <-; reflexivity|].
  split; [exact Ha|].
  rewrite <- Hl. vm_compute. reflexivity.
Defined.

Lemma connector_gives_up_only_after_every_candidate_witness :
  let ops := [("username", "ops"); ("password", "pw2")] in
  let out := connect_to_device (Sim.netmiko Sim.rejecting) "10.0.0.1"
               (CredList [Sim.admin; ops]) true
               (DTList ["cisco_asa"; "cisco_ios"]) None
               (mkSt Sim.factory (Device_init "10.0.0.1") []) in
  fst out = Raise (Exn ConnectionException "Unable to connect to device") /\
  length (attempted (trace (snd out))) = 4.
Proof.
  cbv zeta.
  match goal with
  | |- fst (connect_to_device ?env ?ip ?cr ?em ?dt ?to (mkSt ?w ?d [])) = _ /\ _ =>
      destruct (connector_gives_up_only_after_every_candidate
                  env ip cr em dt to w d
                  (Exn ConnectionException "Unable to connect to device")
                  eq_refl) as (_ & Ha & _);
        [vm_compute; reflexivity | vm_compute; reflexivity |]
  end.
  split; [vm_compute; reflexivity|].
  cbv zeta in Ha. rewrite Ha. vm_compute. reflexivity.
Defined.

Lemma candidate_inherits_username_and_password_but_not_secret_witness :
  let first := [("username", "admin"); ("password", "pw"); ("secret", "s3")] in
  let second := [("password", "other")] in
  nth_error [first; second] 1 = Some second /\
  nth_error ["cisco_asa"] 0 = Some "cisco_asa" /\
  nth_error (candidates "10.0.0.1" (CredList [first; second])
                        (DTList ["cisco_asa"]) None) 1
  = Some {| d_ip := "10.0.0.1"; d_timeout := None;
            d_username := Some "admin"; d_password := Some "other";
            d_secret := None; d_device_type := Some "cisco_asa" |}.
Proof.
  cbv zeta. split; [reflexivity|]. split; [reflexivity|].
  exact (candidate_inherits_username_and_password_but_not_secret
           "10.0.0.1"
           [[("username", "admin"); ("password", "pw"); ("secret", "s3")];
            [("password", "other")]]
           ["cisco_asa"] None 1 0 [("password", "other")] "cisco_asa"
           eq_refl eq_refl).
Defined.

(** The default [device_type], the string [autodetect], with a list of
    credentials: the first call asks for device type [a]. *)
Example default_device_type_is_spelled_out :
  let out := connect_to_device (Sim.netmiko Sim.happy) "10.0.0.1"
               (CredList [Sim.admin]) false (DTStr "autodetect") None
               (mkSt Sim.factory (Device_init "10.0.0.1") []) in
  exists d, fst out = Ok (mkConnection d) /\ d_device_type d = Some "a".
Proof. eexists. split; vm_compute; reflexivity. Qed.

(** * More about the sequencer *)

Lemma existsb_after_connect (p : event -> bool) (t l : list event) :
  (forall e, attempts (@is_connect_call) e = true -> p e = false) ->
  forallb (attempts (@is_connect_call)) t = true ->
  existsb p (t ++ l) = existsb p l.
Proof.
  intros Hp Ht. rewrite existsb_app.
  replace (existsb p t) with false; [reflexivity|].
  symmetry. induction t as [|e t IH]; cbn in *; [reflexivity|].
  apply andb_prop in Ht as [He Ht]. now rewrite (Hp e He), IH.
Qed.

Lemma first_answer_after_connect (f : event -> option string) (t l : list event) :
  (forall e, attempts (@is_connect_call) e = true -> f e = None) ->
  forallb (attempts (@is_connect_call)) t = true ->
  first_answer f (t ++ l) = first_answer f l.
Proof.
  intros Hf Ht. induction t as [|e t IH]; cbn in *; [reflexivity|].
  apply andb_prop in Ht as [He Ht]. now rewrite (Hf e He), IH.
Qed.

Lemma ends_with_wait_then_probe_after_connect (t l : list event) :
  2 <= length l ->
  ends_with_wait_then_probe (t ++ l) = ends_with_wait_then_probe l.
Proof.
  intros Hl. unfold ends_with_wait_then_probe. rewrite rev_app_distr.
  pose proof (length_rev l) as Hr.
  destruct (rev l) as [|p [|q r]]; cbn in Hr; try lia. reflexivity.
Qed.

(** What the environment answered is not needed to close a path. *)
Ltac forget_answers :=
  repeat match goal with
         | H : handle _ _ _ = _ |- _ => clear H
         | H : conn_hasattr _ _ = _ |- _ => clear H
         | H : connect_to_device _ _ _ _ _ _ _ = _ |- _ => clear H
         | u : unit |- _ => destruct u
         end.

Ltac not_connect_call :=
  let T := fresh in let c := fresh in
  intros T c; destruct c; cbn; congruence.

Ltac not_connect_event :=
  let e := fresh in
  let T := fresh in
  let c := fresh in
  intros e; destruct e as [T c ?|T ? c]; destruct c; cbn; congruence.

Lemma space_refused_after_connect (t l : list event) :
  forallb (attempts (@is_connect_call)) t = true ->
  existsb space_refused (t ++ l) = existsb space_refused l.
Proof. apply existsb_after_connect. not_connect_event. Qed.

Lemma verify_refused_after_connect (t l : list event) :
  forallb (attempts (@is_connect_call)) t = true ->
  existsb verify_refused (t ++ l) = existsb verify_refused l.
Proof. apply existsb_after_connect. not_connect_event. Qed.

Lemma probe_succeeded_after_connect (t l : list event) :
  forallb (attempts (@is_connect_call)) t = true ->
  existsb probe_succeeded (t ++ l) = existsb probe_succeeded l.
Proof. apply existsb_after_connect. not_connect_event. Qed.

Lemma prompt_answer_after_connect (t l : list event) :
  forallb (attempts (@is_connect_call)) t = true ->
  first_answer prompt_answer (t ++ l) = first_answer prompt_answer l.
Proof. apply first_answer_after_connect. not_connect_event. Qed.

Lemma never_transfer_after_connect (t l : list event) :
  forallb (attempts (@is_connect_call)) t = true ->
  never (@is_transfer_call) l = true ->
  never (@is_transfer_call) (t ++ l) = true.
Proof. apply never_after_connect. not_connect_call. Qed.

Section SequencerMore.

Context {W : Type} (env : Env W).

(** A field that the handlers do not write is the same after [upgrade_asa]
    and after its [try] body. *)
Lemma upgrade_asa_field {X} (f : Device -> X) image_type image_location
      dest_drive reboot backup_cfg backup_location s :
  (forall d, f (set_connected false d) = f d) ->
  f (dev (snd (upgrade_asa env image_type image_location dest_drive reboot
                           backup_cfg backup_location s)))
  = f (dev (snd (upgrade_asa_try env image_type image_location dest_drive
                                 reboot backup_cfg backup_location s))).
Proof.
  intros Hf. rewrite upgrade_asa_handlers. cbv zeta.
  destruct (handled _); cbn [snd dev]; [apply Hf | reflexivity].
Qed.

Lemma more_after_try (device : Device) image_type image_location
      dest_drive reboot backup_cfg backup_location w :
  wp (upgrade_asa_try env image_type image_location dest_drive reboot
                      backup_cfg backup_location)
     (fun r s' =>
        (existsb space_refused (trace s') = true ->
         never (@is_transfer_call) (trace s') = true /\
         error (dev s') = "Not enough space to upload file" /\
         file_uploaded (dev s') = file_uploaded device) /\
        (existsb verify_refused (trace s') = true ->
         error (dev s') = "File transfer verifier failed" /\
         file_uploaded (dev s') = file_uploaded device) /\
        (existsb space_refused (trace s') = false ->
         existsb verify_refused (trace s') = false ->
         error (dev s') = error device) /\
        name (dev s')
        = match first_answer prompt_answer (trace s') with
          | Some p => PyStr.slice_0_to_len_minus_1 p
          | None => name device
          end /\
        (ip_address (dev s') = ip_address device /\
         credentials (dev s') = credentials device /\
         config_backed_up (dev s') = config_backed_up device) /\
        (successfully_rebooted device = false ->
         successfully_rebooted (dev s') = true ->
         reboot = true /\ file_uploaded (dev s') = true /\
         existsb probe_succeeded (trace s') = true /\
         ends_with_wait_then_probe (trace s') = true /\
         r = Ok RetDevice))
     (mkSt w device []).
Proof.
  wp_run.
  all: forget_answers; wp_simpl.
  all: rewrite ?space_refused_after_connect, ?verify_refused_after_connect,
         ?probe_succeeded_after_connect, ?prompt_answer_after_connect
         by assumption.
  all: cbn [existsb space_refused verify_refused probe_succeeded orb
            first_answer prompt_answer].
  all: repeat match goal with
              | |- _ /\ _ => split
              | |- _ -> _ => intro
              end.
  all: try first
         [ discriminate | reflexivity | assumption
         | match goal with
           | H1 : ?x = false, H2 : ?x = true |- _ =>
               rewrite H1 in H2; discriminate H2
           end ].
  all: lazymatch goal with
       | |- never _ _ = true =>
           apply never_transfer_after_connect; [assumption | reflexivity]
       | |- _ || false = true =>
           match goal with H : Z.eqb _ _ = true |- _ => rewrite H end;
           reflexivity
       | |- ends_with_wait_then_probe _ = true =>
           rewrite ends_with_wait_then_probe_after_connect by (cbn; lia);
           reflexivity
       | |- _ => congruence
       end.
Qed.

(** X7. When the free-space check answers false, neither [transfer_file] nor
    [verify_file] is ever called, the device's [error] is
    [Not enough space to upload file] and [file_uploaded] is left as it
    was. *)
Theorem no_space_means_no_transfer (device : Device)
        (image_type image_location dest_drive : string)
        (reboot backup_cfg : bool) (backup_location : option string) (w : W) :
  existsb space_refused
          (trace (snd (run_upgrade_asa env device image_type image_location
                                       dest_drive reboot backup_cfg
                                       backup_location w))) = true ->
  let out := run_upgrade_asa env device image_type image_location dest_drive
                             reboot backup_cfg backup_location w in
  never (@is_transfer_call) (trace (snd out)) = true /\
  error (dev (snd out)) = "Not enough space to upload file" /\
  file_uploaded (dev (snd out)) = file_uploaded device.
Proof.
  intros H out. subst out. unfold run_upgrade_asa in *.
  rewrite upgrade_asa_trace in *.
  rewrite (upgrade_asa_field error), (upgrade_asa_field file_uploaded)
    by reflexivity.
  now apply (more_after_try device image_type image_location dest_drive reboot
                            backup_cfg backup_location w).
Qed.

(** X8. The [error] text changes only when a check refuses: when the
    verification answers false it ends as [File transfer verifier failed]
    with [file_uploaded] left as it was, and when neither the space check
    nor the verification answers false it is what it was before the call,
    whatever else fails. *)
Theorem error_text_changes_only_when_a_check_refuses (device : Device)
        (image_type image_location dest_drive : string)
        (reboot backup_cfg : bool) (backup_location : option string) (w : W) :
  let out := run_upgrade_asa env device image_type image_location dest_drive
                             reboot backup_cfg backup_location w in
  (existsb verify_refused (trace (snd out)) = true ->
   error (dev (snd out)) = "File transfer verifier failed" /\
   file_uploaded (dev (snd out)) = file_uploaded device) /\
  (existsb space_refused (trace (snd out)) = false ->
   existsb verify_refused (trace (snd out)) = false ->
   error (dev (snd out)) = error device).
Proof.
  intros out. subst out. unfold run_upgrade_asa.
  rewrite upgrade_asa_trace.
  rewrite (upgrade_asa_field error), (upgrade_asa_field file_uploaded)
    by reflexivity.
  pose proof (more_after_try device image_type image_location dest_drive reboot
                             backup_cfg backup_location w)
    as (_ & A & B & _).
  split; assumption.
Qed.

(** X9. The device's [name] ends as the prompt [find_prompt] answered without
    its last character (the empty string for an empty prompt), and as it
    was when [find_prompt] was not reached or raised. *)
Theorem name_is_the_prompt_without_its_last_character (device : Device)
        (image_type image_location dest_drive : string)
        (reboot backup_cfg : bool) (backup_location : option string) (w : W) :
  let out := run_upgrade_asa env device image_type image_location dest_drive
                             reboot backup_cfg backup_location w in
  name (dev (snd out))
  = match first_answer prompt_answer (trace (snd out)) with
    | Some p => PyStr.slice_0_to_len_minus_1 p
    | None => name device
    end.
Proof.
  intros out. subst out. unfold run_upgrade_asa.
  rewrite upgrade_asa_trace, (upgrade_asa_field name) by reflexivity.
  now apply (more_after_try device image_type image_location dest_drive reboot
                            backup_cfg backup_location w).
Qed.

(** X10. [upgrade_asa] never writes the device's address, its credentials or
    its [config_backed_up] flag: the flag stays as it was even when a backup
    was requested. *)
Theorem upgrade_never_writes_address_credentials_or_backup_flag
        (device : Device) (image_type image_location dest_drive : string)
        (reboot backup_cfg : bool) (backup_location : option string) (w : W) :
  let out := run_upgrade_asa env device image_type image_location dest_drive
                             reboot backup_cfg backup_location w in
  ip_address (dev (snd out)) = ip_address device /\
  credentials (dev (snd out)) = credentials device /\
  config_backed_up (dev (snd out)) = config_backed_up device.
Proof.
  intros out. subst out. unfold run_upgrade_asa.
  rewrite (upgrade_asa_field ip_address), (upgrade_asa_field credentials),
    (upgrade_asa_field config_backed_up) by reflexivity.
  now apply (more_after_try device image_type image_location dest_drive reboot
                            backup_cfg backup_location w).
Qed.

(** X11. For a device that starts with [successfully_rebooted] false, the flag
    ends true only if a reboot was requested, the upload had succeeded, the
    probe came back with exit status 0, the probe was the last call and the
    call just before it was the wait of 300 seconds; [upgrade_asa] then
    returns the device. *)
Theorem rebooted_flag_needs_the_wait_and_a_successful_probe
        (device : Device) (image_type image_location dest_drive : string)
        (reboot backup_cfg : bool) (backup_location : option string) (w : W) :
  successfully_rebooted device = false ->
  successfully_rebooted
    (dev (snd (run_upgrade_asa env device image_type image_location dest_drive
                               reboot backup_cfg backup_location w))) = true ->
  let out := run_upgrade_asa env device image_type image_location dest_drive
                             reboot backup_cfg backup_location w in
  reboot = true /\
  file_uploaded (dev (snd out)) = true /\
  existsb probe_succeeded (trace (snd out)) = true /\
  ends_with_wait_then_probe (trace (snd out)) = true /\
  fst out = Ok RetDevice.
Proof.
  intros H0 H1 out. subst out. unfold run_upgrade_asa in *.
  rewrite (upgrade_asa_field successfully_rebooted) in H1 by reflexivity.
  rewrite upgrade_asa_trace, (upgrade_asa_field file_uploaded) by reflexivity.
  pose proof (more_after_try device image_type image_location dest_drive reboot
                             backup_cfg backup_location w)
    as (_ & _ & _ & _ & _ & K).
  destruct (K H0 H1) as (A & B & C & D & E).
  repeat split; try assumption.
  rewrite upgrade_asa_handlers. cbv zeta. now rewrite E.
Qed.

(** X12. A connector that raises [ConnectionException] (no credentials, a
    time-out, every candidate rejected) ends the call there: [upgrade_asa]
    returns the device with [connected] false and every other field as it
    was, and the connector's calls are the only ones made. *)
Theorem failed_connection_returns_the_device_as_it_was
        (device : Device) (image_type image_location dest_drive : string)
        (reboot backup_cfg : bool) (backup_location : option string) (w : W)
        (msg : string) :
  fst (run_connect env device w) = Raise (Exn ConnectionException msg) ->
  run_upgrade_asa env device image_type image_location dest_drive
                  reboot backup_cfg backup_location w
  = (Ok RetDevice,
     mkSt (world (snd (run_connect env device w)))
          (set_connected false device)
          (trace (snd (run_connect env device w)))).
Proof.
  unfold run_connect, run_upgrade_asa. intros H.
  destruct (connect_to_device_frame env (ip_address device) (credentials device)
              true (DTList ["cisco_asa"]) None (mkSt w device []))
    as (r & w' & t & E & _).
  cbn [dev trace app] in E. rewrite E in *. cbn [fst snd world trace] in *.
  subst r.
  unfold upgrade_asa, upgrade_asa_try, try_except, bind, get_dev.
  cbn [dev]. rewrite E. reflexivity.
Qed.

(** ** A requested backup *)

Lemma backup_requested_try (device : Device) image_type image_location
      dest_drive reboot backup_location w :
  wp (upgrade_asa_try env image_type image_location dest_drive reboot
                      true backup_location)
     (fun r s' =>
        never (@is_upload_call) (trace s') = true /\
        never (@is_later_call) (trace s') = true /\
        never (@is_write_call) (trace s') = true /\
        file_uploaded (dev s') = file_uploaded device /\
        exists e, r = Raise e)
     (mkSt w device []).
Proof.
  wp_run.
  all: forget_answers; wp_simpl.
  all: repeat match goal with
              | |- _ /\ _ => split
              end.
  all: try first [ reflexivity | eexists; reflexivity ].
  all: apply never_after_connect; [not_connect_call | assumption | reflexivity].
Qed.

(** X13. With a backup requested the upgrade never takes place, whatever the
    destination is: [backup_config] always raises, so no call of the upload
    step or of a later step is attempted, no backup file is written,
    [file_uploaded] is left as it was, and the call ends in an exception or
    returns the device with [connected] false. *)
Theorem requested_backup_stops_the_upgrade
        (device : Device) (image_type image_location dest_drive : string)
        (reboot : bool) (backup_location : option string) (w : W) :
  let out := run_upgrade_asa env device image_type image_location dest_drive
                             reboot true backup_location w in
  never (@is_upload_call) (trace (snd out)) = true /\
  never (@is_later_call) (trace (snd out)) = true /\
  never (@is_write_call) (trace (snd out)) = true /\
  file_uploaded (dev (snd out)) = file_uploaded device /\
  ((exists e, fst out = Raise e) \/
   (fst out = Ok RetDevice /\ connected (dev (snd out)) = false)).
Proof.
  intros out. subst out. unfold run_upgrade_asa.
  rewrite upgrade_asa_trace, (upgrade_asa_field file_uploaded) by reflexivity.
  pose proof (backup_requested_try device image_type image_location dest_drive
                                   reboot backup_location w)
    as (A & B & C & D & e & E).
  repeat split; try assumption.
  rewrite upgrade_asa_handlers. cbv zeta. rewrite E.
  destruct (handled (Raise e)) eqn:Hh; cbn [fst snd dev connected set_connected];
    [right; split; reflexivity | left; eauto].
Qed.

End SequencerMore.

Lemma no_space_means_no_transfer_witness :
  let full := Sim.mkScenario Sim.accept_all "fw01#" false (Ok tt) true
                             (fun _ => false) 0 in
  let out := run_upgrade_asa (Sim.netmiko full) (Sim.device "10.0.0.1")
                             "asa" "/tmp/asa9-8.bin" "disk0:" true false None
                             Sim.factory in
  existsb space_refused (trace (snd out)) = true /\
  never (@is_transfer_call) (trace (snd out)) = true /\
  error (dev (snd out)) = "Not enough space to upload file" /\
  file_uploaded (dev (snd out)) = false.
Proof.
  cbv zeta.
  assert (H : existsb space_refused
                (trace (snd (run_upgrade_asa
                               (Sim.netmiko
                                  (Sim.mkScenario Sim.accept_all "fw01#" false
                                                  (Ok tt) true (fun _ => false) 0))
                               (Sim.device "10.0.0.1")
                               "asa" "/tmp/asa9-8.bin" "disk0:" true false None
                               Sim.factory))) = true)
    by (vm_compute; reflexivity).
  split; [exact H|].
  exact (no_space_means_no_transfer _ _ _ _ _ _ _ _ _ H).
Defined.

Lemma error_text_changes_only_when_a_check_refuses_witness :
  let out := run_upgrade_asa (Sim.netmiko Sim.unverified) (Sim.device "10.0.0.1")
                             "asa" "/tmp/asa9-8.bin" "disk0:" true false None
                             Sim.factory in
  existsb verify_refused (trace (snd out)) = true /\
  error (dev (snd out)) = "File transfer verifier failed" /\
  file_uploaded (dev (snd out)) = false.
Proof.
  cbv zeta.
  assert (H : existsb verify_refused
                (trace (snd (run_upgrade_asa
                               (Sim.netmiko Sim.unverified)
                               (Sim.device "10.0.0.1")
                               "asa" "/tmp/asa9-8.bin" "disk0:" true false None
                               Sim.factory))) = true)
    by (vm_compute; reflexivity).
  split; [exact H|].
  destruct (error_text_changes_only_when_a_check_refuses
              (Sim.netmiko Sim.unverified) (Sim.device "10.0.0.1")
              "asa" "/tmp/asa9-8.bin" "disk0:" true false None Sim.factory)
    as [A _].
  exact (A H).
Defined.

Lemma rebooted_flag_needs_the_wait_and_a_successful_probe_witness :
  let out := run_upgrade_asa (Sim.permissive Sim.happy) (Sim.device "10.0.0.1")
                             "asa" "/tmp/asa9-8.bin" "disk0:" true false None
                             Sim.factory in
  successfully_rebooted (Sim.device "10.0.0.1") = false /\
  successfully_rebooted (dev (snd out)) = true /\
  ends_with_wait_then_probe (trace (snd out)) = true /\
  fst out = Ok RetDevice.
Proof.
  cbv zeta.
  assert (H : successfully_rebooted
                (dev (snd (run_upgrade_asa
                             (Sim.permissive Sim.happy) (Sim.device "10.0.0.1")
                             "asa" "/tmp/asa9-8.bin" "disk0:" true false None
                             Sim.factory))) = true)
    by (vm_compute; reflexivity).
  split; [reflexivity|]. split; [exact H|].
  destruct (rebooted_flag_needs_the_wait_and_a_successful_probe
              (Sim.permissive Sim.happy) (Sim.device "10.0.0.1")
              "asa" "/tmp/asa9-8.bin" "disk0:" true false None Sim.factory
              eq_refl H)
    as (_ & _ & _ & A & B).
  split; [exact A | exact B].
Defined.

Lemma failed_connection_returns_the_device_as_it_was_witness :
  fst (run_connect (Sim.netmiko Sim.rejecting) (Sim.device "10.0.0.1")
                   Sim.factory)
  = Raise (Exn ConnectionException "Unable to connect to device") /\
  fst (run_upgrade_asa (Sim.netmiko Sim.rejecting) (Sim.device "10.0.0.1")
                       "asa" "/tmp/asa9-8.bin" "disk0:" true true None
                       Sim.factory)
  = Ok RetDevice.
Proof.
  assert (H : fst (run_connect (Sim.netmiko Sim.rejecting)
                               (Sim.device "10.0.0.1") Sim.factory)
              = Raise (Exn ConnectionException "Unable to connect to device"))
    by (vm_compute; reflexivity).
  split; [exact H|].
  now rewrite (failed_connection_returns_the_device_as_it_was
                 (Sim.netmiko Sim.rejecting) (Sim.device "10.0.0.1")
                 "asa" "/tmp/asa9-8.bin" "disk0:" true true None Sim.factory
                 _ H).
Defined.

(** * More about [ping] and [backup_config] *)

Lemma string_append_snoc (a : string) (c : ascii) (b : string) :
  ((a ++ String c EmptyString) ++ b)%string = (a ++ String c b)%string.
Proof. induction a as [|x a IH]; cbn; [reflexivity | now rewrite IH]. Qed.

Lemma split_ws_word (word s cur : string) :
  no_space word = true ->
  PyStr.split_ws (word ++ s)%string cur = PyStr.split_ws s (cur ++ word)%string.
Proof.
  revert cur. induction word as [|c word IH]; intros cur H; cbn in *.
  - replace (cur ++ EmptyString)%string with cur; [reflexivity|].
    clear. induction cur as [|x cur IH]; cbn; [reflexivity | now rewrite <- IH].
  - apply andb_prop in H as [Hc Hw]. apply negb_true_iff in Hc.
    rewrite Hc, (IH _ Hw). now rewrite string_append_snoc.
Qed.

Lemma no_space_digits (d : Decimal.uint) :
  no_space (NilEmpty.string_of_uint d) = true.
Proof. induction d; cbn; auto. Qed.

Lemma of_int_is_a_word (n : Z) :
  no_space (PyStr.of_int n) = true /\ PyStr.of_int n <> EmptyString.
Proof.
  unfold PyStr.of_int, NilZero.string_of_int, NilZero.string_of_uint.
  destruct (Z.to_int n) as [d|d]; destruct d; cbn;
    rewrite ?no_space_digits; split; (reflexivity || discriminate).
Qed.

(** The argument list [ping] builds when the platform test fails. *)
Lemma ping_command_words (n : Z) (host : string) :
  PyStr.split ("ping " ++ ("-c " ++ PyStr.of_int n) ++ " " ++ host)%string
  = ["ping"; "-c"; PyStr.of_int n] ++ PyStr.split host.
Proof.
  destruct (of_int_is_a_word n) as [Hw Hn].
  unfold PyStr.split. cbn.
  rewrite (split_ws_word _ _ _ Hw). cbn.
  destruct (PyStr.of_int n) eqn:E; [congruence|]. reflexivity.
Qed.

Section HelpersMore.

Context {W : Type} (env : Env W).

(** X14. For a host written in ASCII, where [is] only ever identifies equal
    strings and the platform is not named [windows] (Windows reports
    [win32]), [ping] runs exactly one subprocess, with the words [ping],
    [-c], the count and then the host split at its blanks, and answers
    whether the exit status was 0; an exception of the subprocess call goes
    on.  Outside ASCII [str.split] knows more blanks than [PyStr.is_space],
    and nothing is said. *)
Theorem ping_runs_ping_dash_c (host : string) (ping_count : Z) (s : st W) :
  ascii_only host = true ->
  (forall a b, str_is env a b = true -> a = b) ->
  sys_platform env <> "windows" ->
  let command := ["ping"; "-c"; PyStr.of_int ping_count] ++ PyStr.split host in
  let answer := fst (handle env (Popen_wait_poll command) (world s)) in
  let out := ping env host ping_count s in
  trace (snd out) = trace s ++ [Ev (Popen_wait_poll command) answer] /\
  dev (snd out) = dev s /\
  fst out = match answer with
            | Ok status => Ok (Z.eqb status 0)
            | Raise e => Raise e
            end.
Proof.
  intros _ Hs Hp command answer out. subst command answer out.
  unfold ping.
  destruct (str_is env (sys_platform env) "windows") eqn:E;
    [apply Hs in E; contradiction|].
  rewrite ping_command_words.
  unfold bind, extcall, ret.
  destruct (handle env _ (world s)) as [[status|e] w']; cbn.
  - destruct (Z.eqb status 0); auto.
  - auto.
Qed.

(** X15. [backup_config] never writes a backup: it always ends in an exception
    and never reaches the write, whatever the file system and the clock
    answer; it is [ValueError] with the location in the message when the
    location is not a directory, and [TypeError] when it is one and the
    clock answers. *)
Theorem backup_config_never_writes (config : string) (location : option string)
        (hostname : string) (s : st W) :
  let out := backup_config env config location hostname s in
  (exists e, fst out = Raise e) /\
  dev (snd out) = dev s /\
  (exists t, trace (snd out) = trace s ++ t /\ never (@is_write_call) t = true) /\
  (forall path,
      location = Some path ->
      fst (handle env (Path_is_dir path) (world s)) = Ok false ->
      fst out = Raise (Exn ValueError ("Location is not a directory - " ++ path))) /\
  (forall path r,
      location = Some path ->
      fst (handle env (Path_is_dir path) (world s)) = Ok true ->
      fst (handle env Datetime_now
                  (snd (handle env (Path_is_dir path) (world s)))) = Ok r ->
      exists msg, fst out = Raise (Exn TypeError msg)).
Proof.
  cbv zeta. unfold backup_config.
  destruct location as [path|].
  - unfold bind, extcall, strptime_format_only, raise.
    destruct (handle env (Path_is_dir path) (world s)) as [[[|]|e] w1] eqn:E1;
      cbn [fst snd world dev trace];
      [destruct (handle env Datetime_now w1) as [[r|e] w2] eqn:E2;
       cbn [fst snd world dev trace]| |];
      (split; [eauto|]); (split; [reflexivity|]);
      (split; [eexists; rewrite <- ?app_assoc; split; reflexivity|]);
      split; intros p; intros; 
      match goal with H : Some _ = Some _ |- _ => injection H as <- end;
      rewrite ?E1 in *; cbn [fst snd] in *; rewrite ?E2 in *; cbn [fst snd] in *;
      try discriminate; eauto.
  - unfold raise. cbn. split; [eauto|]. split; [reflexivity|]. split.
    { exists []. rewrite app_nil_r. split; reflexivity. }
    split; intros; discriminate.
Qed.

End HelpersMore.

Lemma ping_runs_ping_dash_c_witness :
  let env := Sim.netmiko Sim.silent_after_reboot in
  let s := mkSt Sim.factory (Device_init "10.0.0.1") [] in
  ascii_only "10.0.0.1" = true /\
  (forall a b, str_is env a b = true -> a = b) /\
  sys_platform env <> "windows" /\
  trace (snd (ping env "10.0.0.1" 4 s))
  = [Ev (Popen_wait_poll ["ping"; "-c"; "4"; "10.0.0.1"]) (Ok 1%Z)] /\
  fst (ping env "10.0.0.1" 4 s) = Ok false.
Proof.
  cbv zeta.
  assert (Hs : forall a b,
             str_is (Sim.netmiko Sim.silent_after_reboot) a b = true -> a = b)
    by (intros a b H; discriminate H).
  assert (Hp : sys_platform (Sim.netmiko Sim.silent_after_reboot) <> "windows")
    by (intro H; discriminate H).
  split; [reflexivity|]. split; [exact Hs|]. split; [exact Hp|].
  destruct (ping_runs_ping_dash_c
              (Sim.netmiko Sim.silent_after_reboot) "10.0.0.1" 4
              (mkSt Sim.factory (Device_init "10.0.0.1") []) eq_refl Hs Hp)
    as (A & _ & B).
  split; [exact A | exact B].
Defined.

(** * [get_credentials] *)

Lemma ask_secret_skips (noise rest : list string) (c : cred) (cs : list cred) :
  forallb not_an_answer noise = true ->
  ask_secret (noise ++ rest) c cs = ask_secret rest c cs.
Proof.
  induction noise as [|a noise IH]; intros H; [reflexivity|].
  cbn [forallb] in H. apply andb_prop in H as [Ha Hn].
  unfold not_an_answer in Ha.
  cbn [app ask_secret].
  destruct (valid_input (PyStr.lower a)); [discriminate|]. now apply IH.
Qed.

Lemma ask_more_skips (noise rest : list string) (cs : list cred) :
  forallb not_an_answer noise = true ->
  ask_more (noise ++ rest) cs = ask_more rest cs.
Proof.
  induction noise as [|a noise IH]; intros H; [reflexivity|].
  cbn [forallb] in H. apply andb_prop in H as [Ha Hn].
  unfold not_an_answer in Ha.
  cbn [app ask_more].
  destruct (valid_input (PyStr.lower a)); [discriminate|]. now apply IH.
Qed.

Lemma ask_credential_typed (l : list entry) (unread : list string) :
  well_answered l = true ->
  l <> [] ->
  forall cs,
    ask_credential (typed l ++ unread) cs
    = Ok (cs ++ map wanted_dict (map e_wanted l)).
Proof.
  induction l as [|e rest IH]; intros Hw Hl cs; [congruence|].
  cbn [well_answered] in Hw.
  apply andb_prop in Hw as [Hw Hrest]. apply andb_prop in Hw as [Hw Hmore].
  apply andb_prop in Hw as [Hw Hn2]. apply andb_prop in Hw as [Hn1 Hsec].
  unfold typed. cbn [flat_map]. fold (typed rest).
  unfold entry_lines. rewrite <- !app_assoc.
  cbn [app ask_credential].
  rewrite (ask_secret_skips _ _ _ _ Hn1).
  assert (M : ask_more (e_before_more e ++ [e_more_answer e] ++ typed rest ++ unread)
                       (cs ++ [wanted_dict (e_wanted e)])
              = Ok (cs ++ map wanted_dict (map e_wanted (e :: rest)))).
  { rewrite (ask_more_skips _ _ _ Hn2). cbn [app ask_more].
    unfold answers in Hmore.
    destruct (valid_input (PyStr.lower (e_more_answer e))) as [b|];
      [|discriminate].
    destruct rest as [|e' rest].
    - destruct b; [discriminate|]. reflexivity.
    - destruct b; [|discriminate].
      rewrite (IH Hrest ltac:(discriminate)).
      cbn [map]. now rewrite <- app_assoc. }
  unfold answers in Hsec. unfold wanted_dict in *.
  cbn [app ask_secret].
  destruct (valid_input (PyStr.lower (e_secret_answer e))) as [b|];
    [|destruct (w_secret (e_wanted e)); discriminate].
  destruct (w_secret (e_wanted e)) as [s|]; destruct b; try discriminate.
  - cbn [app]. exact M.
  - cbn [app] in *. exact M.
Qed.

(** X16. Round trip: the user enters each wanted credential set as user name
    and password, answers the secret question with yes exactly when the set
    has a secret (and then types it), and answers the question for more
    with yes exactly when another set follows, each time in any spelling and
    letter case the code accepts and after any number of lines that are no
    answer.  [get_credentials] then returns exactly those sets, in order,
    with a [secret] key only where one was typed, and reads nothing of what
    is typed after the final no. *)
Theorem get_credentials_reads_back_what_was_typed
        (l : list entry) (unread : list string) :
  well_answered l = true ->
  l <> [] ->
  get_credentials (typed l ++ unread) = Ok (map wanted_dict (map e_wanted l)).
Proof.
  intros Hw Hl. unfold get_credentials.
  now rewrite (ask_credential_typed l unread Hw Hl []).
Qed.

Lemma get_credentials_reads_back_what_was_typed_witness :
  let l := [mkEntry (mkWanted "admin" "pw" (Some "en"))
                    ["maybe"; "si"] "Ye" [] "YES";
            mkEntry (mkWanted "ops" "pw2" None)
                    [] "NO" ["nope"; "yes please"] "n"] in
  well_answered l = true /\
  l <> [] /\
  get_credentials
    ["admin"; "pw"; "maybe"; "si"; "Ye"; "en"; "YES";
     "ops"; "pw2"; "NO"; "nope"; "yes please"; "n"; "never read"]
  = Ok [[("username", "admin"); ("password", "pw"); ("secret", "en")];
        [("username", "ops"); ("password", "pw2")]].
Proof.
  cbv zeta.
  assert (Hw : well_answered
                 [mkEntry (mkWanted "admin" "pw" (Some "en"))
                          ["maybe"; "si"] "Ye" [] "YES";
                  mkEntry (mkWanted "ops" "pw2" None)
                          [] "NO" ["nope"; "yes please"] "n"] = true)
    by reflexivity.
  assert (Hl : [mkEntry (mkWanted "admin" "pw" (Some "en"))
                        ["maybe"; "si"] "Ye" [] "YES";
                mkEntry (mkWanted "ops" "pw2" None)
                        [] "NO" ["nope"; "yes please"] "n"] <> [])
    by discriminate.
  split; [exact Hw|]. split; [exact Hl|].
  exact (get_credentials_reads_back_what_was_typed _ ["never read"] Hw Hl).
Defined.

Lemma ask_results (n : nat) :
  forall lines, length lines <= n ->
  (forall cs r,
      forallb has_username_and_password cs = true ->
      ask_credential lines cs = Ok r ->
      forallb has_username_and_password r = true /\ r <> []) /\
  (forall c cs r,
      forallb has_username_and_password cs = true ->
      dict_get "username" c <> None -> dict_get "password" c <> None ->
      (forall s, dict_get "username" (c ++ [("secret", s)]) <> None /\
                 dict_get "password" (c ++ [("secret", s)]) <> None) ->
      ask_secret lines c cs = Ok r ->
      forallb has_username_and_password r = true /\ r <> []) /\
  (forall cs r,
      forallb has_username_and_password cs = true ->
      cs <> [] ->
      ask_more lines cs = Ok r ->
      forallb has_username_and_password r = true /\ r <> []).
Proof.
  assert (G : forall c, dict_get "username" c <> None ->
                        dict_get "password" c <> None ->
                        has_username_and_password c = true).
  { intros c. unfold has_username_and_password.
    destruct (dict_get "username" c), (dict_get "password" c); congruence. }
  assert (N : forall (cs : list cred) c, cs ++ [c] <> []).
  { intros [|x cs] c; discriminate. }
  induction n as [|n IH]; intros lines Hlen.
  - destruct lines; [|cbn in Hlen; lia]. repeat split; discriminate.
  - destruct lines as [|a rest]; [repeat split; discriminate|].
    cbn [length] in Hlen.
    assert (Hr : length rest <= n) by lia.
    destruct (IH rest Hr) as (IHc & IHs & IHm).
    split; [|split].
    + intros cs r Hcs. destruct rest as [|p rest']; [discriminate|].
      cbn [ask_credential]. cbn [length] in Hr.
      destruct (IH rest' ltac:(lia)) as (_ & IHs' & _).
      apply IHs'; try assumption; cbn; try discriminate.
      intros s. cbn. split; discriminate.
    + intros c cs r Hcs Hu Hp Hsec. cbn [ask_secret].
      destruct (valid_input (PyStr.lower a)) as [[|]|].
      * destruct rest as [|s rest']; [discriminate|]. cbn [length] in Hr.
        destruct (IH rest' ltac:(lia)) as (_ & _ & IHm').
        apply IHm'; [|apply N].
        rewrite forallb_app, Hcs. cbn. destruct (Hsec s). now rewrite G.
      * apply IHm; [|apply N].
        rewrite forallb_app, Hcs. cbn. now rewrite G.
      * now apply IHs.
    + intros cs r Hcs Hne. cbn [ask_more].
      destruct (valid_input (PyStr.lower a)) as [[|]|].
      * now apply IHc.
      * intros [= <-]. now split.
      * now apply IHm.
Qed.

(** X17. Whatever is typed, a list [get_credentials] returns is not empty, and
    every set in it has a user name and a password: the connector takes it
    as credentials given. *)
Theorem get_credentials_result_is_usable (lines : list string) (r : list cred) :
  get_credentials lines = Ok r ->
  r <> [] /\
  forallb has_username_and_password r = true /\
  truthy_credentials (CredList r) = true.
Proof.
  intros H. unfold get_credentials in H.
  destruct (ask_results (length lines) lines (le_n _)) as (Hc & _ & _).
  destruct (Hc [] r eq_refl H) as [A B].
  split; [exact B|]. split; [exact A|].
  destruct r; [congruence | reflexivity].
Qed.

Lemma get_credentials_result_is_usable_witness :
  let r := [[("username", "admin"); ("password", "pw"); ("secret", "en")]] in
  get_credentials ["admin"; "pw"; "Yes"; "en"; "N"; "never read"] = Ok r /\
  r <> [] /\
  forallb has_username_and_password r = true /\
  truthy_credentials (CredList r) = true.
Proof.
  cbv zeta. split; [reflexivity|].
  exact (get_credentials_result_is_usable
           ["admin"; "pw"; "Yes"; "en"; "N"; "never read"] _ eq_refl).
Defined.

Lemma ask_without_no (n : nat) :
  forall lines, length lines <= n ->
  existsb answers_no lines = false ->
  (forall cs, ask_credential lines cs = Raise EOFError) /\
  (forall c cs, ask_secret lines c cs = Raise EOFError) /\
  (forall cs, ask_more lines cs = Raise EOFError).
Proof.
  induction n as [|n IH]; intros lines Hlen Hno.
  - destruct lines; [|cbn in Hlen; lia]. repeat split.
  - destruct lines as [|a rest]; [repeat split|].
    cbn [length] in Hlen. cbn [existsb] in Hno.
    apply orb_false_iff in Hno as [Ha Hrest].
    assert (Hr : length rest <= n) by lia.
    destruct (IH rest Hr Hrest) as (IHc & IHs & IHm).
    split; [|split].
    + intros cs. destruct rest as [|p rest']; [reflexivity|].
      cbn [ask_credential]. cbn [length] in Hr. cbn [existsb] in Hrest.
      apply orb_false_iff in Hrest as [_ Hrest'].
      now destruct (IH rest' ltac:(lia) Hrest') as (_ & IHs' & _).
    + intros c cs. cbn [ask_secret]. unfold answers_no in Ha.
      destruct (valid_input (PyStr.lower a)) as [[|]|]; try discriminate.
      * destruct rest as [|s rest']; [reflexivity|].
        cbn [length] in Hr. cbn [existsb] in Hrest.
        apply orb_false_iff in Hrest as [_ Hrest'].
        now destruct (IH rest' ltac:(lia) Hrest') as (_ & _ & IHm').
      * apply IHs.
    + intros cs. cbn [ask_more]. unfold answers_no in Ha.
      destruct (valid_input (PyStr.lower a)) as [[|]|]; try discriminate.
      * apply IHc.
      * apply IHm.
Qed.

(** X18. [get_credentials] returns only on an explicit no: when no typed line is
    [no] or [n] in some letter case, it keeps asking until the input ends,
    and ends in [EOFError] with nothing returned. *)
Theorem get_credentials_returns_only_after_a_no (lines : list string) :
  existsb answers_no lines = false ->
  get_credentials lines = Raise EOFError.
Proof.
  intros H. unfold get_credentials.
  now destruct (ask_without_no (length lines) lines (le_n _) H) as (Hc & _).
Qed.

Lemma get_credentials_returns_only_after_a_no_witness :
  existsb answers_no ["admin"; "pw"; "yes"; "en"; "nope"; "q"; "exit"] = false /\
  get_credentials ["admin"; "pw"; "yes"; "en"; "nope"; "q"; "exit"]
  = Raise EOFError.
Proof.
  split; [reflexivity|].
  exact (get_credentials_returns_only_after_a_no
           ["admin"; "pw"; "yes"; "en"; "nope"; "q"; "exit"] eq_refl).
Defined.

(** * [get_cisco_ios_version] *)

Lemma occurs_inv (lit : string) (c : ascii) (s : string) :
  occurs lit (String c s) = false ->
  match_lit lit (String c s) = None /\ occurs lit s = false.
Proof.
  cbn [occurs]. destruct (match_lit lit (String c s)); [discriminate|]. auto.
Qed.

Lemma occurs_head (lit s : string) :
  occurs lit s = false -> match_lit lit s = None.
Proof.
  destruct s as [|c s]; [|intros H; now apply occurs_inv in H].
  cbn [occurs]. now destruct (match_lit lit EmptyString).
Qed.

Lemma occurs_after_lit (x lit s s' : string) :
  match_lit lit s = Some s' -> occurs x s = false -> occurs x s' = false.
Proof.
  revert s. induction lit as [|a lit IH]; intros s; cbn [match_lit].
  - now intros [= <-].
  - destruct s as [|b s]; [discriminate|].
    destruct (Ascii.eqb a b); [|discriminate].
    intros H O. apply occurs_inv in O as [_ O]. now apply (IH s).
Qed.

Lemma dot_star_none {A} (k : string -> option A) (x : string) :
  (forall s, occurs x s = false -> k s = None) ->
  forall s, occurs x s = false -> dot_star k s = None.
Proof.
  intros K. induction s as [|c s IH]; intros O; cbn [dot_star].
  - now apply K.
  - pose proof (K _ O) as Kc. apply occurs_inv in O as [_ O].
    rewrite (IH O), Kc. now destruct (is_newline c).
Qed.

Lemma re_search_none (atoms : list re_atom) (x : string) :
  (forall s, occurs x s = false -> re_match atoms s None = None) ->
  forall s, occurs x s = false -> re_search atoms s = None.
Proof.
  intros K. induction s as [|c s IH]; intros O; cbn [re_search].
  - now rewrite (K _ O).
  - rewrite (K _ O). apply occurs_inv in O as [_ O]. now apply IH.
Qed.

(** X19. Without the words [Cisco IOS Software, ] or without [ Version] anywhere
    in the output, the answer is the fixed sentence. *)
Theorem get_cisco_ios_version_needs_both_markers (sh_ver : string) :
  occurs "Cisco IOS Software, " sh_ver = false \/
  occurs " Version" sh_ver = false ->
  get_cisco_ios_version sh_ver = "Unable to determine IOS version".
Proof.
  intros H. unfold get_cisco_ios_version.
  enough (E : re_search rexp sh_ver = None) by now rewrite E.
  destruct H as [H|H].
  - apply (re_search_none rexp "Cisco IOS Software, "); [|exact H].
    intros s O. unfold rexp. cbn [re_match]. now rewrite (occurs_head _ _ O).
  - apply (re_search_none rexp " Version"); [|exact H].
    intros s O. unfold rexp. cbn [re_match].
    destruct (match_lit "Cisco IOS Software, " s) as [s'|] eqn:E; [|reflexivity].
    apply (dot_star_none _ " Version"); [|exact (occurs_after_lit _ _ _ _ E O)].
    intros s0 O0. now rewrite (occurs_head _ _ O0).
Qed.

Lemma get_cisco_ios_version_needs_both_markers_witness :
  (occurs "Cisco IOS Software, " "Cisco Adaptive Security Appliance Software Version 9.8(2)" = false \/
   occurs " Version" "Cisco Adaptive Security Appliance Software Version 9.8(2)" = false) /\
  get_cisco_ios_version "Cisco Adaptive Security Appliance Software Version 9.8(2)"
  = "Unable to determine IOS version".
Proof.
  assert (H : occurs "Cisco IOS Software, "
                     "Cisco Adaptive Security Appliance Software Version 9.8(2)" = false \/
              occurs " Version"
                     "Cisco Adaptive Security Appliance Software Version 9.8(2)" = false)
    by (left; reflexivity).
  split; [exact H|].
  exact (get_cisco_ios_version_needs_both_markers _ H).
Defined.

Lemma string_app_assoc (a b c : string) :
  ((a ++ b) ++ c)%string = (a ++ b ++ c)%string.
Proof. induction a as [|x a IH]; cbn; [reflexivity | now rewrite IH]. Qed.

Lemma group_takes_the_line (v tail acc : string) :
  no_newline v = true -> at_line_end tail = true ->
  group_dot_star (fun matched s' => re_match [] s' (Some matched))
                 (v ++ tail) acc
  = Some (Some (acc ++ v)%string).
Proof.
  revert acc. induction v as [|c v IH]; intros acc Hv Ht.
  - cbn [String.append].
    replace (acc ++ EmptyString)%string with acc
      by (clear; induction acc as [|x a IH]; cbn; [reflexivity | now rewrite <- IH]).
    destruct tail as [|c t]; [reflexivity|].
    cbn [at_line_end] in Ht. cbn [group_dot_star]. now rewrite Ht.
  - cbn [no_newline] in Hv. apply andb_prop in Hv as [Hc Hv].
    apply negb_true_iff in Hc.
    cbn [String.append group_dot_star]. rewrite Hc, (IH _ Hv Ht).
    now rewrite string_append_snoc.
Qed.

Lemma no_marker_after_V (c : ascii) (w tail : string) :
  lacks "V" w = true -> at_line_end tail = true ->
  match_lit " Version" (String c (w ++ tail)) = None.
Proof.
  intros Hw Ht. cbn [match_lit].
  destruct (Ascii.eqb " " c); [|reflexivity].
  destruct w as [|d w].
  - cbn [String.append]. destruct tail as [|t tail]; [reflexivity|].
    cbn [at_line_end] in Ht. unfold is_newline in Ht.
    apply Ascii.eqb_eq in Ht. now subst t.
  - cbn [lacks] in Hw. apply andb_prop in Hw as [Hd _].
    apply negb_true_iff in Hd. cbn [String.append].
    rewrite Ascii.eqb_sym. now rewrite Hd.
Qed.

Lemma no_later_marker {A} (k : string -> option A) (c : ascii) (w tail : string) :
  (forall s, match_lit " Version" s = None -> k s = None) ->
  lacks "V" w = true -> at_line_end tail = true ->
  dot_star k (String c (w ++ tail)) = None.
Proof.
  intros K. revert c. induction w as [|d w IH]; intros c Hw Ht.
  - pose proof (K _ (no_marker_after_V c EmptyString tail Hw Ht)) as Kc.
    cbn [String.append] in *. cbn [dot_star]. rewrite Kc.
    destruct (is_newline c); [reflexivity|].
    destruct tail as [|t tail].
    + cbn [dot_star]. now rewrite K.
    + cbn [at_line_end] in Ht. cbn [dot_star]. rewrite Ht.
      rewrite K; [reflexivity|].
      unfold is_newline in Ht. apply Ascii.eqb_eq in Ht. now subst t.
  - pose proof (K _ (no_marker_after_V c _ tail Hw Ht)) as Kc.
    cbn [lacks] in Hw. apply andb_prop in Hw as [_ Hw'].
    cbn [dot_star]. rewrite Kc.
    destruct (is_newline c); [reflexivity|].
    cbn [String.append]. now rewrite (IH d Hw' Ht).
Qed.

Lemma dot_star_last_marker {A} (k : string -> option A) (w tail : string) :
  (forall s, match_lit " Version" s = None -> k s = None) ->
  lacks "V" w = true -> at_line_end tail = true ->
  dot_star k (String " " (String "V" (w ++ tail)))
  = k (String " " (String "V" (w ++ tail))).
Proof.
  intros K Hw Ht.
  change (dot_star k (String " " (String "V" (w ++ tail))))
    with (match dot_star k (String "V" (w ++ tail)) with
          | Some r => Some r
          | None => k (String " " (String "V" (w ++ tail)))
          end).
  now rewrite (no_later_marker k "V" w tail K Hw Ht).
Qed.

Lemma dot_star_through {A} (k : string -> option A) (mid s : string) (r : A) :
  no_newline mid = true -> dot_star k s = Some r ->
  dot_star k (mid ++ s) = Some r.
Proof.
  intros Hm Hs. induction mid as [|c mid IH]; [exact Hs|].
  cbn [no_newline] in Hm. apply andb_prop in Hm as [Hc Hm].
  apply negb_true_iff in Hc.
  cbn [String.append dot_star]. now rewrite Hc, (IH Hm).
Qed.

Lemma re_search_after (pre s : string) :
  lacks "C" pre = true ->
  re_search rexp (pre ++ s) = re_search rexp s.
Proof.
  induction pre as [|c pre IH]; intros H; [reflexivity|].
  cbn [lacks] in H. apply andb_prop in H as [Hc Hp].
  apply negb_true_iff in Hc.
  cbn [String.append re_search].
  unfold rexp at 1. cbn [re_match match_lit].
  rewrite Ascii.eqb_sym, Hc. now apply IH.
Qed.

(** X20. On a line [Cisco IOS Software, ... Version v], the answer is [v], the
    text from after the marker to the end of that line: whatever comes
    before the line (without a capital C), between the two markers and on
    the lines after it. *)
Theorem get_cisco_ios_version_reads_to_the_end_of_the_line
        (pre mid v tail : string) :
  lacks "C" pre = true ->
  no_newline mid = true ->
  no_newline v = true ->
  lacks "V" v = true ->
  at_line_end tail = true ->
  get_cisco_ios_version
    (pre ++ "Cisco IOS Software, " ++ mid ++ " Version " ++ v ++ tail)
  = v.
Proof.
  intros Hp Hm Hv HV Ht. unfold get_cisco_ios_version.
  rewrite (re_search_after _ _ Hp).
  set (line := (mid ++ " Version " ++ v ++ tail)%string).
  set (k := fun s' => re_match [ReLit " Version"; ReOptChr " "; ReGroupDotStar]
                               s' None).
  assert (K : forall s, match_lit " Version" s = None -> k s = None).
  { intros s Hs. unfold k. cbn [re_match]. now rewrite Hs. }
  assert (E : re_match rexp ("Cisco IOS Software, " ++ line) None
              = Some (Some v)).
  { change (re_match rexp ("Cisco IOS Software, " ++ line) None)
      with (dot_star k line).
    unfold line. apply (dot_star_through _ _ _ _ Hm).
    change (" Version " ++ v ++ tail)%string
      with (String " " (String "V" ("ersion " ++ v ++ tail)))%string.
    rewrite <- (string_app_assoc "ersion " v tail).
    rewrite (dot_star_last_marker k _ tail K); [|exact HV|exact Ht].
    rewrite (string_app_assoc "ersion " v tail).
    change (k (String " " (String "V" ("ersion " ++ v ++ tail)))%string)
      with (match
               group_dot_star (fun matched s' => re_match [] s' (Some matched))
                              (v ++ tail) EmptyString
             with
             | Some r => Some r
             | None =>
                 group_dot_star (fun matched s' => re_match [] s' (Some matched))
                                (String " " (v ++ tail)) EmptyString
             end).
    now rewrite (group_takes_the_line v tail EmptyString Hv Ht). }
  destruct ("Cisco IOS Software, " ++ line)%string eqn:L; [discriminate L|].
  cbn [re_search]. now rewrite E.
Qed.

Lemma get_cisco_ios_version_reads_to_the_end_of_the_line_witness :
  let nl := String "010" EmptyString in
  let sh_ver :=
    ("show version" ++ nl
     ++ "Cisco IOS Software, C3750 Software (C3750-IPSERVICESK9-M), Version 12.2(55)SE7, RELEASE SOFTWARE (fc1)"
     ++ nl ++ "Technical Support: http://www.cisco.com/techsupport")%string in
  get_cisco_ios_version sh_ver = "12.2(55)SE7, RELEASE SOFTWARE (fc1)".
Proof.
  cbv zeta.
  exact (get_cisco_ios_version_reads_to_the_end_of_the_line
           ("show version" ++ String "010" EmptyString)
           "C3750 Software (C3750-IPSERVICESK9-M),"
           "12.2(55)SE7, RELEASE SOFTWARE (fc1)"
           (String "010" "Technical Support: http://www.cisco.com/techsupport")
           eq_refl eq_refl eq_refl eq_refl eq_refl).
Defined.

Lemma no_newline_snoc (a : string) (c : ascii) :
  no_newline a = true -> is_newline c = false ->
  no_newline (a ++ String c EmptyString) = true.
Proof.
  intros Ha Hc. induction a as [|x a IH]; cbn [String.append no_newline] in *.
  - now rewrite Hc.
  - apply andb_prop in Ha as [Hx Ha]. now rewrite Hx, IH.
Qed.

Lemma group_is_one_line (s acc : string) (r : option string) :
  group_dot_star (fun matched s' => re_match [] s' (Some matched)) s acc
  = Some r ->
  no_newline acc = true ->
  exists g, r = Some g /\ no_newline g = true.
Proof.
  revert acc. induction s as [|c s IH]; intros acc; cbn [group_dot_star re_match].
  - intros [= <-] H. eauto.
  - destruct (is_newline c) eqn:Hc; [intros [= <-] H; eauto|].
    destruct (group_dot_star _ s (acc ++ String c EmptyString)) eqn:G.
    + intros [= <-] H. apply (IH _ G). now apply no_newline_snoc.
    + intros [= <-] H. eauto.
Qed.

Lemma dot_star_post {A} (k : string -> option A) (P : A -> Prop) :
  (forall s r, k s = Some r -> P r) ->
  forall s r, dot_star k s = Some r -> P r.
Proof.
  intros K. induction s as [|c s IH]; intros r; cbn [dot_star]; [apply K|].
  destruct (is_newline c); [apply K|].
  destruct (dot_star k s) eqn:D; [intros [= <-]; now apply IH | apply K].
Qed.

Lemma re_search_post (atoms : list re_atom) (P : option string -> Prop) :
  (forall s r, re_match atoms s None = Some r -> P r) ->
  forall s r, re_search atoms s = Some r -> P r.
Proof.
  intros K. induction s as [|c s IH]; intros r; cbn [re_search].
  - destruct (re_match atoms EmptyString None) eqn:E; [|discriminate].
    intros [= <-]. now apply (K _ _ E).
  - destruct (re_match atoms (String c s) None) eqn:E; [|apply IH].
    intros [= <-]. now apply (K _ _ E).
Qed.

(** X21. The answer is always a single line: whatever the output of the
    device, [get_cisco_ios_version] returns a text without a newline. *)
Theorem get_cisco_ios_version_is_one_line (sh_ver : string) :
  no_newline (get_cisco_ios_version sh_ver) = true.
Proof.
  unfold get_cisco_ios_version.
  destruct (re_search rexp sh_ver) as [r|] eqn:E; [|reflexivity].
  enough (H : exists g, r = Some g /\ no_newline g = true)
    by (destruct H as (g & -> & H); exact H).
  revert E.
  apply (re_search_post rexp
           (fun r => exists g, r = Some g /\ no_newline g = true)).
  clear. intros s r. unfold rexp. cbn [re_match].
  destruct (match_lit "Cisco IOS Software, " s) as [s1|]; [|discriminate].
  apply (dot_star_post _ (fun r => exists g, r = Some g /\ no_newline g = true)).
  clear. intros s r. cbn [re_match].
  destruct (match_lit " Version" s) as [s1|]; [|discriminate].
  destruct s1 as [|c s1].
  - intros H. now apply (group_is_one_line _ _ _ H).
  - destruct (Ascii.eqb " " c).
    + destruct (group_dot_star _ s1 EmptyString) eqn:G.
      * intros [= <-]. now apply (group_is_one_line _ _ _ G).
      * intros H. now apply (group_is_one_line _ _ _ H).
    + intros H. now apply (group_is_one_line _ _ _ H).
Qed.

(** * Reading the list, the pool and the report: [main] *)

Lemma read_rows_acc (rows : list cred) (devices : list Device) :
  (exists ips, map (dict_get "IP Address") rows = map Some ips /\
               read_rows rows devices = Ok (devices ++ map Device_init ips)) \/
  (In None (map (dict_get "IP Address") rows) /\
   read_rows rows devices = Raise KeyError_IP_Address).
Proof.
  revert devices. induction rows as [|row rows IH]; intros devices.
  - left. exists []. cbn. now rewrite app_nil_r.
  - cbn [read_rows map]. destruct (dict_get "IP Address" row) as [ip|].
    + destruct (IH (devices ++ [Device_init ip])) as [(ips & E & R)|[I R]].
      * left. exists (ip :: ips). cbn [map]. rewrite E, R, <- app_assoc.
        split; reflexivity.
      * right. split; [now right | exact R].
    + right. split; [now left | reflexivity].
Qed.

Lemma csv_get_zip_fields (key : string) (fieldnames row : list string) :
  csv_get key (zip_fields fieldnames row)
  = option_map (fun i => cell_at i row) (last_index key fieldnames).
Proof.
  revert row. induction fieldnames as [|k keys IH]; intros row.
  - destruct row; reflexivity.
  - destruct row as [|v vs]; cbn [zip_fields csv_get last_index]; rewrite IH;
      destruct (last_index key keys) as [i|]; cbn [option_map];
      try reflexivity;
      destruct (String.eqb key k); try reflexivity;
      unfold cell_at; destruct i; reflexivity.
Qed.

Lemma read_reader_zip_fields (key_at : option nat) (fieldnames : list string)
      (records : list (list string)) :
  last_index "IP Address" fieldnames = key_at ->
  forall devices,
    read_reader (map (zip_fields fieldnames) records) devices
    = match key_at with
      | Some i => Ok (devices ++ map (cell_at i) records)
      | None =>
          match records with
          | [] => Ok devices
          | _ :: _ => Raise KeyError_IP_Address
          end
      end.
Proof.
  intros H. induction records as [|r records IH]; intros devices.
  - cbn. destruct key_at; [now rewrite app_nil_r | reflexivity].
  - cbn [map read_reader]. rewrite csv_get_zip_fields, H.
    destruct key_at as [i|]; cbn [option_map]; [|reflexivity].
    rewrite IH. cbn [map]. now rewrite <- app_assoc.
Qed.

Lemma dict_get_app (key : string) (a b : cred) :
  dict_get key (a ++ b)
  = match dict_get key a with
    | Some v => Some v
    | None => dict_get key b
    end.
Proof.
  induction a as [|[k v] a IH]; cbn [app dict_get]; [reflexivity|].
  now destruct (String.eqb key k).
Qed.

Lemma text_row_cons (kv : option string * csv_value) (row : csv_row) :
  text_row (kv :: row)
  = text_row row ++ match kv with
                    | (Some k, CsvStr s) => [(k, s)]
                    | _ => []
                    end.
Proof.
  unfold text_row. cbn [rev]. rewrite flat_map_app. cbn [flat_map].
  now rewrite app_nil_r.
Qed.

Lemma text_row_get (key : string) (row : csv_row) :
  match csv_get key row with
  | Some (CsvStr s) => dict_get key (text_row row) = Some s
  | Some _ => True
  | None => dict_get key (text_row row) = None
  end.
Proof.
  induction row as [|[k v] row IH]; [reflexivity|].
  cbn [csv_get]. rewrite text_row_cons, dict_get_app.
  destruct (csv_get key row) as [[s| |cells]|].
  - now rewrite IH.
  - exact I.
  - exact I.
  - rewrite IH. destruct k as [k|]; [|reflexivity].
    destruct (String.eqb key k) eqn:E.
    + destruct v; cbn [dict_get]; try exact I. now rewrite E.
    + destruct v; cbn [dict_get]; try reflexivity. now rewrite E.
Qed.

Lemma read_reader_extends (rows : list csv_row) :
  forall devices out,
    read_reader rows devices = Ok out -> exists new, out = devices ++ new.
Proof.
  induction rows as [|row rows IH]; intros devices out; cbn [read_reader].
  - intros [= <-]. exists []. now rewrite app_nil_r.
  - destruct (csv_get "IP Address" row) as [ip|]; [|discriminate].
    intros H. destruct (IH _ _ H) as (new & ->).
    exists (ip :: new). now rewrite <- app_assoc.
Qed.

Lemma read_rows_of_text (rows : list csv_row) :
  forall ips seen devices,
    read_reader rows seen = Ok (seen ++ map CsvStr ips) ->
    read_rows (map text_row rows) devices
    = Ok (devices ++ map Device_init ips).
Proof.
  induction rows as [|row rows IH]; intros ips seen devices;
    cbn [read_reader map read_rows].
  - intros [= H]. rewrite <- (app_nil_r seen) in H at 1.
    apply app_inv_head in H. destruct ips; [|discriminate].
    now rewrite app_nil_r.
  - pose proof (text_row_get "IP Address" row) as G.
    destruct (csv_get "IP Address" row) as [ip|]; [|discriminate].
    intros H. destruct (read_reader_extends _ _ _ H) as (new & E).
    rewrite <- app_assoc in E. apply app_inv_head in E.
    destruct ips as [|i ips]; [discriminate|].
    cbn [map app] in E. injection E as <- _.
    rewrite G.
    replace (seen ++ map CsvStr (i :: ips))
      with ((seen ++ [CsvStr i]) ++ map CsvStr ips) in H
      by (now rewrite <- app_assoc).
    rewrite (IH ips _ (devices ++ [Device_init i]) H).
    cbn [map]. now rewrite <- app_assoc.
Qed.

(** X22. [read_csv] goes by the header.  An empty file gives no device.  When
    the first record has a column titled [IP Address], there is one device
    per record that is not blank, in order, made with the cell under the
    last such column, or with [None] when the record is too short to have
    that cell.  When it has none, the call ends in [KeyError] at the first
    record that is not blank, and returns the empty list when there is
    none.  A list whose addresses are all text is the one [read_rows]
    builds from the same rows. *)
Theorem read_csv_goes_by_the_header
        (fieldnames : list string) (records : list (list string)) :
  read_csv_records [] = Ok [] /\
  read_csv_records (fieldnames :: records)
  = match last_index "IP Address" fieldnames with
    | Some i => Ok (map (cell_at i) (filter nonblank records))
    | None =>
        match filter nonblank records with
        | [] => Ok []
        | _ :: _ => Raise KeyError_IP_Address
        end
    end /\
  (forall ips,
      read_csv_records (fieldnames :: records) = Ok (map CsvStr ips) ->
      read_csv (map text_row (DictReader (fieldnames :: records)))
      = Ok (map Device_init ips)).
Proof.
  split; [reflexivity|]. split.
  - unfold read_csv_records, DictReader.
    now rewrite (read_reader_zip_fields _ fieldnames _ eq_refl []).
  - intros ips H. unfold read_csv_records in H. unfold read_csv.
    exact (read_rows_of_text _ ips [] [] H).
Qed.

Lemma read_csv_goes_by_the_header_witness :
  read_csv_records [["Site"; "IP Address"]; ["Lab"; "10.0.0.1"]; []; ["Hall"]]
  = Ok [CsvStr "10.0.0.1"; CsvNone] /\
  read_csv_records [["Address"]; []; ["10.0.0.1"]] = Raise KeyError_IP_Address.
Proof.
  destruct (read_csv_goes_by_the_header
              ["Site"; "IP Address"] [["Lab"; "10.0.0.1"]; []; ["Hall"]])
    as (_ & A & _).
  destruct (read_csv_goes_by_the_header ["Address"] [[]; ["10.0.0.1"]])
    as (_ & B & _).
  split; [exact A | exact B].
Defined.

Lemma write_rows_acc (ds : list Device) (rest : list (option Device))
      (written : list (list cell)) :
  write_rows (map Some ds ++ rest) written
  = write_rows rest (written ++ map report_row ds).
Proof.
  revert written. induction ds as [|d ds IH]; intros written; cbn [map app].
  - now rewrite app_nil_r.
  - cbn [write_rows]. rewrite IH, <- app_assoc. reflexivity.
Qed.

Lemma write_csv_rows (ds : list Device) :
  write_csv (map Some ds) = (report_header :: map report_row ds, Ok tt) /\
  forall rest,
    write_csv (map Some ds ++ None :: rest)
    = (report_header :: map report_row ds,
       Raise (Exn AttributeError "'NoneType' object has no attribute 'name'")).
Proof.
  unfold write_csv. split.
  - rewrite <- (app_nil_r (map Some ds)), write_rows_acc. reflexivity.
  - intros rest. rewrite write_rows_acc. reflexivity.
Qed.

(** X23. [write_csv] writes the header and then one row per device, in order,
    and stops at the first [None] the pool handed over: the rows before it
    are written, the call ends in [AttributeError], and nothing after it
    is written, whatever follows. *)
Theorem write_csv_stops_at_the_first_None
        (ds : list Device) (rest : list (option Device)) :
  write_csv (map Some ds) = (report_header :: map report_row ds, Ok tt) /\
  write_csv (map Some ds ++ None :: rest)
  = (report_header :: map report_row ds,
     Raise (Exn AttributeError "'NoneType' object has no attribute 'name'")).
Proof.
  destruct (write_csv_rows ds) as [A B]. split; [exact A | apply B].
Qed.

Lemma write_rows_written (devices : list (option Device))
      (written : list (list cell)) :
  exists ds,
    fst (write_rows devices written) = written ++ map report_row ds /\
    (forall d, In d ds -> In (Some d) devices).
Proof.
  revert written. induction devices as [|[d|] rest IH]; intros written.
  - exists []. cbn. now rewrite app_nil_r.
  - destruct (IH (written ++ [report_row d])) as (ds & E & I).
    exists (d :: ds). cbn [write_rows map]. rewrite E, <- app_assoc.
    split; [reflexivity|]. intros x [<-|H]; [now left | right; now apply I].
  - exists []. cbn. rewrite app_nil_r. split; [reflexivity | intros _ []].
Qed.

Lemma map_Ok_inj {A} (a b : list A) :
  map (@Ok A) a = map (@Ok A) b -> a = b.
Proof.
  revert b. induction a as [|x a IH]; intros [|y b]; cbn; try discriminate.
  - reflexivity.
  - intros [= -> H]. now rewrite (IH _ H).
Qed.

Lemma map_Some_inv {A} (l : list (option A)) (f : A -> A) (items : list A) :
  Permutation l (map (fun d => Some (f d)) items) ->
  exists ds, l = map Some ds /\ Permutation ds (map f items).
Proof.
  intros P. rewrite <- (map_map f Some) in P.
  destruct (Permutation_map_inv _ _ P) as (ds & E & P').
  exists ds. split; [exact E | now apply Permutation_sym].
Qed.

Section MainFacts.

Context {W : Type} (env : Env W) (world_of : Device -> W).

Lemma upgrade_worker_without_credentials image_type image_location dest_drive
      reboot backup_cfg backup_location (device : Device) :
  truthy_credentials (credentials device) = false ->
  upgrade_worker env world_of image_type image_location dest_drive reboot
                 backup_cfg backup_location device
  = Ok (Some (set_connected false device)).
Proof.
  intros H. unfold upgrade_worker, run_upgrade_asa.
  rewrite upgrade_asa_handlers.
  assert (E : upgrade_asa_try env image_type image_location dest_drive reboot
                              backup_cfg backup_location
                              (mkSt (world_of device) device [])
              = (Raise (Exn ConnectionException "No Credentials provided"),
                 mkSt (world_of device) device [])).
  { unfold upgrade_asa_try, bind at 1, get_dev. cbn [fst snd dev].
    unfold bind at 1. now rewrite (connect_to_device_no_credentials env _ _ _ _ _ _ H). }
  rewrite E. reflexivity.
Qed.

Lemma upgrade_worker_without_reboot image_type image_location dest_drive
      backup_cfg backup_location (device device' : Device) :
  upgrade_worker env world_of image_type image_location dest_drive false
                 backup_cfg backup_location device
  = Ok (Some device') ->
  connected device' = false.
Proof.
  unfold upgrade_worker, run_upgrade_asa. rewrite upgrade_asa_handlers.
  pose proof (returned_by_try env device image_type image_location dest_drive
                              false backup_cfg backup_location
                              (world_of device)) as R.
  unfold wp in R. cbv zeta.
  destruct (upgrade_asa_try env image_type image_location dest_drive false
                            backup_cfg backup_location
                            (mkSt (world_of device) device []))
    as [r s'] eqn:E.
  cbn [fst snd] in *.
  destruct (handled r).
  - cbn. now intros [= <-].
  - destruct r as [[|]|e]; cbn; try discriminate.
    destruct (R eq_refl) as [F _]. discriminate F.
Qed.

(** X24. Without a reboot request the report never lists a device that was
    reached: whatever the appliances answer and however the threads are
    scheduled, every row [main] writes after the header has [False] in the
    Connected column. *)
Theorem main_without_reboot_reports_no_connected_device
        (input_rows : list cred) (image_type image_location dest_drive : string)
        (credentials : py_credentials) (backup_cfg : bool)
        (backup_location : option string) (worker_threads : nat)
        (schedule : list nat) (rows : list (list cell)) (r : res unit) :
  main env world_of input_rows image_type image_location dest_drive credentials
       false backup_cfg backup_location worker_threads schedule
  = Report rows r ->
  exists data,
    rows = report_header :: data /\
    Forall (fun row => nth_error row 2 = Some (CellBool false)) data.
Proof.
  unfold main.
  destruct (read_csv input_rows) as [device_list|e]; [|discriminate].
  set (worker := upgrade_worker env world_of image_type image_location
                                dest_drive false backup_cfg backup_location).
  destruct (ThreadingHelper.run worker _ worker_threads schedule)
    as [result|] eqn:R; [|discriminate].
  apply run_returns_all_results in R.
  assert (C : forall d, In (Some d) result -> connected d = false).
  { intros d I.
    assert (I' : In (Ok (Some d)) (map Ok result)) by now apply in_map.
    apply (Permutation_in _ R) in I'. apply in_map_iff in I' as (x & Hx & _).
    exact (upgrade_worker_without_reboot _ _ _ _ _ _ _ Hx). }
  clear R. unfold write_csv.
  destruct (write_rows_written result [report_header]) as (ds & E & I).
  destruct (write_rows result [report_header]) as [out r'].
  cbn [fst] in E. subst out. intros [= <- _].
  exists (map report_row ds). split; [reflexivity|].
  apply Forall_forall. intros row Hrow.
  apply in_map_iff in Hrow as (d & <- & Hd).
  cbn. now rewrite (C d (I d Hd)).
Qed.

(** X25. With credentials that count as none, [main] reaches no appliance:
    when it ends, the report is complete and lists every address of the
    input once, not connected, not rebooted, without a name and without an
    error text. *)
Theorem main_without_credentials_reports_every_device_unreached
        (input_rows : list cred) (image_type image_location dest_drive : string)
        (credentials : py_credentials) (reboot backup_cfg : bool)
        (backup_location : option string) (worker_threads : nat)
        (schedule : list nat) (rows : list (list cell)) (r : res unit) :
  truthy_credentials credentials = false ->
  main env world_of input_rows image_type image_location dest_drive credentials
       reboot backup_cfg backup_location worker_threads schedule
  = Report rows r ->
  r = Ok tt /\
  exists ips data,
    map (dict_get "IP Address") input_rows = map Some ips /\
    rows = report_header :: data /\
    Permutation data
                (map (fun ip => [CellStr EmptyString; CellStr ip; CellBool false;
                                 CellBool false; CellStr EmptyString]) ips).
Proof.
  intros Hc. unfold main, read_csv.
  destruct (read_rows_acc input_rows []) as [(ips & E & Rd)|[_ Rd]];
    rewrite Rd; [|discriminate].
  cbn [app].
  set (worker := upgrade_worker env world_of image_type image_location
                                dest_drive reboot backup_cfg backup_location).
  set (items := map (set_credentials credentials) (map Device_init ips)).
  destruct (ThreadingHelper.run worker items worker_threads schedule)
    as [result|] eqn:R; [|discriminate].
  apply run_returns_all_results in R.
  assert (Hw : map worker items
               = map Ok (map (fun d => Some (set_connected false d)) items)).
  { rewrite map_map. apply map_ext_in. intros d Hd.
    apply upgrade_worker_without_credentials.
    unfold items in Hd. rewrite map_map in Hd.
    apply in_map_iff in Hd as (ip & <- & _). exact Hc. }
  rewrite Hw in R.
  destruct (Permutation_map_inv _ _ (Permutation_sym R)) as (l3 & E3 & P3).
  apply map_Ok_inj in E3. subst l3.
  destruct (map_Some_inv result (set_connected false) items P3)
    as (ds & -> & Pd).
  destruct (write_csv_rows ds) as [Ew _]. rewrite Ew.
  intros [= <- <-]. split; [reflexivity|].
  exists ips, (map report_row ds). split; [exact E|]. split; [reflexivity|].
  apply (Permutation_map report_row) in Pd.
  unfold items in Pd. rewrite !map_map in Pd. exact Pd.
Qed.

(** X26. One upgrade that ends in an exception the two handlers do not catch
    is enough for [main] never to write the report: the thread dies with
    its task not marked done and [join()] waits for ever, under every
    schedule and with any number of workers. *)
Theorem main_waits_for_ever_when_an_upgrade_raises
        (input_rows : list cred) (image_type image_location dest_drive : string)
        (credentials : py_credentials) (reboot backup_cfg : bool)
        (backup_location : option string) (worker_threads : nat)
        (schedule : list nat) (devices : list Device) (device : Device)
        (e : exn) :
  read_csv input_rows = Ok devices ->
  In device devices ->
  upgrade_worker env world_of image_type image_location dest_drive reboot
                 backup_cfg backup_location
                 (set_credentials credentials device)
  = Raise e ->
  main env world_of input_rows image_type image_location dest_drive credentials
       reboot backup_cfg backup_location worker_threads schedule
  = WaitsForEver.
Proof.
  intros Rd I Hr. unfold main. rewrite Rd.
  rewrite (run_blocks_when_worker_raises _ _ worker_threads schedule
             (set_credentials credentials device) e); [reflexivity| |exact Hr].
  now apply in_map.
Qed.

End MainFacts.

Lemma main_without_reboot_reports_no_connected_device_witness :
  let rows := [[("IP Address", "10.0.0.1"); ("Site", "Lab")];
               [("Site", "Hall"); ("IP Address", "10.0.0.2")]] in
  let out :=
    main (Sim.netmiko Sim.rejecting) (fun _ => Sim.factory) rows
         "asa" "/tmp/asa9-8.bin" "disk0:" (CredList [Sim.admin]) false false None
         2 [0; 1; 0; 1; 0; 1; 0; 1; 1; 0; 0; 1] in
  out = Report [report_header;
                [CellStr EmptyString; CellStr "10.0.0.1"; CellBool false;
                 CellBool false; CellStr EmptyString];
                [CellStr EmptyString; CellStr "10.0.0.2"; CellBool false;
                 CellBool false; CellStr EmptyString]] (Ok tt) /\
  exists data,
    [report_header;
     [CellStr EmptyString; CellStr "10.0.0.1"; CellBool false;
      CellBool false; CellStr EmptyString];
     [CellStr EmptyString; CellStr "10.0.0.2"; CellBool false;
      CellBool false; CellStr EmptyString]] = report_header :: data /\
    Forall (fun row => nth_error row 2 = Some (CellBool false)) data.
Proof.
  cbv zeta. split; [vm_compute; reflexivity|].
  apply (main_without_reboot_reports_no_connected_device
           (Sim.netmiko Sim.rejecting) (fun _ => Sim.factory)
           [[("IP Address", "10.0.0.1"); ("Site", "Lab")];
            [("Site", "Hall"); ("IP Address", "10.0.0.2")]]
           "asa" "/tmp/asa9-8.bin" "disk0:" (CredList [Sim.admin]) false None
           2 [0; 1; 0; 1; 0; 1; 0; 1; 1; 0; 0; 1] _ (Ok tt)).
  vm_compute. reflexivity.
Defined.

Lemma main_without_credentials_reports_every_device_unreached_witness :
  let rows := [[("IP Address", "10.0.0.1")]; [("IP Address", "10.0.0.2")]] in
  truthy_credentials (CredList []) = false /\
  exists out r,
    main (Sim.netmiko Sim.happy) (fun _ => Sim.factory) rows
         "asa" "/tmp/asa9-8.bin" "disk0:" (CredList []) true false None
         1 [0; 0; 0; 0; 0; 0; 0; 0; 0; 0] = Report out r /\
    r = Ok tt /\ length out = 3.
Proof.
  cbv zeta. split; [reflexivity|].
  eexists. eexists. split; [vm_compute; reflexivity|].
  destruct (main_without_credentials_reports_every_device_unreached
              (Sim.netmiko Sim.happy) (fun _ => Sim.factory)
              [[("IP Address", "10.0.0.1")]; [("IP Address", "10.0.0.2")]]
              "asa" "/tmp/asa9-8.bin" "disk0:" (CredList []) true false None
              1 [0; 0; 0; 0; 0; 0; 0; 0; 0; 0] _ _ eq_refl
              ltac:(vm_compute; reflexivity)) as [A _].
  split; [exact A | reflexivity].
Defined.

Lemma main_waits_for_ever_when_an_upgrade_raises_witness :
  let rows := [[("IP Address", "10.0.0.1")]; [("IP Address", "10.0.0.2")]] in
  read_csv rows = Ok [Device_init "10.0.0.1"; Device_init "10.0.0.2"] /\
  (exists e,
      upgrade_worker (Sim.netmiko Sim.happy) (fun _ => Sim.factory)
                     "asa" "/tmp/asa9-8.bin" "disk0:" true false None
                     (set_credentials (CredList [Sim.admin])
                                      (Device_init "10.0.0.2"))
      = Raise e) /\
  forall worker_threads schedule,
    main (Sim.netmiko Sim.happy) (fun _ => Sim.factory) rows
         "asa" "/tmp/asa9-8.bin" "disk0:" (CredList [Sim.admin]) true false None
         worker_threads schedule
    = WaitsForEver.
Proof.
  cbv zeta. split; [reflexivity|]. split; [eexists; vm_compute; reflexivity|].
  intros worker_threads schedule.
  apply (main_waits_for_ever_when_an_upgrade_raises
           (Sim.netmiko Sim.happy) (fun _ => Sim.factory) _ _ _ _ _ _ _ _ _ _
           [Device_init "10.0.0.1"; Device_init "10.0.0.2"]
           (Device_init "10.0.0.2")
           (Exn AttributeError "send_confg_set")).
  - reflexivity.
  - right. left. reflexivity.
  - vm_compute. reflexivity.
Defined.

(** * More about the worker pool *)

Section PoolMore.

Context {Item Result : Type} (worker_func : Item -> res Result).

Ltac pool_fields' :=
  cbn [ThreadingHelper.input_queue ThreadingHelper.unfinished_tasks
       ThreadingHelper.output_queue ThreadingHelper.workers].

Lemma Forall_set_nth {A} (P : A -> Prop) i x (l : list A) :
  Forall P l -> P x -> Forall P (ThreadingHelper.set_nth i x l).
Proof.
  intros H Hx. revert i. induction H as [|y l Hy Hl IH]; intros [|i]; cbn;
    constructor; auto.
Qed.

Lemma step_idle i (p p' : @ThreadingHelper.pool Item Result) : idle p -> ThreadingHelper.step worker_func i p = Some p' -> idle p'.
Proof.
  intros (Hq & Hu & Ho & Hw). unfold ThreadingHelper.step.
  destruct (nth_error (ThreadingHelper.workers p) i) as [w|] eqn:E;
    [|discriminate].
  assert (Hi : w = ThreadingHelper.AtWhile \/ w = ThreadingHelper.Finished).
  { rewrite Forall_forall in Hw. apply Hw. now apply (nth_error_In _ i). }
  destruct Hi as [-> | ->]; [|discriminate].
  intros [= <-]. unfold idle. pool_fields'. rewrite Hq.
  split; [reflexivity|]. split; [assumption|]. split; [assumption|].
  apply Forall_set_nth; auto.
Qed.

Lemma run_schedule_idle schedule :
  forall p : @ThreadingHelper.pool Item Result, idle p -> idle (ThreadingHelper.run_schedule worker_func schedule p).
Proof.
  induction schedule as [|i rest IH]; intros p H; cbn; [exact H|].
  apply IH. destruct (ThreadingHelper.step worker_func i p) as [p'|] eqn:E; [|exact H].
  now apply (step_idle i p).
Qed.

Lemma run_schedule_without_workers schedule (p : @ThreadingHelper.pool Item Result) :
  ThreadingHelper.workers p = [] -> ThreadingHelper.run_schedule worker_func schedule p = p.
Proof.
  intros H. induction schedule as [|i rest IH]; cbn; [reflexivity|].
  unfold ThreadingHelper.step. rewrite H.
  now destruct i.
Qed.

Lemma run_schedule_app (a b : list nat) (p : @ThreadingHelper.pool Item Result) :
  ThreadingHelper.run_schedule worker_func (a ++ b) p
  = ThreadingHelper.run_schedule worker_func b
      (ThreadingHelper.run_schedule worker_func a p).
Proof.
  revert p. induction a as [|i a IH]; intros p; cbn; [reflexivity | apply IH].
Qed.

(** X27. The two edges of [run]: on an empty list it returns the empty list,
    with any number of workers and under every schedule; with no worker at
    all and something to do, [join()] never lets it return. *)
Theorem run_on_nothing_and_with_nobody :
  (forall num_of_workers schedule, ThreadingHelper.run worker_func [] num_of_workers schedule = Some []) /\
  (forall item items schedule, ThreadingHelper.run worker_func (item :: items) 0 schedule = None).
Proof.
  split.
  - intros n schedule. unfold ThreadingHelper.run.
    assert (H : idle (ThreadingHelper.start (Item:=Item) (Result:=Result) [] n)).
    { unfold idle, ThreadingHelper.start. pool_fields'.
      repeat (split; [reflexivity|]).
      apply Forall_forall. intros w Hw. apply repeat_spec in Hw. now left. }
    destruct (run_schedule_idle schedule _ H) as (_ & Hu & Ho & _).
    now rewrite Hu, Ho.
  - intros item items schedule. unfold ThreadingHelper.run.
    now rewrite run_schedule_without_workers.
Qed.

Lemma step_in_order items i (p p' : @ThreadingHelper.pool Item Result) :
  in_order worker_func items p -> ThreadingHelper.step worker_func i p = Some p' -> in_order worker_func items p'.
Proof.
  intros (w & Hw & Ho & Hu). unfold ThreadingHelper.step. rewrite Hw.
  destruct i as [|i]; [|destruct i; discriminate].
  cbn [nth_error ThreadingHelper.set_nth].
  destruct w as [| |item|r| | |e].
  - intros [= <-]. eexists. pool_fields'. split; [reflexivity|].
    destruct (ThreadingHelper.input_queue p); split; assumption.
  - destruct (ThreadingHelper.input_queue p) as [|item rest]; [discriminate|].
    intros [= <-]. eexists. pool_fields'. split; [reflexivity|].
    cbn in *. split; [exact Ho | lia].
  - intros [= <-]. eexists. pool_fields'. split; [reflexivity|].
    cbn in *. destruct (worker_func item); split; assumption.
  - intros [= <-]. eexists. pool_fields'. split; [reflexivity|].
    cbn in *. rewrite map_app, <- app_assoc. split; assumption.
  - destruct (ThreadingHelper.unfinished_tasks p) as [|n].
    + cbn in Hu. lia.
    + intros [= <-]. eexists. pool_fields'. split; [reflexivity|].
      cbn in *. split; [exact Ho | lia].
  - discriminate.
  - discriminate.
Qed.

Lemma run_schedule_in_order items schedule :
  forall p : @ThreadingHelper.pool Item Result, in_order worker_func items p -> in_order worker_func items (ThreadingHelper.run_schedule worker_func schedule p).
Proof.
  induction schedule as [|i rest IH]; intros p H; cbn; [exact H|].
  apply IH. destruct (ThreadingHelper.step worker_func i p) as [p'|] eqn:E; [|exact H].
  now apply (step_in_order items i p).
Qed.

(** X28. With a single worker the results come back in the order of the items,
    under every schedule: when [run] returns, its list is the list of the
    worker's results item by item. *)
Theorem one_worker_keeps_the_order items schedule out :
  ThreadingHelper.run worker_func items 1 schedule = Some out ->
  map Ok out = map worker_func items.
Proof.
  unfold ThreadingHelper.run.
  assert (H : in_order worker_func items (ThreadingHelper.start items 1)).
  { exists ThreadingHelper.AtWhile. unfold ThreadingHelper.start. pool_fields'.
    cbn. split; [reflexivity|]. split; [reflexivity | lia]. }
  destruct (run_schedule_in_order items schedule _ H) as (w & Hw & Ho & Hu).
  destruct (ThreadingHelper.unfinished_tasks _) eqn:U; [|discriminate].
  intros [= <-]. rewrite Ho.
  assert (Hq : ThreadingHelper.input_queue
                 (ThreadingHelper.run_schedule worker_func schedule (ThreadingHelper.start items 1)) = [])
    by (apply length_zero_iff_nil; lia).
  rewrite Hq in *. cbn in Hu.
  destruct w; cbn in Hu; try discriminate Hu; cbn; now rewrite app_nil_r.
Qed.

Lemma worker_0_alone (items : list Item) :
  forall (results out : list Result) (u total : nat)
         (ws : list ThreadingHelper.pc),
    map worker_func items = map Ok results ->
    total = length items + u ->
    ThreadingHelper.run_schedule worker_func (repeat 0 (5 * length items))
                 (ThreadingHelper.mkPool items total out
                                         (ThreadingHelper.AtWhile :: ws))
    = ThreadingHelper.mkPool [] u (out ++ results)
                             (ThreadingHelper.AtWhile :: ws).
Proof.
  induction items as [|item items IH]; intros results out u total ws Hr Ht.
  - destruct results; [|discriminate]. cbn in *. subst total.
    now rewrite app_nil_r.
  - destruct results as [|r results]; [discriminate|].
    cbn [map] in Hr. injection Hr as Hi Hr.
    cbn [length] in *. replace (5 * S (length items))
      with (5 + 5 * length items) by lia.
    subst total. cbn [Nat.add repeat ThreadingHelper.run_schedule].
    unfold ThreadingHelper.step at 5. pool_fields'.
    cbn [nth_error ThreadingHelper.set_nth].
    unfold ThreadingHelper.step at 4. pool_fields'.
    cbn [nth_error ThreadingHelper.set_nth].
    unfold ThreadingHelper.step at 3. pool_fields'.
    cbn [nth_error ThreadingHelper.set_nth]. rewrite Hi.
    unfold ThreadingHelper.step at 2. pool_fields'.
    cbn [nth_error ThreadingHelper.set_nth].
    unfold ThreadingHelper.step at 1. pool_fields'.
    cbn [nth_error ThreadingHelper.set_nth].
    rewrite (IH results (out ++ [r]) u (length items + u) ws Hr eq_refl).
    now rewrite <- app_assoc.
Qed.

(** X29. [run] does return: when the worker function returns on every item and
    the first thread is given five steps per item, [join()] lets [run]
    through with all the results, in order, whatever the other threads
    are and without any of them moving. *)
Theorem run_returns_when_one_worker_runs_alone items results more_workers :
  map worker_func items = map Ok results ->
  ThreadingHelper.run worker_func items (S more_workers) (repeat 0 (5 * length items)) = Some results.
Proof.
  intros H. unfold ThreadingHelper.run, ThreadingHelper.start.
  cbn [repeat].
  rewrite (worker_0_alone items results [] 0 (length items) _ H (plus_n_O _)).
  reflexivity.
Qed.

Lemma step_stuck i (p p' : @ThreadingHelper.pool Item Result) : stuck p -> ThreadingHelper.step worker_func i p = Some p' -> stuck p'.
Proof.
  intros (Hq & w & Hw & Hi). unfold ThreadingHelper.step. rewrite Hw, Hq.
  destruct i as [|[|i]]; cbn [nth_error ThreadingHelper.set_nth].
  - destruct Hi as [-> | ->]; [|discriminate].
    intros [= <-]. split; [reflexivity|]. eexists. pool_fields'.
    split; [reflexivity | now right].
  - discriminate.
  - destruct i; discriminate.
Qed.

Lemma run_schedule_stuck schedule :
  forall p : @ThreadingHelper.pool Item Result,
    stuck p ->
    stuck (ThreadingHelper.run_schedule worker_func schedule p) /\
    ThreadingHelper.output_queue (ThreadingHelper.run_schedule worker_func schedule p)
    = ThreadingHelper.output_queue p /\
    ThreadingHelper.unfinished_tasks (ThreadingHelper.run_schedule worker_func schedule p)
    = ThreadingHelper.unfinished_tasks p.
Proof.
  induction schedule as [|i rest IH]; intros p H; cbn; [auto|].
  destruct (ThreadingHelper.step worker_func i p) as [p'|] eqn:E; [|now apply IH].
  pose proof (step_stuck i p p' H E) as H'.
  destruct (IH p' H') as (A & B & C). split; [exact A|].
  rewrite B, C. clear - H E. destruct H as (Hq & w & Hw & Hi).
  unfold ThreadingHelper.step in E. rewrite Hw, Hq in E.
  destruct i as [|[|i]]; cbn [nth_error] in E.
  - destruct Hi as [-> | ->]; [|discriminate]. injection E as <-. auto.
  - discriminate.
  - destruct i; discriminate.
Qed.

(** X30. The test of the loop and the [get()] are two steps: a second thread
    that sees the one item queued, and is overtaken, blocks in [get()] on
    the empty queue.  [run] still returns the result, but under no
    continuation of the schedule does that thread ever move again. *)
Theorem overtaken_worker_blocks_in_get_for_ever item r more :
  worker_func item = Ok r ->
  let p := ThreadingHelper.run_schedule worker_func ([1; 0; 0; 0; 0; 0] ++ more)
                        (ThreadingHelper.start [item] 2) in
  ThreadingHelper.run worker_func [item] 2 ([1; 0; 0; 0; 0; 0] ++ more) = Some [r] /\
  nth_error (ThreadingHelper.workers p) 1 = Some ThreadingHelper.AtGet /\
  ThreadingHelper.step worker_func 1 p = None.
Proof.
  intros Hr. cbv zeta. unfold ThreadingHelper.run.
  rewrite run_schedule_app.
  assert (E : ThreadingHelper.run_schedule worker_func [1; 0; 0; 0; 0; 0]
                (ThreadingHelper.start [item] 2)
              = ThreadingHelper.mkPool
                  [] 0 [r] [ThreadingHelper.AtWhile; ThreadingHelper.AtGet]).
  { cbn. rewrite Hr. reflexivity. }
  rewrite E.
  assert (S0 : stuck (ThreadingHelper.mkPool
                        (Item:=Item) [] 0 [r]
                        [ThreadingHelper.AtWhile; ThreadingHelper.AtGet]))
    by (split; [reflexivity|]; eexists; split; [reflexivity | now left]).
  destruct (run_schedule_stuck more _ S0) as ((Hq & w & Hw & Hi) & Ho & Hu).
  cbn [ThreadingHelper.output_queue ThreadingHelper.unfinished_tasks] in Ho, Hu.
  rewrite Hu, Ho. split; [reflexivity|].
  unfold ThreadingHelper.step. rewrite Hw, Hq. split; reflexivity.
Qed.

End PoolMore.

Lemma one_worker_keeps_the_order_witness :
  let double := fun n : nat => @Ok nat (2 * n) in
  ThreadingHelper.run double [1; 2; 3] 1
                      [0; 0; 3; 0; 0; 0; 0; 1; 0; 0; 0; 0; 0; 0; 0; 0; 0; 0]
  = Some [2; 4; 6] /\
  map Ok [2; 4; 6] = map double [1; 2; 3].
Proof.
  cbv zeta. split; [reflexivity|].
  exact (one_worker_keeps_the_order
           (fun n : nat => @Ok nat (2 * n)) [1; 2; 3]
           [0; 0; 3; 0; 0; 0; 0; 1; 0; 0; 0; 0; 0; 0; 0; 0; 0; 0] [2; 4; 6]
           eq_refl).
Defined.

Lemma run_returns_when_one_worker_runs_alone_witness :
  let double := fun n : nat => @Ok nat (2 * n) in
  map double [1; 2; 3] = map Ok [2; 4; 6] /\
  ThreadingHelper.run double [1; 2; 3] 4 (repeat 0 15) = Some [2; 4; 6].
Proof.
  cbv zeta. split; [reflexivity|].
  exact (run_returns_when_one_worker_runs_alone
           (fun n : nat => @Ok nat (2 * n)) [1; 2; 3] [2; 4; 6] 3 eq_refl).
Defined.

Lemma overtaken_worker_blocks_in_get_for_ever_witness :
  let double := fun n : nat => @Ok nat (2 * n) in
  double 21 = Ok 42 /\
  ThreadingHelper.run double [21] 2 [1; 0; 0; 0; 0; 0; 1; 1; 0; 1] = Some [42] /\
  ThreadingHelper.step double 1
    (ThreadingHelper.run_schedule double [1; 0; 0; 0; 0; 0; 1; 1; 0; 1]
                                  (ThreadingHelper.start [21] 2))
  = None.
Proof.
  cbv zeta. split; [reflexivity|].
  destruct (overtaken_worker_blocks_in_get_for_ever
              (fun n : nat => @Ok nat (2 * n)) 21 42 [1; 1; 0; 1] eq_refl)
    as (A & _ & C).
  split; [exact A | exact C].
Defined.
